(** * CNPJ enrichment script: a shallow embedding of [scriptpython.py]

    The script reads a CRM table, normalises a tax identifier per row,
    queries a remote registry with pacing and retries, flattens the answer
    and writes the joined table back.  This development embeds the script's
    functions and states its behavioural contract as theorems.

    Modelling conventions, fixed once here:
    - Python text is a [string] over the code points 0..255.
    - Python objects are [value]s; [VNone] is [None] and [VNaN] the float
      [nan] that pandas uses for a missing cell.  Other floats do not occur.
    - A table read with [dtype=str] holds text and [nan] in columns of
      objects; a value stored in such a column is kept as it is.
    - Wall-clock time is an exact number of milliseconds; the clock moves
      only when the script sleeps.
    - The remote end is a function from the request's number and address
      to what [requests.get] does; the headers, the query parameters and
      the timeout are constants of the script and are not shown.
    - A file is a table of text cells: delimiters, quoting and encoding
      are left to the reader and the writer.
    - Console output ([print]) is not modelled. *)

From Stdlib Require Import ZArith NArith List String Ascii Bool Lia.
From Stdlib Require Import DecimalString.
Import ListNotations.

Local Open Scope string_scope.
Local Open Scope list_scope.
Local Open Scope Z_scope.

Notation "s1 +++ s2" := (String.append s1 s2)
  (at level 60, right associativity).

(* ================================================================= *)
(** ** Python values *)

Set Warnings "-register-all".

Inductive value : Type :=
| VNone
| VNaN
| VBool (b : bool)
| VInt (z : Z)
| VStr (s : string)
| VList (l : list value)
| VDict (d : list (string * value)).

(** A Python [dict] with text keys, in insertion order. *)
Definition dict := list (string * value).

Module Dict.

Fixpoint lookup (k : string) (d : dict) : option value :=
  match d with
  | [] => None
  | (k', v) :: d' => if String.eqb k k' then Some v else lookup k d'
  end.

(** [d.get(k)]: the value, or [None]. *)
Definition get (k : string) (d : dict) : value :=
  match lookup k d with Some v => v | None => VNone end.

(** [d[k] = v]: overwrite where the key is, append otherwise. *)
Fixpoint set (k : string) (v : value) (d : dict) : dict :=
  match d with
  | [] => [(k, v)]
  | (k', v') :: d' =>
      if String.eqb k k' then (k', v) :: d' else (k', v') :: set k v d'
  end.

Definition keys (d : dict) : list string := map fst d.

End Dict.

(** Truth value of an object, as [if x:], [not x] and [x or y] take it.
    The float [nan] is true. *)
Definition truthy (v : value) : bool :=
  match v with
  | VNone => false
  | VNaN => true
  | VBool b => b
  | VInt z => negb (z =? 0)
  | VStr s => negb (String.eqb s "")
  | VList l => match l with [] => false | _ => true end
  | VDict d => match d with [] => false | _ => true end
  end.

(** [x or y] *)
Definition py_or (x y : value) : value := if truthy x then x else y.

Definition dec (z : Z) : string := NilZero.string_of_int (Z.to_int z).

Definition join (sep : string) (l : list string) : string :=
  String.concat sep l.

(** [str(x)].  Exact on scalars.  Inside a container text is shown between
    single quotes without escapes. *)
Fixpoint py_repr (v : value) : string :=
  match v with
  | VNone => "None"
  | VNaN => "nan"
  | VBool true => "True"
  | VBool false => "False"
  | VInt z => dec z
  | VStr s => "'" +++ s +++ "'"
  | VList l => "[" +++ join ", " (map py_repr l) +++ "]"
  | VDict d =>
      "{" +++ join ", "
        (map (fun kv => "'" +++ fst kv +++ "': " +++ py_repr (snd kv)) d)
      +++ "}"
  end.

Definition py_str (v : value) : string :=
  match v with
  | VStr s => s
  | _ => py_repr v
  end.

(** [pandas.isna] on a scalar. *)
Definition pd_isna (v : value) : bool :=
  match v with
  | VNone | VNaN => true
  | _ => false
  end.

(* ================================================================= *)
(** ** Characters *)

(** [str.isdigit] on the code points 0..255: the decimal digits and the
    superscripts U+00B2, U+00B3, U+00B9. *)
Definition isdigit (ch : ascii) : bool :=
  let n := N_of_ascii ch in
  (((48 <=? n) && (n <=? 57)) || (n =? 178) || (n =? 179) || (n =? 185))%N.

(** [str.lower] on the code points 0..255. *)
Definition lower_char (ch : ascii) : ascii :=
  let n := N_of_ascii ch in
  if (((65 <=? n) && (n <=? 90))
      || ((192 <=? n) && (n <=? 222) && negb (n =? 215)))%N
  then ascii_of_N (n + 32) else ch.

Definition lower (s : string) : string :=
  string_of_list_ascii (map lower_char (list_ascii_of_string s)).

(* ================================================================= *)
(** ** Configuration *)

Definition BASE_URL : string := "https://api.cnpja.com".
Definition INPUT_CSV : string := "CRM.csv".
Definition OUTPUT_CSV : string := "CRMdadosatualizados.csv".
Definition CNPJ_COLUMN_NAME : string := "cnpj_normalizadoapi".
Definition MAX_REQUESTS_PER_MINUTE : Z := 60.
Definition START_INDEX : nat := 0.

(* ================================================================= *)
(** ** Identifier normaliser *)

(** ["".join(ch for ch in s if ch.isdigit())] *)
Definition keep_digits (s : string) : string :=
  string_of_list_ascii (filter isdigit (list_ascii_of_string s)).

Definition normalize_cnpj (cnpj_raw : value) : value :=
  if pd_isna cnpj_raw then VNone
  else
    let digits := keep_digits (py_str cnpj_raw) in
    if (String.length digits =? 14)%nat then VStr digits else VNone.

(* ================================================================= *)
(** ** Effects: clock, network and files *)

(** What one [requests.get] does: it raises a [RequestException] with a
    description, or it returns a response whose body either parses
    ([Some]) or makes [response.json()] raise [ValueError] ([None]). *)
Inductive reply : Type :=
| RequestException (description : string)
| Response (status_code : Z) (json : option value).

Inductive event : Type :=
| Get (url : string)
| Sleep (ms : Z).

(** A delimited text file, already split into its header and its lines of
    cells. *)
Record csv_file : Type := mkCsv {
  header : list string;
  lines : list (list string)
}.

(** The outside world.  [server w n url] is what the [n]-th request of the
    run gets when it asks for [url]; [issued] counts the requests sent. *)
Record world : Type := mkWorld {
  clock : Z;
  server : nat -> string -> reply;
  issued : nat;
  trace : list event;
  files : list (string * csv_file)
}.

Definition apply_event (e : event) (w : world) : world :=
  match e with
  | Get _ =>
      mkWorld (clock w) (server w) (S (issued w)) (trace w ++ [e]) (files w)
  | Sleep ms =>
      mkWorld (clock w + ms) (server w) (issued w) (trace w ++ [e]) (files w)
  end.

Definition run_events (es : list event) (w : world) : world :=
  fold_left (fun w e => apply_event e w) es w.

Inductive exn : Type :=
| FileNotFoundError
| ValueError
| KeyError
| AttributeError
| OutOfFuel.   (* a [while True] loop of the model ran out of fuel *)

Inductive outcome (A : Type) : Type :=
| Return (a : A)
| Raise (e : exn).
Arguments Return {A} a.
Arguments Raise {A} e.

Definition M (A : Type) : Type := world -> outcome A * world.

Definition ret {A} (a : A) : M A := fun w => (Return a, w).

Definition raise {A} (e : exn) : M A := fun w => (Raise e, w).

Definition bind {A B} (c : M A) (k : A -> M B) : M B :=
  fun w =>
    match c w with
    | (Return a, w') => k a w'
    | (Raise e, w') => (Raise e, w')
    end.

Notation "x <- c ;; k" := (bind c (fun x => k))
  (at level 61, c at next level, right associativity).
Notation "c ;;; k" := (bind c (fun _ => k))
  (at level 61, right associativity).

(** [time.time()] *)
Definition time_time : M Z := fun w => (Return (clock w), w).

(** [time.sleep(ms / 1000)] *)
Definition time_sleep (ms : Z) : M unit :=
  fun w => (Return tt, apply_event (Sleep ms) w).

(** [requests.get(url, ...)], with the exception it may raise reified. *)
Definition requests_get (url : string) : M reply :=
  fun w => (Return (server w (issued w) url), apply_event (Get url) w).

Definition seconds (n : Z) : Z := 1000 * n.

(* ================================================================= *)
(** ** Lookup client *)

Definition office_url (cnpj : value) : string :=
  BASE_URL +++ "/office/" +++ py_str cnpj.

(** [try: response.json() except ValueError: None] *)
Definition json_data_of (json : option value) : value :=
  match json with
  | Some v => v
  | None => VNone
  end.

Definition is_none (v : value) : bool :=
  match v with VNone => true | _ => false end.

(** The envelope built for a response that arrived. *)
Definition envelope_of_response (status_code : Z) (json : option value)
  : dict :=
  let json_data := json_data_of json in
  if (status_code =? 200) && negb (is_none json_data) then
    [("success", VBool true);
     ("error", VNone);
     ("http_status", VInt 200);
     ("data", json_data)]
  else
    [("success", VBool false);
     ("error", VStr ("http_error_" +++ dec status_code));
     ("http_status", VInt status_code);
     ("data", json_data)].

(** The envelope built when the attempts are used up. *)
Definition envelope_exhausted (last_exception_str : value) : dict :=
  [("success", VBool false);
   ("error", VStr ("request_exception: " +++ py_str last_exception_str));
   ("http_status", VNone);
   ("data", VNone)].

(** The body of [for attempt in range(max_retries)], over the attempts
    still to make. *)
Fixpoint fetch_attempts (cnpj : value) (attempts : list nat)
    (last_exception_str : value) : M dict :=
  match attempts with
  | [] => ret (envelope_exhausted last_exception_str)
  | attempt :: rest =>
      r <- requests_get (office_url cnpj) ;;
      match r with
      | Response status_code json =>
          ret (envelope_of_response status_code json)
      | RequestException e =>
          let sleep_time := 2 ^ Z.of_nat attempt in
          time_sleep (seconds sleep_time) ;;;
          fetch_attempts cnpj rest (VStr e)
      end
  end.

Definition fetch_cnpj_data (cnpj : value) (max_retries : nat) : M dict :=
  fetch_attempts cnpj (seq 0 max_retries) VNone.

Definition default_max_retries : nat := 5.

(* ================================================================= *)
(** ** Rate limiter *)

Definition sleep_if_necessary (request_count : Z) (start_window : Z)
  : M (Z * Z) :=
  now <- time_time ;;
  let elapsed := now - start_window in
  if request_count >=? MAX_REQUESTS_PER_MINUTE then
    (if elapsed <? seconds 60 then
       let wait_time := seconds 60 - elapsed in
       time_sleep wait_time
     else ret tt) ;;;
    (* Reset window *)
    now' <- time_time ;;
    ret (0, now')
  else
    ret (request_count, start_window).

(* ================================================================= *)
(** ** Response flattener *)

Definition obind {A B} (c : outcome A) (k : A -> outcome B) : outcome B :=
  match c with
  | Return a => k a
  | Raise e => Raise e
  end.

Notation "x <-? c ;; k" := (obind c (fun x => k))
  (at level 61, c at next level, right associativity).

(** A computation that leaves the world alone. *)
Definition lift {A} (c : outcome A) : M A := fun w => (c, w).

(** [obj.get(key)]: only a dict has the method. *)
Definition py_get (key : string) (obj : value) : outcome value :=
  match obj with
  | VDict d => Return (Dict.get key d)
  | _ => Raise AttributeError
  end.

(** The entries ["column": obj.get("key")] of a dict display, in order. *)
Fixpoint entries (obj : value) (cols : list (string * string))
  : outcome dict :=
  match cols with
  | [] => Return []
  | (column, key) :: rest =>
      v <-? py_get key obj ;;
      d <-? entries obj rest ;;
      Return ((column, v) :: d)
  end.

Definition extract_fields (api_result : dict) : outcome dict :=
  let data := py_or (Dict.get "data" api_result) (VDict []) in
  company <-? py_get "company" data ;;
  let company := py_or company (VDict []) in
  address <-? py_get "address" data ;;
  let address := py_or address (VDict []) in
  main_activity <-? py_get "mainActivity" data ;;
  let main_activity := py_or main_activity (VDict []) in
  size <-? py_get "size" company ;;
  let size := py_or size (VDict []) in
  f_api <-? entries (VDict api_result)
    [("api_success", "success");
     ("api_http_status", "http_status");
     ("api_error", "error")] ;;
  f_company <-? entries company
    [("razao_social", "name");
     ("nome_fantasia", "alias");
     ("data_abertura", "openingDate");
     ("natureza_juridica", "legalNature")] ;;
  f_size <-? entries size
    [("porte_id", "id");
     ("porte_sigla", "acronym");
     ("porte_descricao", "text")] ;;
  f_activity <-? entries main_activity
    [("cnae_principal_codigo", "id");
     ("cnae_principal_descricao", "text")] ;;
  f_address <-? entries address
    [("endereco_logradouro", "street");
     ("endereco_numero", "number");
     ("endereco_complemento", "complement");
     ("endereco_bairro", "district");
     ("endereco_cidade", "city");
     ("endereco_uf", "state");
     ("endereco_cep", "zip")] ;;
  f_status <-? entries data
    [("situacao_cadastral", "status");
     ("data_situacao_cadastral", "statusDate");
     ("matriz_ou_filial", "headquarterOrBranch")] ;;
  Return (f_api ++ f_company ++ f_size ++ f_activity ++ f_address
          ++ f_status).

(* ================================================================= *)
(** ** The 429 policy at the call site *)

Definition is_int (n : Z) (v : value) : bool :=
  match v with
  | VInt z => z =? n
  | _ => false
  end.

(** The [while True] loop around [fetch_cnpj_data], written out once: the
    two drivers carry the same text. *)
Fixpoint query_loop (fuel : nat) (cnpj : value) (attempts_429 : Z)
  : M dict :=
  match fuel with
  | O => raise OutOfFuel
  | S fuel' =>
      api_result <- fetch_cnpj_data cnpj default_max_retries ;;
      let http_status := Dict.get "http_status" api_result in
      if is_int 429 http_status then
        let attempts_429 := attempts_429 + 1 in
        if attempts_429 >=? 3 then ret api_result
        else
          time_sleep (seconds 60) ;;;
          query_loop fuel' cnpj attempts_429
      else ret api_result
  end.

Definition query_with_429_retry (cnpj : value) : M dict :=
  query_loop 3 cnpj 0.

(* ================================================================= *)
(** ** Tables *)

(** A pandas [DataFrame] whose index is the default one, 0, 1, 2, ...:
    a row's label is its position.  Every row has one cell per column. *)
Record DataFrame : Type := mkDF {
  columns : list string;
  rows : list (list value)
}.

Definition mem (c : string) (cols : list string) : bool :=
  existsb (String.eqb c) cols.

Fixpoint index_of (c : string) (cols : list string) : option nat :=
  match cols with
  | [] => None
  | c' :: rest =>
      if String.eqb c c' then Some O
      else option_map S (index_of c rest)
  end.

(** The texts [read_csv] takes for a missing cell by default. *)
Definition na_values : list string :=
  [""; "#N/A"; "#N/A N/A"; "#NA"; "-1.#IND"; "-1.#QNAN"; "-NaN"; "-nan";
   "1.#IND"; "1.#QNAN"; "<NA>"; "N/A"; "NA"; "NULL"; "NaN"; "None";
   "n/a"; "nan"; "null"].

(** One cell read with [dtype=str]: text, or [nan] when missing. *)
Definition read_cell (s : string) : value :=
  if mem s na_values then VNaN else VStr s.

(** The reader renames a repeated header [name] to [name.1], [name.2], ...
    A clash of such a name with a header already there is not modelled. *)
Fixpoint dedup_names (seen : list string) (names : list string)
  : list string :=
  match names with
  | [] => []
  | n :: rest =>
      let k := count_occ string_dec seen n in
      (if (k =? 0)%nat then n else n +++ "." +++ dec (Z.of_nat k))
        :: dedup_names (n :: seen) rest
  end.

(** [pd.read_csv(..., dtype=str)] on a file already split into cells; a
    short line is filled with missing cells.  No line is taken to have
    more cells than the header. *)
Definition frame_of_csv (f : csv_file) : DataFrame :=
  let width := List.length (header f) in
  mkDF (dedup_names [] (header f))
       (map (fun line =>
               map (fun j => read_cell (nth j line "")) (seq 0 width))
            (lines f)).

(** How [to_csv] prints a cell: nothing for a missing one. *)
Definition csv_text (v : value) : string :=
  if pd_isna v then "" else py_str v.

(** [df.to_csv(..., index=False)] *)
Definition csv_of_frame (df : DataFrame) : csv_file :=
  mkCsv (columns df) (map (map csv_text) (rows df)).

(** [row[c]] on a row with labels [cols] *)
Definition series_item (cols : list string) (row : list value) (c : string)
  : outcome value :=
  match index_of c cols with
  | Some j => Return (nth j row VNaN)
  | None => Raise KeyError
  end.

(** [row.get(c, None)] *)
Definition series_get (cols : list string) (row : list value) (c : string)
  : value :=
  match index_of c cols with
  | Some j => nth j row VNaN
  | None => VNone
  end.

(** [df[c]] *)
Definition column (df : DataFrame) (c : string) : outcome (list value) :=
  match index_of c (columns df) with
  | Some j => Return (map (fun row => nth j row VNaN) (rows df))
  | None => Raise KeyError
  end.

Fixpoint replace_nth {A} (j : nat) (x : A) (l : list A) : list A :=
  match l, j with
  | [], _ => []
  | _ :: t, O => x :: t
  | h :: t, S j' => h :: replace_nth j' x t
  end.

Fixpoint remove_nth {A} (j : nat) (l : list A) : list A :=
  match l, j with
  | [], _ => []
  | _ :: t, O => t
  | h :: t, S j' => h :: remove_nth j' t
  end.

(** [df[c] = vals], one value per row: in place when the column is there,
    as a new last column otherwise. *)
Definition set_column (c : string) (vals : list value) (df : DataFrame)
  : DataFrame :=
  match index_of c (columns df) with
  | Some j =>
      mkDF (columns df)
           (map (fun rv => replace_nth j (snd rv) (fst rv))
                (combine (rows df) vals))
  | None =>
      mkDF (columns df ++ [c])
           (map (fun rv => fst rv ++ [snd rv]) (combine (rows df) vals))
  end.

(** [f idx row] for every row with its label. *)
Definition imap {A B} (f : nat -> A -> B) (l : list A) : list B :=
  map (fun ir => f (fst ir) (snd ir)) (combine (seq 0 (List.length l)) l).

(** [df.at[idx, c] = v].  Under a column that the table has, the cell
    takes the value as it is.  A column that is not there is added,
    missing in every other row; pandas chooses the type of an added column
    by the value (it stores an integer as a float and refuses a list or a
    dict), which is not modelled: the added cell holds the value as it is.
    What is stated below of a cell written with a value other than a text
    or a truth value is stated for a column that the table has. *)
Definition at_set (idx : nat) (c : string) (v : value) (df : DataFrame)
  : DataFrame :=
  match index_of c (columns df) with
  | Some j =>
      mkDF (columns df)
           (imap (fun i row => if (i =? idx)%nat
                               then replace_nth j v row else row)
                 (rows df))
  | None =>
      mkDF (columns df ++ [c])
           (imap (fun i row => row ++ [if (i =? idx)%nat then v else VNaN])
                 (rows df))
  end.

(** [df.iterrows()]: the rows with their labels. *)
Definition iterrows (df : DataFrame) : list (nat * list value) :=
  combine (seq 0 (List.length (rows df))) (rows df).

(** The keys of a list of dicts, each at its first appearance. *)
Fixpoint add_keys (acc : list string) (ks : list string) : list string :=
  match ks with
  | [] => acc
  | k :: rest => add_keys (if mem k acc then acc else acc ++ [k]) rest
  end.

Definition all_keys (records : list dict) : list string :=
  fold_left (fun acc d => add_keys acc (Dict.keys d)) records [].

(** [pd.DataFrame(records)]: one row per dict, a key that a dict lacks is a
    missing cell.  The conversion of a column to a numeric type is not
    modelled: pandas turns a column of integers with a missing cell into
    floats, and writes 1 as [1.0] there.  Nothing below states how such a
    cell of the written table prints. *)
Definition frame_of_records (records : list dict) : DataFrame :=
  let cols := all_keys records in
  mkDF cols
       (map (fun d =>
               map (fun c => match Dict.lookup c d with
                             | Some v => v
                             | None => VNaN
                             end) cols)
            records).

(** A frame whose index is one of its former columns. *)
Record IndexedFrame : Type := mkIx {
  ix_columns : list string;
  ix_labels : list value;
  ix_rows : list (list value)
}.

(** [df.set_index(c)] *)
Definition set_index (c : string) (df : DataFrame) : outcome IndexedFrame :=
  match index_of c (columns df) with
  | Some j =>
      Return (mkIx (remove_nth j (columns df))
                   (map (fun row => nth j row VNaN) (rows df))
                   (map (remove_nth j) (rows df)))
  | None => Raise KeyError
  end.

(** The rows of [right] filed under label [i]. *)
Definition matches (i : nat) (right : IndexedFrame) : list (list value) :=
  map snd
      (filter (fun lr => is_int (Z.of_nat i) (fst lr))
              (combine (ix_labels right) (ix_rows right))).

(** [left.join(right, how="left", rsuffix=rsuffix)]: every row of [left],
    in order, once per row of [right] under the same label, or once with
    missing cells when there is none.  A column of [right] whose name is
    also in [left] gets the suffix. *)
Definition join_left (left : DataFrame) (right : IndexedFrame)
    (rsuffix : string) : DataFrame :=
  let rcols :=
    map (fun c => if mem c (columns left) then c +++ rsuffix else c)
        (ix_columns right) in
  let blank := map (fun _ => VNaN) (ix_columns right) in
  mkDF (columns left ++ rcols)
       (flat_map
          (fun ir =>
             match matches (fst ir) right with
             | [] => [snd ir ++ blank]
             | ms => map (fun r => snd ir ++ r) ms
             end)
          (iterrows left)).

(* ================================================================= *)
(** ** Files *)

Fixpoint find_file (path : string) (fs : list (string * csv_file))
  : option csv_file :=
  match fs with
  | [] => None
  | (p, f) :: rest => if String.eqb path p then Some f else find_file path rest
  end.

Fixpoint store_file (path : string) (f : csv_file)
    (fs : list (string * csv_file)) : list (string * csv_file) :=
  match fs with
  | [] => [(path, f)]
  | (p, g) :: rest =>
      if String.eqb path p then (p, f) :: rest
      else (p, g) :: store_file path f rest
  end.

(** [Path(path).exists()] *)
Definition path_exists (path : string) : M bool :=
  fun w =>
    (Return (match find_file path (files w) with
             | Some _ => true
             | None => false
             end), w).

Definition read_csv (path : string) : M DataFrame :=
  fun w =>
    match find_file path (files w) with
    | Some f => (Return (frame_of_csv f), w)
    | None => (Raise FileNotFoundError, w)
    end.

Definition to_csv (path : string) (df : DataFrame) : M unit :=
  fun w =>
    (Return tt,
     mkWorld (clock w) (server w) (issued w) (trace w)
             (store_file path (csv_of_frame df) (files w))).

(* ================================================================= *)
(** ** Batch driver: full run *)

(** What the loops carry from one row to the next. *)
Record pacing : Type := mkPacing {
  request_count : Z;
  window_start : Z
}.

(** The body of the [for idx, row in ...] loop of [main]. *)
Definition main_row (cols : list string) (idx : nat) (row : list value)
    (p : pacing) (resultados : list dict) : M (pacing * list dict) :=
  cnpj_raw <- lift (series_item cols row CNPJ_COLUMN_NAME) ;;
  cnpj <- lift (series_item cols row "cnpj_normalizado") ;;
  if negb (truthy cnpj) then
    ret (p,
         resultados ++
           [[("index_origem", VInt (Z.of_nat idx));
             ("cnpj_original", cnpj_raw);
             ("cnpj_normalizado", cnpj);
             ("api_success", VBool false);
             ("api_http_status", VNone);
             ("api_error", VStr "cnpj_invalido")]])
  else
    cw <- sleep_if_necessary (request_count p) (window_start p) ;;
    api_result <- query_with_429_retry cnpj ;;
    let request_count := fst cw + 1 in
    fields <- lift (extract_fields api_result) ;;
    let fields := Dict.set "index_origem" (VInt (Z.of_nat idx)) fields in
    let fields := Dict.set "cnpj_original" cnpj_raw fields in
    let fields := Dict.set "cnpj_normalizado" cnpj fields in
    time_sleep 500 ;;;
    ret (mkPacing request_count (snd cw), resultados ++ [fields]).

Fixpoint main_loop (cols : list string) (items : list (nat * list value))
    (p : pacing) (resultados : list dict) : M (pacing * list dict) :=
  match items with
  | [] => ret (p, resultados)
  | (idx, row) :: rest =>
      st <- main_row cols idx row p resultados ;;
      main_loop cols rest (fst st) (snd st)
  end.

Definition main : M unit :=
  found <- path_exists INPUT_CSV ;;
  if negb found then raise FileNotFoundError
  else
    df <- read_csv INPUT_CSV ;;
    if negb (mem CNPJ_COLUMN_NAME (columns df)) then raise ValueError
    else
      raw <- lift (column df CNPJ_COLUMN_NAME) ;;
      let df := set_column "cnpj_normalizado" (map normalize_cnpj raw) df in
      window_start <- time_time ;;
      st <- main_loop (columns df) (skipn START_INDEX (iterrows df))
                      (mkPacing 0 window_start) [] ;;
      let df_resultados := frame_of_records (snd st) in
      right <- lift (set_index "index_origem" df_resultados) ;;
      let df_final := join_left df right "api" in
      to_csv OUTPUT_CSV df_final.

(* ================================================================= *)
(** ** Batch driver: retry-only run *)

(** [df[c].astype(str).str.lower() != "true"] *)
Definition not_true (v : value) : bool :=
  negb (String.eqb (lower (py_str v)) "true").

(** The labels of the rows that a mask selects. *)
Definition masked_index (mask : list bool) : list nat :=
  map fst (filter snd (combine (seq 0 (List.length mask)) mask)).

Definition set_fields (idx : nat) (fields : dict) (df : DataFrame)
  : DataFrame :=
  fold_left (fun df cv => at_set idx (fst cv) (snd cv) df) fields df.

(** The body of the [for i, idx in enumerate(df_retry.index)] loop. *)
Definition reprocess_row (idx : nat) (p : pacing) (df_final : DataFrame)
  : M (pacing * DataFrame) :=
  let row := nth idx (rows df_final) [] in
  let cnpj_raw := series_get (columns df_final) row CNPJ_COLUMN_NAME in
  let cnpj := series_get (columns df_final) row "cnpj_normalizado" in
  if negb (truthy cnpj) then
    let df_final := at_set idx "api_success" (VBool false) df_final in
    let df_final :=
      at_set idx "api_error" (VStr "cnpj_invalido_retry") df_final in
    ret (p, df_final)
  else
    cw <- sleep_if_necessary (request_count p) (window_start p) ;;
    api_result <- query_with_429_retry cnpj ;;
    let request_count := fst cw + 1 in
    fields <- lift (extract_fields api_result) ;;
    let df_final := set_fields idx fields df_final in
    let df_final := at_set idx "cnpj_original" cnpj_raw df_final in
    let df_final := at_set idx "cnpj_normalizado" cnpj df_final in
    ret (mkPacing request_count (snd cw), df_final).

Fixpoint reprocess_loop (retry : list nat) (p : pacing)
    (df_final : DataFrame) : M (pacing * DataFrame) :=
  match retry with
  | [] => ret (p, df_final)
  | idx :: rest =>
      st <- reprocess_row idx p df_final ;;
      reprocess_loop rest (fst st) (snd st)
  end.

Definition reprocess_failed : M unit :=
  found <- path_exists OUTPUT_CSV ;;
  if negb found then raise FileNotFoundError
  else
    df_final <- read_csv OUTPUT_CSV ;;
    if negb (mem "api_success" (columns df_final)) then raise ValueError
    else
      flags <- lift (column df_final "api_success") ;;
      let mask_retry := map not_true flags in
      let retry := masked_index mask_retry in
      match retry with
      | [] => ret tt
      | _ =>
          window_start <- time_time ;;
          st <- reprocess_loop retry (mkPacing 0 window_start) df_final ;;
          to_csv OUTPUT_CSV (snd st)
      end.

(* ================================================================= *)
(** ** The normaliser's contract, in the specification's words *)

(** The contract's wording, "strip all non-digit characters", as a relation
    between the raw characters and what is left of them. *)
Inductive stripped : list ascii -> list ascii -> Prop :=
| stripped_nil : stripped [] []
| stripped_keep c s d :
    isdigit c = true -> stripped s d -> stripped (c :: s) (c :: d)
| stripped_drop c s d :
    isdigit c = false -> stripped s d -> stripped (c :: s) d.


(* ================================================================= *)
(** ** Vocabulary of the statements *)

(** The reply that the [k]-th request from now gets. *)
Definition nth_reply (w : world) (url : string) (k : nat) : reply :=
  server w (issued w + k)%nat url.

(** What [k] failed attempts, numbered from [a], leave in the trace: each
    request is followed by its backoff sleep of [2 ^ attempt] seconds. *)
Definition backoff_events (url : string) (a k : nat) : list event :=
  flat_map (fun attempt =>
              [Get url; Sleep (seconds (2 ^ Z.of_nat attempt))])
           (seq a k).

(** The description kept in [last_exception_str] after [k] failures. *)
Definition last_description (initial : value) (e : nat -> string) (k : nat)
  : value :=
  match k with
  | O => initial
  | S k' => VStr (e k')
  end.

(** The requests among some events. *)
Definition count_gets (es : list event) : nat :=
  List.length (filter (fun e => match e with Get _ => true | _ => false end)
                      es).


(** The envelope carries HTTP status 429. *)
Definition status_429 (api_result : dict) : Prop :=
  is_int 429 (Dict.get "http_status" api_result) = true.

(** A decimal digit, 0 to 9. *)
Definition is_decimal (ch : ascii) : bool :=
  let n := N_of_ascii ch in ((48 <=? n) && (n <=? 57))%N.

(** The cell of row [idx] under column [c], read as [row.get(c)] does. *)
Definition cell (df : DataFrame) (idx : nat) (c : string) : value :=
  series_get (columns df) (nth idx (rows df) []) c.

(** Every row has one cell per column. *)
Definition well_formed (df : DataFrame) : Prop :=
  Forall (fun row => List.length row = List.length (columns df)) (rows df).

(** The columns that the flattener fills from the payload. *)
Definition payload_columns : list string :=
  ["razao_social"; "nome_fantasia"; "data_abertura"; "natureza_juridica";
   "porte_id"; "porte_sigla"; "porte_descricao";
   "cnae_principal_codigo"; "cnae_principal_descricao";
   "endereco_logradouro"; "endereco_numero"; "endereco_complemento";
   "endereco_bairro"; "endereco_cidade"; "endereco_uf"; "endereco_cep";
   "situacao_cadastral"; "data_situacao_cadastral"; "matriz_ou_filial"].

(** The record that [main] appends for a row that was looked up. *)
Definition looked_up_record (idx : nat) (cnpj_raw cnpj : value)
    (fields : dict) : dict :=
  Dict.set "cnpj_normalizado" cnpj
    (Dict.set "cnpj_original" cnpj_raw
       (Dict.set "index_origem" (VInt (Z.of_nat idx)) fields)).

(** The table that [reprocess_failed] is left with for such a row. *)
Definition looked_up_frame (idx : nat) (cnpj_raw cnpj : value)
    (fields : dict) (df_final : DataFrame) : DataFrame :=
  at_set idx "cnpj_normalizado" cnpj
    (at_set idx "cnpj_original" cnpj_raw (set_fields idx fields df_final)).

(** The envelopes that the client can build against a server: the one of
    a response that the server gives, or the one of exhausted attempts. *)
Definition answers (srv : nat -> string -> reply) (r : dict) : Prop :=
  (exists n url st js,
      srv n url = Response st js /\ r = envelope_of_response st js)
  \/ (exists v, r = envelope_exhausted v).

(** A payload that the flattener accepts, whatever the envelope around. *)
Definition flattenable (payload : value) : Prop :=
  forall s e st : value,
  exists fields,
    extract_fields [("success", s); ("error", e); ("http_status", st);
                    ("data", payload)]
    = Return fields.

(** A server whose every payload the flattener accepts. *)
Definition well_shaped (srv : nat -> string -> reply) : Prop :=
  forall n url st js,
    srv n url = Response st js -> flattenable (json_data_of js).

(** The source table as [main] holds it once the normalised identifiers
    are in their column. *)
Definition normalized_frame (df : DataFrame) : DataFrame :=
  match column df CNPJ_COLUMN_NAME with
  | Return raw => set_column "cnpj_normalizado" (map normalize_cnpj raw) df
  | Raise _ => df
  end.

(** The label that a record gets when [index_origem] becomes the index. *)
Definition label_of (d : dict) : value :=
  match Dict.lookup "index_origem" d with
  | Some v => v
  | None => VNaN
  end.

(** The cells that the join puts after the row labelled [i]. *)
Definition joined_cells (right : IndexedFrame) (i : nat) : list value :=
  match matches i right with
  | [] => map (fun _ => VNaN) (ix_columns right)
  | r :: _ => r
  end.

(** The labels that the retry-only run selects in a table. *)
Definition retry_index (df : DataFrame) : list nat :=
  match column df "api_success" with
  | Return flags => masked_index (map not_true flags)
  | Raise _ => []
  end.

(** Row [i] of [df'] is row [i] of [df], followed by a missing cell for
    each column that [df'] has more. *)
Definition untouched (i : nat) (df df' : DataFrame) : Prop :=
  List.length (rows df') = List.length (rows df)
  /\ (List.length (columns df) <= List.length (columns df'))%nat
  /\ nth i (rows df') []
     = nth i (rows df) []
       ++ repeat VNaN
            (List.length (columns df') - List.length (columns df)).

(* ================================================================= *)
(** ** Sample worlds *)

Definition sample_cnpj : value := VStr "12345678000195".

Definition sample_payload : value :=
  VDict [("company", VDict [("name", VStr "ACME LTDA");
                            ("alias", VStr "NA");
                            ("size", VDict [("id", VInt 1);
                                            ("acronym", VStr "ME")])]);
         ("address", VDict [("city", VStr "Recife");
                            ("state", VStr "PE")]);
         ("status", VDict [("id", VInt 2); ("text", VStr "Ativa")])].

(** A world at time zero in which nothing was sent yet. *)
Definition fresh_world (srv : nat -> string -> reply)
    (fs : list (string * csv_file)) : world :=
  mkWorld 0 srv O [] fs.

(** Two timeouts, then an answer. *)
Definition flaky_server (n : nat) (url : string) : reply :=
  match n with
  | 0%nat | 1%nat => RequestException "timed out"
  | _ => Response 200 (Some sample_payload)
  end.

(** A name that never resolves. *)
Definition dead_server (n : nat) (url : string) : reply :=
  RequestException "name resolution failed".

(** A server that always throttles. *)
Definition throttling_server (n : nat) (url : string) : reply :=
  Response 429 (Some (VDict [("code", VInt 429)])).

(** A gateway that answers with a page that is not structured data. *)
Definition gateway_server (n : nat) (url : string) : reply :=
  Response 502 None.

(** One throttled answer, then the payload. *)
Definition throttle_once_server (n : nat) (url : string) : reply :=
  match n with
  | 0%nat => Response 429 None
  | _ => Response 200 (Some sample_payload)
  end.

(** A labelled row with a valid identifier, and where the loops start. *)
Definition sample_columns : list string :=
  [CNPJ_COLUMN_NAME; "cnpj_normalizado"].

Definition sample_row : list value :=
  [VStr "12.345.678/0001-95"; VStr "12345678000195"].

Definition sample_pacing : pacing := mkPacing 0 0.

(** An enriched table that has a success flag and a normalised identifier
    but not the configured identifier column. *)
Definition table_without_identifier : csv_file :=
  mkCsv ["cnpj_normalizado"; "api_success"]
        [["12345678000195"; "False"]].

(** A source table without the configured identifier column. *)
Definition crm_without_identifier : csv_file :=
  mkCsv ["cliente"; "cnpj"] [["Loja A"; "12.345.678/0001-95"]].

(** A source table whose only row has an identifier of three digits. *)
Definition short_identifier_crm : csv_file :=
  mkCsv ["cliente"; "cnpj_normalizadoapi"] [["Loja A"; "123"]].

Definition short_identifier_world : world :=
  fresh_world gateway_server [(INPUT_CSV, short_identifier_crm)].

(** A source table with its header and no row. *)
Definition empty_crm : csv_file :=
  mkCsv ["cliente"; "cnpj_normalizadoapi"] [].

Definition empty_world : world :=
  fresh_world gateway_server [(INPUT_CSV, empty_crm)].

(** Two customers; the registry answers the first request with a company
    whose trade name is the text NA, and every later one with an error. *)
Definition two_row_crm : csv_file :=
  mkCsv ["cliente"; "cnpj_normalizadoapi"]
        [["Loja A"; "12.345.678/0001-95"];
         ["Loja B"; "98.765.432/0001-10"]].

Definition first_only_server (n : nat) (url : string) : reply :=
  match n with
  | 0%nat => Response 200 (Some sample_payload)
  | _ => Response 500 None
  end.

Definition two_row_world : world :=
  fresh_world first_only_server [(INPUT_CSV, two_row_crm)].

(** The line of row [i] in the file at [path], if there is one. *)
Definition line_of (path : string) (i : nat) (w : world)
  : option (list string) :=
  match find_file path (files w) with
  | Some f => nth_error (lines f) i
  | None => None
  end.

(** A server whose error page is a JSON text, not an object. *)
Definition text_error_server (n : nat) (url : string) : reply :=
  Response 500 (Some (VStr "Internal Server Error")).

Definition text_error_world : world :=
  fresh_world text_error_server [(INPUT_CSV, two_row_crm)].

(** A registry that does not know the identifier and says so in an error
    object. *)
Definition not_found_server (n : nat) (url : string) : reply :=
  Response 404 (Some (VDict [("code", VInt 404);
                             ("message", VStr "Not Found")])).

(** Status 200 with a body that does not parse. *)
Definition unparsed_200_server (n : nat) (url : string) : reply :=
  Response 200 None.

(** Status 200 with the JSON value null as its body. *)
Definition null_200_server (n : nat) (url : string) : reply :=
  Response 200 (Some VNone).

(** A proxy that throttles with a JSON text as its body. *)
Definition text_429_server (n : nat) (url : string) : reply :=
  Response 429 (Some (VStr "Too Many Requests")).

Definition text_429_world : world :=
  fresh_world text_429_server [(INPUT_CSV, two_row_crm)].

(** A payload whose flattened fields are texts only. *)
Definition plain_payload : value :=
  VDict [("company", VDict [("name", VStr "BETA SA");
                            ("alias", VStr "BETA")]);
         ("address", VDict [("city", VStr "Olinda");
                            ("state", VStr "PE")])].

Definition plain_server (n : nat) (url : string) : reply :=
  Response 200 (Some plain_payload).

(** One throttled answer, then the plain payload. *)
Definition throttle_once_plain_server (n : nat) (url : string) : reply :=
  match n with
  | 0%nat => Response 429 None
  | _ => Response 200 (Some plain_payload)
  end.

(** SUPERSCRIPT TWO (U+00B2), for which [str.isdigit] is true, and an
    identifier of thirteen decimal digits followed by it. *)
Definition superscript_two : ascii := ascii_of_N 178.

Definition superscript_identifier : string :=
  "1234567800019" +++ String superscript_two EmptyString.

(** An enriched table as a full run leaves it, every column of the flat
    record in its header: a first customer that was found, with the trade
    name NA, and a second one whose lookup failed with status 500. *)
Definition enriched_header : list string :=
  ["cliente"; "cnpj_normalizadoapi"; "cnpj_normalizado";
   "api_success"; "api_http_status"; "api_error";
   "razao_social"; "nome_fantasia"; "data_abertura"; "natureza_juridica";
   "porte_id"; "porte_sigla"; "porte_descricao";
   "cnae_principal_codigo"; "cnae_principal_descricao";
   "endereco_logradouro"; "endereco_numero"; "endereco_complemento";
   "endereco_bairro"; "endereco_cidade"; "endereco_uf"; "endereco_cep";
   "situacao_cadastral"; "data_situacao_cadastral"; "matriz_ou_filial";
   "cnpj_original"; "cnpj_normalizadoapi"].

Definition enriched_table : csv_file :=
  mkCsv enriched_header
        [["Loja A"; "12.345.678/0001-95"; "12345678000195";
          "True"; "200"; "";
          "ACME LTDA"; "NA"; ""; "";
          "1.0"; "ME"; "";
          ""; "";
          ""; ""; "";
          ""; "Recife"; "PE"; "";
          "{'id': 2, 'text': 'Ativa'}"; ""; "";
          "12.345.678/0001-95"; "12345678000195"];
         ["Loja B"; "98.765.432/0001-10"; "98765432000110";
          "False"; "500"; "http_error_500";
          ""; ""; ""; "";
          ""; ""; "";
          ""; "";
          ""; ""; "";
          ""; ""; ""; "";
          ""; ""; "";
          "98.765.432/0001-10"; "98765432000110"]].

(** That table on disk, with a network that is down. *)
Definition enriched_world : world :=
  fresh_world dead_server [(OUTPUT_CSV, enriched_table)].

(* ================================================================= *)
(** ** Vocabulary of the further properties *)

(** What the client leaves in the trace: requests for one address, and
    sleeps of a positive length. *)
Definition client_event (url : string) (e : event) : Prop :=
  match e with
  | Get u => u = url
  | Sleep ms => 0 < ms
  end.

(** The [n]-th lookup that the call site makes for an identifier, counted
    from 0, with the world it leaves: each one after the first comes after
    a sleep of 60 seconds. *)
Fixpoint lookup_nth (cnpj : value) (n : nat) (w : world)
  : outcome dict * world :=
  match n with
  | O => fetch_cnpj_data cnpj default_max_retries w
  | S n' =>
      fetch_cnpj_data cnpj default_max_retries
        (apply_event (Sleep (seconds 60)) (snd (lookup_nth cnpj n' w)))
  end.

(** The HTTP status that a lookup reports. *)
Definition status_of (o : outcome dict) : value :=
  match o with
  | Return r => Dict.get "http_status" r
  | Raise _ => VNone
  end.

(** An event that does not move the clock back. *)
Definition positive_sleep (e : event) : Prop :=
  match e with
  | Get _ => True
  | Sleep ms => 0 < ms
  end.

(** What the loops keep true of the pacing state: the counter is between
    0 and the cap, and the window started in the past. *)
Definition paced (p : pacing) (w : world) : Prop :=
  0 <= request_count p <= MAX_REQUESTS_PER_MINUTE
  /\ window_start p <= clock w.

(** The rows of the file at [path], none when there is no such file. *)
Definition line_count (path : string) (w : world) : nat :=
  match find_file path (files w) with
  | Some f => List.length (lines f)
  | None => O
  end.

(** Two worlds that differ at most in their files. *)
Definition same_network (w1 w2 : world) : Prop :=
  clock w1 = clock w2 /\ server w1 = server w2
  /\ issued w1 = issued w2 /\ trace w1 = trace w2.

(** An object on which [(obj or {}).get] works: a dict, or anything
    false. *)
Definition dict_or_false (v : value) : bool :=
  match v with
  | VDict _ => true
  | _ => negb (truthy v)
  end.

(** The entry of a section under a key; [None] when the section is not a
    dict or has no such key. *)
Definition member (key : string) (obj : value) : value :=
  match obj with
  | VDict d => Dict.get key d
  | _ => VNone
  end.

(** The payloads that the flattener accepts. *)
Definition payload_ok (data : value) : bool :=
  dict_or_false data
  && dict_or_false (member "company" data)
  && dict_or_false (member "address" data)
  && dict_or_false (member "mainActivity" data)
  && dict_or_false (member "size" (member "company" data)).

(** The flat record of an envelope, read section by section. *)
Definition flattened (api_result : dict) : dict :=
  let data := Dict.get "data" api_result in
  let company := member "company" data in
  let address := member "address" data in
  let main_activity := member "mainActivity" data in
  let size := member "size" company in
  [("api_success", Dict.get "success" api_result);
   ("api_http_status", Dict.get "http_status" api_result);
   ("api_error", Dict.get "error" api_result);
   ("razao_social", member "name" company);
   ("nome_fantasia", member "alias" company);
   ("data_abertura", member "openingDate" company);
   ("natureza_juridica", member "legalNature" company);
   ("porte_id", member "id" size);
   ("porte_sigla", member "acronym" size);
   ("porte_descricao", member "text" size);
   ("cnae_principal_codigo", member "id" main_activity);
   ("cnae_principal_descricao", member "text" main_activity);
   ("endereco_logradouro", member "street" address);
   ("endereco_numero", member "number" address);
   ("endereco_complemento", member "complement" address);
   ("endereco_bairro", member "district" address);
   ("endereco_cidade", member "city" address);
   ("endereco_uf", member "state" address);
   ("endereco_cep", member "zip" address);
   ("situacao_cadastral", member "status" data);
   ("data_situacao_cadastral", member "statusDate" data);
   ("matriz_ou_filial", member "headquarterOrBranch" data)].

(** The columns filled from the [address] section. *)
Definition address_columns : list string :=
  ["endereco_logradouro"; "endereco_numero"; "endereco_complemento";
   "endereco_bairro"; "endereco_cidade"; "endereco_uf"; "endereco_cep"].

(** [df'] has the rows of [df], as many, and its columns first. *)
Definition same_shape (df df' : DataFrame) : Prop :=
  List.length (rows df') = List.length (rows df)
  /\ (exists extra, columns df' = columns df ++ extra)
  /\ (well_formed df -> well_formed df').

(* ================================================================= *)
(** * Theorems *)

(** ** Identifier normaliser *)

Lemma filter_isdigit_stripped (s : list ascii) :
  stripped s (filter isdigit s).
Proof.
  induction s as [|c s IH]; simpl.
  - constructor.
  - destruct (isdigit c) eqn:E.
    + now apply stripped_keep.
    + now apply stripped_drop.
Qed.

Lemma stripped_functional (s d d' : list ascii) :
  stripped s d -> stripped s d' -> d = d'.
Proof.
  intros H; revert d'.
  induction H; intros d' H'; inversion H'; subst;
    try congruence; auto.
  f_equal; auto.
Qed.

Lemma keep_digits_chars (s : string) :
  list_ascii_of_string (keep_digits s)
  = filter isdigit (list_ascii_of_string s).
Proof.
  unfold keep_digits. apply list_ascii_of_string_of_list_ascii.
Qed.

(** The normaliser on every value, a digit being what [isdigit] accepts:
    an absent value ([None], [nan]) gives absent, and a text gives the text
    left after stripping every other character when that has exactly 14
    characters, absent otherwise; it is a total function, so nothing is
    raised.  ["12.345.678/0001-95"] gives ["12345678000195"], ["123"] and
    the empty text give absent. *)
Theorem normalize_cnpj_contract :
  normalize_cnpj VNone = VNone
  /\ normalize_cnpj VNaN = VNone
  /\ (forall s : string,
        exists digits : string,
          stripped (list_ascii_of_string s) (list_ascii_of_string digits)
          /\ Forall (fun ch => isdigit ch = true)
                    (list_ascii_of_string digits)
          /\ normalize_cnpj (VStr s)
             = if (String.length digits =? 14)%nat
               then VStr digits else VNone)
  /\ normalize_cnpj (VStr "12.345.678/0001-95") = VStr "12345678000195"
  /\ normalize_cnpj (VStr "123") = VNone
  /\ normalize_cnpj (VStr "") = VNone.
Proof.
  repeat split; try reflexivity.
  intros s. exists (keep_digits s).
  rewrite keep_digits_chars.
  split; [apply filter_isdigit_stripped|].
  split.
  { apply Forall_forall. intros ch Hin.
    apply filter_In in Hin. tauto. }
  reflexivity.
Qed.


(** C2: the normaliser keeps every character for which [str.isdigit] is
    true, and these are more than the ten decimal digits.  The text of
    thirteen decimal digits followed by SUPERSCRIPT TWO (code point 178)
    is returned as it is: 14 characters of which the last is not a decimal
    digit.  The row counts as one with a valid identifier, and the lookup
    is sent to the address built from that text. *)
Theorem normalize_cnpj_keeps_superscript_two :
  map N_of_ascii (list_ascii_of_string superscript_identifier)
  = [49; 50; 51; 52; 53; 54; 55; 56; 48; 48; 48; 49; 57; 178]%N
  /\ normalize_cnpj (VStr superscript_identifier)
     = VStr superscript_identifier
  /\ String.length superscript_identifier = 14%nat
  /\ forallb is_decimal (list_ascii_of_string superscript_identifier)
     = false
  /\ exists resultados,
       main_row sample_columns 0
         [VStr superscript_identifier;
          normalize_cnpj (VStr superscript_identifier)]
         sample_pacing [] (fresh_world gateway_server [])
       = (Return (mkPacing 1 0, resultados),
          run_events
            [Get ("https://api.cnpja.com/office/"
                  +++ superscript_identifier);
             Sleep 500]
            (fresh_world gateway_server [])).
Proof.
  split; [reflexivity|].
  split; [reflexivity|].
  split; [reflexivity|].
  split; [reflexivity|].
  eexists. vm_compute. reflexivity.
Qed.

(** ** The monad *)

Lemma bind_return {A B} (c : M A) (k : A -> M B) (w w' : world) (a : A) :
  c w = (Return a, w') -> bind c k w = k a w'.
Proof. intros H. unfold bind. now rewrite H. Qed.

Lemma bind_raise {A B} (c : M A) (k : A -> M B) (w w' : world) (e : exn) :
  c w = (Raise e, w') -> bind c k w = (Raise e, w').
Proof. intros H. unfold bind. now rewrite H. Qed.

Lemma bind_lift {A B} (c : outcome A) (k : A -> M B) (w : world) :
  bind (lift c) k w
  = match c with Return a => k a w | Raise e => (Raise e, w) end.
Proof. unfold bind, lift. destruct c; reflexivity. Qed.

(** ** Dicts *)

Lemma lookup_set_same (k : string) (v : value) (d : dict) :
  Dict.lookup k (Dict.set k v d) = Some v.
Proof.
  induction d as [|[k' v'] d IH]; simpl.
  - now rewrite String.eqb_refl.
  - destruct (String.eqb k k') eqn:E; simpl; rewrite E; auto.
Qed.

Lemma lookup_set_other (k k' : string) (v : value) (d : dict) :
  k <> k' -> Dict.lookup k (Dict.set k' v d) = Dict.lookup k d.
Proof.
  intros Hne. induction d as [|[k2 v2] d IH]; simpl.
  - apply String.eqb_neq in Hne. now rewrite Hne.
  - destruct (String.eqb k' k2) eqn:E; simpl.
    + apply String.eqb_eq in E. subst k2.
      apply String.eqb_neq in Hne. now rewrite Hne.
    + now rewrite IH.
Qed.

Lemma get_set_same (k : string) (v : value) (d : dict) :
  Dict.get k (Dict.set k v d) = v.
Proof. unfold Dict.get. now rewrite lookup_set_same. Qed.

Lemma get_set_other (k k' : string) (v : value) (d : dict) :
  k <> k' -> Dict.get k (Dict.set k' v d) = Dict.get k d.
Proof. intros H. unfold Dict.get. now rewrite lookup_set_other. Qed.

(** ** Response flattener *)

Ltac step_obind E :=
  match goal with
  | |- obind ?c _ = _ -> _ =>
      destruct c eqn:E; [cbn [obind] | discriminate]
  end.

Lemma entries_keys (obj : value) (cols : list (string * string)) (d : dict) :
  entries obj cols = Return d -> Dict.keys d = map fst cols.
Proof.
  revert d. induction cols as [|[c k] cols IH]; intros d H.
  - simpl in H. injection H as <-. reflexivity.
  - simpl in H. destruct (py_get k obj); [|discriminate].
    simpl in H. destruct (entries obj cols) as [d'|]; [|discriminate].
    simpl in H. injection H as <-. simpl. f_equal. now apply IH.
Qed.

Lemma entries_dict (d : dict) (cols : list (string * string)) :
  entries (VDict d) cols
  = Return (map (fun ck => (fst ck, Dict.get (snd ck) d)) cols).
Proof.
  induction cols as [|[c k] cols IH]; [reflexivity|].
  cbn [entries py_get obind]. now rewrite IH.
Qed.

(** The flattener's answer starts with the three envelope fields and goes
    on with the payload columns. *)
Lemma extract_fields_shape (api_result fields : dict) :
  extract_fields api_result = Return fields ->
  exists rest,
    fields = ("api_success", Dict.get "success" api_result)
             :: ("api_http_status", Dict.get "http_status" api_result)
             :: ("api_error", Dict.get "error" api_result) :: rest
    /\ Dict.keys rest = payload_columns.
Proof.
  unfold extract_fields.
  set (data := py_or _ _).
  destruct (py_get "company" data) as [company|]; [|discriminate].
  cbn [obind].
  destruct (py_get "address" data) as [address|]; [|discriminate].
  cbn [obind].
  destruct (py_get "mainActivity" data) as [activity|]; [|discriminate].
  cbn [obind].
  destruct (py_get "size" _) as [size|]; [|discriminate].
  cbn [obind]. rewrite entries_dict. cbn [obind map fst snd].
  step_obind Ec. step_obind Ez. step_obind Ea. step_obind Ed.
  step_obind Es.
  intros H. injection H as <-.
  eexists. split; [reflexivity|].
  unfold Dict.keys in *. rewrite !map_app.
  apply entries_keys in Ec, Ez, Ea, Ed, Es. unfold Dict.keys in *.
  rewrite Ec, Ez, Ea, Ed, Es. reflexivity.
Qed.

(** ** Lists and tables *)

Lemma mem_true_iff (c : string) (cols : list string) :
  mem c cols = true <-> In c cols.
Proof.
  unfold mem. rewrite existsb_exists. split.
  - intros (x & Hin & Heq). apply String.eqb_eq in Heq. now subst.
  - intros Hin. exists c. split; auto. apply String.eqb_refl.
Qed.

Lemma index_of_Some (c : string) (cols : list string) (j : nat) :
  index_of c cols = Some j ->
  (j < List.length cols)%nat /\ nth j cols "" = c.
Proof.
  revert j. induction cols as [|c' cols IH]; intros j H; [discriminate|].
  simpl in H. destruct (String.eqb c c') eqn:E.
  - injection H as <-. apply String.eqb_eq in E. subst. simpl.
    split; [lia|reflexivity].
  - destruct (index_of c cols) as [j'|]; [|discriminate].
    injection H as <-. destruct (IH j' eq_refl). simpl. split; [lia|auto].
Qed.

Lemma index_of_None (c : string) (cols : list string) :
  index_of c cols = None <-> mem c cols = false.
Proof.
  induction cols as [|c' cols IH]; simpl; [tauto|].
  destruct (String.eqb c c'); simpl.
  - split; discriminate.
  - rewrite <- IH. destruct (index_of c cols); simpl; split;
      congruence.
Qed.

Lemma index_of_mem (c : string) (cols : list string) :
  mem c cols = true -> exists j, index_of c cols = Some j.
Proof.
  intros H. destruct (index_of c cols) as [j|] eqn:E; [now exists j|].
  apply index_of_None in E. congruence.
Qed.

Lemma index_of_app_l (c : string) (cols more : list string) (j : nat) :
  index_of c cols = Some j -> index_of c (cols ++ more) = Some j.
Proof.
  revert j. induction cols as [|c' cols IH]; intros j H; [discriminate|].
  simpl in *. destruct (String.eqb c c'); auto.
  destruct (index_of c cols) as [j'|]; [|discriminate].
  now rewrite (IH j' eq_refl).
Qed.

Lemma index_of_app_new (c : string) (cols : list string) :
  index_of c cols = None ->
  index_of c (cols ++ [c]) = Some (List.length cols).
Proof.
  induction cols as [|c' cols IH]; intros H; simpl.
  - now rewrite String.eqb_refl.
  - simpl in H. destruct (String.eqb c c'); [discriminate|].
    destruct (index_of c cols); [discriminate|]. now rewrite IH.
Qed.

Lemma index_of_app_other (c c' : string) (cols : list string) :
  index_of c cols = None -> c <> c' -> index_of c (cols ++ [c']) = None.
Proof.
  intros H Hne. induction cols as [|c2 cols IH]; simpl.
  - apply String.eqb_neq in Hne. now rewrite Hne.
  - simpl in H. destruct (String.eqb c c2); [discriminate|].
    destruct (index_of c cols); [discriminate|]. now rewrite IH.
Qed.

Lemma index_of_inj (c c' : string) (cols : list string) (j : nat) :
  index_of c cols = Some j -> index_of c' cols = Some j -> c = c'.
Proof.
  intros H H'. apply index_of_Some in H, H'.
  destruct H as [_ <-], H' as [_ <-]. reflexivity.
Qed.

Lemma length_replace_nth {A} (j : nat) (x : A) (l : list A) :
  List.length (replace_nth j x l) = List.length l.
Proof.
  revert j; induction l as [|h t IH]; intros [|j]; simpl; auto.
Qed.

Lemma nth_replace_nth_same {A} (j : nat) (x d : A) (l : list A) :
  (j < List.length l)%nat -> nth j (replace_nth j x l) d = x.
Proof.
  revert j; induction l as [|h t IH]; intros [|j] H; simpl in *;
    try lia; auto. apply IH. lia.
Qed.

Lemma nth_replace_nth_other {A} (j j' : nat) (x d : A) (l : list A) :
  j <> j' -> nth j' (replace_nth j x l) d = nth j' l d.
Proof.
  revert j j'; induction l as [|h t IH]; intros [|j] [|j'] H; simpl;
    try congruence; auto.
Qed.

Lemma nth_map_combine_seq {A B} (f : nat -> A -> B) (l : list A)
    (a i : nat) (d : A) (d' : B) :
  (i < List.length l)%nat ->
  nth i (map (fun ir => f (fst ir) (snd ir))
             (combine (seq a (List.length l)) l)) d'
  = f (a + i)%nat (nth i l d).
Proof.
  revert a i. induction l as [|h t IH]; intros a i H; simpl in H; [lia|].
  destruct i as [|i]; simpl.
  - now rewrite Nat.add_0_r.
  - rewrite IH by lia. f_equal. lia.
Qed.

Lemma nth_imap {A B} (f : nat -> A -> B) (l : list A) (i : nat)
    (d : A) (d' : B) :
  (i < List.length l)%nat -> nth i (imap f l) d' = f i (nth i l d).
Proof. intros H. unfold imap. now rewrite (nth_map_combine_seq f l 0 i d). Qed.

Lemma length_imap {A B} (f : nat -> A -> B) (l : list A) :
  List.length (imap f l) = List.length l.
Proof.
  unfold imap. rewrite length_map, length_combine, length_seq. lia.
Qed.

Lemma Forall_imap {A B} (f : nat -> A -> B) (l : list A)
    (P : A -> Prop) (Q : B -> Prop) :
  (forall i x, P x -> Q (f i x)) -> Forall P l -> Forall Q (imap f l).
Proof.
  intros Hf Hl. unfold imap. apply Forall_forall. intros y Hin.
  apply in_map_iff in Hin. destruct Hin as ([i x] & <- & Hin).
  apply in_combine_r in Hin. simpl. apply Hf.
  rewrite Forall_forall in Hl. now apply Hl.
Qed.

Lemma length_rows_at_set (idx : nat) (c : string) (v : value)
    (df : DataFrame) :
  List.length (rows (at_set idx c v df)) = List.length (rows df).
Proof.
  unfold at_set. destruct (index_of c (columns df)); simpl;
    apply length_imap.
Qed.

Lemma well_formed_at_set (idx : nat) (c : string) (v : value)
    (df : DataFrame) :
  well_formed df -> well_formed (at_set idx c v df).
Proof.
  unfold well_formed, at_set. intros H.
  destruct (index_of c (columns df)); simpl.
  - eapply Forall_imap; [|exact H]. intros i row Hrow. simpl in Hrow.
    destruct (i =? idx)%nat; [now rewrite length_replace_nth|auto].
  - eapply Forall_imap; [|exact H]. intros i row Hrow. simpl in Hrow.
    rewrite !length_app. simpl. lia.
Qed.

Lemma well_formed_row (df : DataFrame) (i : nat) :
  well_formed df -> (i < List.length (rows df))%nat ->
  List.length (nth i (rows df) []) = List.length (columns df).
Proof.
  intros H Hi. unfold well_formed in H. rewrite Forall_forall in H.
  apply H. now apply nth_In.
Qed.

(** A cell just written holds what was written. *)
Lemma cell_at_set_same (idx : nat) (c : string) (v : value)
    (df : DataFrame) :
  well_formed df -> (idx < List.length (rows df))%nat ->
  cell (at_set idx c v df) idx c = v.
Proof.
  intros Hwf Hidx. pose proof (well_formed_row df idx Hwf Hidx) as Hlen.
  unfold cell, at_set, series_get.
  destruct (index_of c (columns df)) as [j|] eqn:E; simpl.
  - rewrite E. rewrite (nth_imap _ _ _ []) by auto.
    rewrite Nat.eqb_refl. apply nth_replace_nth_same.
    apply index_of_Some in E. lia.
  - rewrite (index_of_app_new _ _ E).
    rewrite (nth_imap _ _ _ []) by auto. rewrite Nat.eqb_refl.
    rewrite app_nth2 by lia. rewrite Hlen, Nat.sub_diag. reflexivity.
Qed.

(** Writing under one column leaves the cells of the others. *)
Lemma cell_at_set_other_column (idx i : nat) (c c' : string) (v : value)
    (df : DataFrame) :
  well_formed df -> c' <> c ->
  cell (at_set idx c v df) i c' = cell df i c'.
Proof.
  intros Hwf Hne. unfold cell, at_set, series_get.
  destruct (Nat.lt_ge_cases i (List.length (rows df))) as [Hi|Hi].
  - pose proof (well_formed_row df i Hwf Hi) as Hlen.
    destruct (index_of c (columns df)) as [j|] eqn:E; simpl.
    + rewrite (nth_imap _ _ _ []) by auto.
      destruct (index_of c' (columns df)) as [j'|] eqn:E'; auto.
      destruct (i =? idx)%nat; auto.
      apply nth_replace_nth_other. intros ->.
      apply Hne. eapply index_of_inj; eauto.
    + rewrite (nth_imap _ _ _ []) by auto.
      destruct (index_of c' (columns df)) as [j'|] eqn:E'.
      * rewrite (index_of_app_l _ _ _ _ E').
        apply index_of_Some in E'. rewrite app_nth1 by lia. reflexivity.
      * now rewrite (index_of_app_other _ _ _ E' Hne).
  - assert (Hnil : forall f : nat -> list value -> list value,
               nth i (imap f (rows df)) [] = []).
    { intros f. apply nth_overflow. now rewrite length_imap. }
    rewrite (nth_overflow (rows df)) by auto.
    destruct (index_of c (columns df)) as [j|] eqn:E; simpl;
      rewrite Hnil.
    + reflexivity.
    + destruct (index_of c' (columns df)) as [j'|] eqn:E'.
      * now rewrite (index_of_app_l _ _ _ _ E').
      * now rewrite (index_of_app_other _ _ _ E' Hne).
Qed.

(** Writing into one row leaves the other rows' cells under every column
    that was there. *)
Lemma cell_at_set_other_row (idx i : nat) (c c' : string) (v : value)
    (df : DataFrame) :
  well_formed df -> i <> idx -> mem c' (columns df) = true ->
  cell (at_set idx c v df) i c' = cell df i c'.
Proof.
  intros Hwf Hne Hmem.
  destruct (string_dec c' c) as [->|Hc];
    [|now apply cell_at_set_other_column].
  destruct (index_of_mem _ _ Hmem) as [j E].
  unfold cell, at_set, series_get. rewrite E. simpl. rewrite E.
  destruct (Nat.lt_ge_cases i (List.length (rows df))) as [Hi|Hi].
  - rewrite (nth_imap _ _ _ []) by auto.
    apply Nat.eqb_neq in Hne. now rewrite Hne.
  - rewrite (nth_overflow (rows df)) by auto.
    rewrite (nth_overflow (imap _ (rows df)))
      by (now rewrite length_imap).
    reflexivity.
Qed.

Lemma well_formed_set_fields (idx : nat) (fields : dict) (df : DataFrame) :
  well_formed df -> well_formed (set_fields idx fields df).
Proof.
  unfold set_fields. revert df.
  induction fields as [|[c v] fields IH]; intros df H; simpl; auto.
  apply IH. now apply well_formed_at_set.
Qed.

Lemma length_rows_set_fields (idx : nat) (fields : dict) (df : DataFrame) :
  List.length (rows (set_fields idx fields df)) = List.length (rows df).
Proof.
  unfold set_fields. revert df.
  induction fields as [|[c v] fields IH]; intros df; simpl; auto.
  rewrite IH. apply length_rows_at_set.
Qed.

Lemma cell_set_fields_skip (idx i : nat) (c : string) (fields : dict)
    (df : DataFrame) :
  well_formed df -> ~ In c (Dict.keys fields) ->
  cell (set_fields idx fields df) i c = cell df i c.
Proof.
  unfold set_fields. revert df.
  induction fields as [|[c' v] fields IH]; intros df Hwf Hnot; simpl; auto.
  simpl in Hnot. rewrite IH.
  - apply cell_at_set_other_column; [exact Hwf|].
    intros ->. tauto.
  - now apply well_formed_at_set.
  - tauto.
Qed.

Lemma mem_columns_at_set (idx : nat) (c c' : string) (v : value)
    (df : DataFrame) :
  mem c' (columns df) = true -> mem c' (columns (at_set idx c v df)) = true.
Proof.
  intros H. unfold at_set. destruct (index_of c (columns df)); simpl; auto.
  apply mem_true_iff. apply in_or_app. left. now apply mem_true_iff.
Qed.

Lemma mem_columns_set_fields (idx : nat) (c : string) (fields : dict)
    (df : DataFrame) :
  mem c (columns df) = true ->
  mem c (columns (set_fields idx fields df)) = true.
Proof.
  unfold set_fields. revert df.
  induction fields as [|[c' v] fields IH]; intros df H; simpl; auto.
  apply IH. now apply mem_columns_at_set.
Qed.

Lemma cell_set_fields_other_row (idx i : nat) (c : string) (fields : dict)
    (df : DataFrame) :
  well_formed df -> i <> idx -> mem c (columns df) = true ->
  cell (set_fields idx fields df) i c = cell df i c.
Proof.
  unfold set_fields. revert df.
  induction fields as [|[c' v] fields IH]; intros df Hwf Hne Hmem;
    simpl; auto.
  rewrite IH.
  - now apply cell_at_set_other_row.
  - now apply well_formed_at_set.
  - auto.
  - now apply mem_columns_at_set.
Qed.

(** Writing under a column that is there adds none. *)
Lemma columns_at_set_present (idx : nat) (c : string) (v : value)
    (df : DataFrame) :
  In c (columns df) -> columns (at_set idx c v df) = columns df.
Proof.
  intros H. apply mem_true_iff, index_of_mem in H. destruct H as [j E].
  unfold at_set. now rewrite E.
Qed.

Lemma columns_set_fields_present (idx : nat) (fields : dict) :
  forall df : DataFrame,
    (forall c, In c (Dict.keys fields) -> In c (columns df)) ->
    columns (set_fields idx fields df) = columns df.
Proof.
  unfold set_fields.
  induction fields as [|[c v] fields IH]; intros df H; [reflexivity|].
  assert (Hc : columns (at_set idx c v df) = columns df).
  { apply columns_at_set_present. apply H. now left. }
  cbn [fold_left fst snd]. rewrite IH; [exact Hc|].
  intros c' Hc'. rewrite Hc. apply H. now right.
Qed.

Lemma NoDup_of_nodup (l : list string) :
  nodup string_dec l = l -> NoDup l.
Proof. intros <-. apply NoDup_nodup. Qed.

(** ** The world under events *)

Lemma run_events_app (es es' : list event) (w : world) :
  run_events (es ++ es') w = run_events es' (run_events es w).
Proof. unfold run_events. apply fold_left_app. Qed.

Lemma run_events_cons (e : event) (es : list event) (w : world) :
  run_events (e :: es) w = run_events es (apply_event e w).
Proof. reflexivity. Qed.

Lemma server_apply_event (e : event) (w : world) :
  server (apply_event e w) = server w.
Proof. destruct e; reflexivity. Qed.

Lemma files_apply_event (e : event) (w : world) :
  files (apply_event e w) = files w.
Proof. destruct e; reflexivity. Qed.

Lemma trace_apply_event (e : event) (w : world) :
  trace (apply_event e w) = trace w ++ [e].
Proof. destruct e; reflexivity. Qed.

Lemma server_run_events (es : list event) (w : world) :
  server (run_events es w) = server w.
Proof.
  revert w; induction es as [|e es IH]; intros w; [reflexivity|].
  rewrite run_events_cons, IH. apply server_apply_event.
Qed.

Lemma files_run_events (es : list event) (w : world) :
  files (run_events es w) = files w.
Proof.
  revert w; induction es as [|e es IH]; intros w; [reflexivity|].
  rewrite run_events_cons, IH. apply files_apply_event.
Qed.

Lemma trace_run_events (es : list event) (w : world) :
  trace (run_events es w) = trace w ++ es.
Proof.
  revert w; induction es as [|e es IH]; intros w.
  - simpl. now rewrite app_nil_r.
  - rewrite run_events_cons, IH, trace_apply_event, <- app_assoc.
    reflexivity.
Qed.

Lemma issued_run_events (es : list event) (w : world) :
  issued (run_events es w) = (issued w + count_gets es)%nat.
Proof.
  revert w; induction es as [|e es IH]; intros w.
  - simpl. unfold count_gets. simpl. lia.
  - rewrite run_events_cons, IH. unfold count_gets.
    destruct e; simpl; lia.
Qed.

(** ** Lookup client *)

Lemma backoff_events_S (url : string) (a k : nat) :
  backoff_events url a (S k)
  = Get url :: Sleep (seconds (2 ^ Z.of_nat a))
      :: backoff_events url (S a) k.
Proof. reflexivity. Qed.

Lemma fetch_attempts_backoff (k : nat) :
  forall (cnpj : value) (a n : nat) (last : value) (w : world)
         (e : nat -> string) (st : Z) (js : option value),
    (k <= n)%nat ->
    (forall i, (i < k)%nat ->
               nth_reply w (office_url cnpj) i = RequestException (e i)) ->
    ((k < n)%nat -> nth_reply w (office_url cnpj) k = Response st js) ->
    fetch_attempts cnpj (seq a n) last w
    = (Return (if (k <? n)%nat then envelope_of_response st js
               else envelope_exhausted (last_description last e k)),
       run_events (backoff_events (office_url cnpj) a k
                   ++ (if (k <? n)%nat then [Get (office_url cnpj)]
                       else []))
                  w).
Proof.
  induction k as [|k IH]; intros cnpj a n last w e st js Hle Hfail Hresp.
  - destruct n as [|n].
    + reflexivity.
    + change (0 <? S n)%nat with true.
      assert (H : server w (issued w) (office_url cnpj) = Response st js).
      { specialize (Hresp ltac:(lia)). unfold nth_reply in Hresp.
        now rewrite Nat.add_0_r in Hresp. }
      simpl. unfold bind, requests_get. rewrite H. reflexivity.
  - destruct n as [|n]; [lia|].
    assert (H : server w (issued w) (office_url cnpj)
                = RequestException (e O)).
    { specialize (Hfail O ltac:(lia)). unfold nth_reply in Hfail.
      now rewrite Nat.add_0_r in Hfail. }
    rewrite backoff_events_S.
    cbn [seq fetch_attempts]. unfold bind at 1. unfold requests_get at 1.
    rewrite H. unfold bind at 1. unfold time_sleep at 1.
    set (w2 := apply_event (Sleep _) (apply_event (Get _) w)).
    rewrite (IH cnpj (S a) n (VStr (e O)) w2 (fun i => e (S i)) st js).
    + replace (S k <? S n)%nat with (k <? n)%nat by reflexivity.
      f_equal. f_equal. destruct k; reflexivity.
    + lia.
    + intros i Hi. unfold nth_reply, w2. simpl.
      specialize (Hfail (S i) ltac:(lia)). unfold nth_reply in Hfail.
      now rewrite Nat.add_succ_r in Hfail.
    + intros Hk. unfold nth_reply, w2. simpl.
      specialize (Hresp ltac:(lia)). unfold nth_reply in Hresp.
      now rewrite Nat.add_succ_r in Hresp.
Qed.

(** C3: when the first [k] attempts raise a network error, the client has
    sent [k] requests and slept [2 ^ i] seconds after the one numbered [i]
    (1 s, 2 s, 4 s, ...); when [k] is the maximal attempt count it returns
    the failure envelope with the last description and no HTTP status,
    and when a response comes at attempt [k] its envelope is returned. *)
Theorem fetch_cnpj_data_backoff
    (cnpj : value) (max_retries k : nat) (w : world)
    (e : nat -> string) (st : Z) (js : option value) :
  (k <= max_retries)%nat ->
  (forall i, (i < k)%nat ->
             nth_reply w (office_url cnpj) i = RequestException (e i)) ->
  ((k < max_retries)%nat ->
   nth_reply w (office_url cnpj) k = Response st js) ->
  fetch_cnpj_data cnpj max_retries w
  = (Return
       (if (k <? max_retries)%nat then envelope_of_response st js
        else [("success", VBool false);
              ("error",
               VStr ("request_exception: "
                     +++ py_str (last_description VNone e k)));
              ("http_status", VNone);
              ("data", VNone)]),
     run_events
       (flat_map (fun attempt =>
                    [Get (office_url cnpj);
                     Sleep (seconds (2 ^ Z.of_nat attempt))])
                 (seq 0 k)
        ++ (if (k <? max_retries)%nat then [Get (office_url cnpj)] else []))
       w).
Proof.
  intros Hle Hfail Hresp. unfold fetch_cnpj_data.
  now rewrite (fetch_attempts_backoff k cnpj 0 max_retries VNone w e st js).
Qed.

(** C4: an attempt that receives a response whose status is not 200, or
    whose body does not parse, returns at once the failure envelope with
    error [http_error_<status>], that status, and as [data] the parsed body
    itself (an error object, a text, ...), [None] when the body did not
    parse; the world has one request more and nothing else: no sleep, no
    retry. *)
Theorem fetch_http_failure_immediate
    (cnpj : value) (attempt : nat) (rest : list nat)
    (last_exception_str : value) (w : world)
    (status_code : Z) (json : option value) :
  server w (issued w) (office_url cnpj) = Response status_code json ->
  status_code <> 200 \/ json = None ->
  fetch_attempts cnpj (attempt :: rest) last_exception_str w
  = (Return [("success", VBool false);
             ("error", VStr ("http_error_" +++ dec status_code));
             ("http_status", VInt status_code);
             ("data", match json with
                      | Some parsed => parsed
                      | None => VNone
                      end)],
     apply_event (Get (office_url cnpj)) w)
  /\ forall max_retries : nat,
       fetch_cnpj_data cnpj (S max_retries) w
       = (Return [("success", VBool false);
                  ("error", VStr ("http_error_" +++ dec status_code));
                  ("http_status", VInt status_code);
                  ("data", match json with
                           | Some parsed => parsed
                           | None => VNone
                           end)],
          apply_event (Get (office_url cnpj)) w).
Proof.
  intros Hreply Hbad.
  assert (Henv : envelope_of_response status_code json
                 = [("success", VBool false);
                    ("error", VStr ("http_error_" +++ dec status_code));
                    ("http_status", VInt status_code);
                    ("data", match json with
                             | Some parsed => parsed
                             | None => VNone
                             end)]).
  { unfold envelope_of_response. destruct Hbad as [Hne | ->].
    - apply Z.eqb_neq in Hne. rewrite Hne. destruct json; reflexivity.
    - simpl. now rewrite andb_false_r. }
  split; [|intros max_retries; unfold fetch_cnpj_data; cbn [seq]];
    cbn [fetch_attempts]; unfold bind, requests_get;
    rewrite Hreply; unfold ret; now rewrite Henv.
Qed.

Lemma fetch_cnpj_data_backoff_witness :
  fetch_cnpj_data sample_cnpj 5 (fresh_world flaky_server [])
  = (Return [("success", VBool true);
             ("error", VNone);
             ("http_status", VInt 200);
             ("data", sample_payload)],
     run_events
       [Get "https://api.cnpja.com/office/12345678000195"; Sleep 1000;
        Get "https://api.cnpja.com/office/12345678000195"; Sleep 2000;
        Get "https://api.cnpja.com/office/12345678000195"]
       (fresh_world flaky_server []))
  /\ fetch_cnpj_data sample_cnpj 3 (fresh_world dead_server [])
     = (Return [("success", VBool false);
                ("error",
                 VStr "request_exception: name resolution failed");
                ("http_status", VNone);
                ("data", VNone)],
        run_events
          [Get "https://api.cnpja.com/office/12345678000195"; Sleep 1000;
           Get "https://api.cnpja.com/office/12345678000195"; Sleep 2000;
           Get "https://api.cnpja.com/office/12345678000195"; Sleep 4000]
          (fresh_world dead_server [])).
Proof.
  split.
  - apply (fetch_cnpj_data_backoff sample_cnpj 5 2
             (fresh_world flaky_server []) (fun _ => "timed out")
             200 (Some sample_payload)).
    + lia.
    + intros i Hi. destruct i as [|[|i]]; [reflexivity|reflexivity|lia].
    + intros _. reflexivity.
  - apply (fetch_cnpj_data_backoff sample_cnpj 3 3
             (fresh_world dead_server [])
             (fun _ => "name resolution failed") 0 None).
    + lia.
    + intros i Hi. reflexivity.
    + intros Hlt. lia.
Defined.

Lemma fetch_http_failure_immediate_witness :
  fetch_cnpj_data sample_cnpj 5 (fresh_world not_found_server [])
  = (Return [("success", VBool false);
             ("error", VStr "http_error_404");
             ("http_status", VInt 404);
             ("data", VDict [("code", VInt 404);
                             ("message", VStr "Not Found")])],
     apply_event (Get "https://api.cnpja.com/office/12345678000195")
                 (fresh_world not_found_server []))
  /\ fetch_cnpj_data sample_cnpj 5 (fresh_world gateway_server [])
     = (Return [("success", VBool false);
                ("error", VStr "http_error_502");
                ("http_status", VInt 502);
                ("data", VNone)],
        apply_event (Get "https://api.cnpja.com/office/12345678000195")
                    (fresh_world gateway_server []))
  /\ fetch_cnpj_data sample_cnpj 5 (fresh_world unparsed_200_server [])
     = (Return [("success", VBool false);
                ("error", VStr "http_error_200");
                ("http_status", VInt 200);
                ("data", VNone)],
        apply_event (Get "https://api.cnpja.com/office/12345678000195")
                    (fresh_world unparsed_200_server [])).
Proof.
  split; [|split].
  - apply (fetch_http_failure_immediate sample_cnpj 0 [] VNone
             (fresh_world not_found_server []) 404
             (Some (VDict [("code", VInt 404);
                           ("message", VStr "Not Found")]))).
    + reflexivity.
    + left. lia.
  - apply (fetch_http_failure_immediate sample_cnpj 0 [] VNone
             (fresh_world gateway_server []) 502 None).
    + reflexivity.
    + left. lia.
  - apply (fetch_http_failure_immediate sample_cnpj 0 [] VNone
             (fresh_world unparsed_200_server []) 200 None).
    + reflexivity.
    + right. reflexivity.
Defined.

(** ** The client and the 429 loop always return *)

Lemma count_gets_app (es es' : list event) :
  count_gets (es ++ es') = (count_gets es + count_gets es')%nat.
Proof. unfold count_gets. now rewrite filter_app, length_app. Qed.

Lemma fetch_attempts_total (cnpj : value) (attempts : list nat) :
  forall (last : value) (w : world),
  exists r es,
    fetch_attempts cnpj attempts last w = (Return r, run_events es w)
    /\ (count_gets es <= List.length attempts)%nat
    /\ (attempts <> [] -> (1 <= count_gets es)%nat)
    /\ answers (server w) r.
Proof.
  induction attempts as [|attempt rest IH]; intros last w.
  - exists (envelope_exhausted last), []. repeat split.
    + unfold count_gets. simpl. lia.
    + congruence.
    + right. now exists last.
  - cbn [fetch_attempts]. unfold bind at 1. unfold requests_get at 1.
    destruct (server w (issued w) (office_url cnpj)) as [e|st js] eqn:Hreply.
    + unfold bind at 1. unfold time_sleep at 1.
      destruct (IH (VStr e)
                  (apply_event (Sleep (seconds (2 ^ Z.of_nat attempt)))
                     (apply_event (Get (office_url cnpj)) w)))
        as (r & es & Hrun & Hle & _ & Henv).
      exists r, (Get (office_url cnpj)
                 :: Sleep (seconds (2 ^ Z.of_nat attempt)) :: es).
      unfold count_gets in *.
      repeat split; auto; simpl; lia.
    + exists (envelope_of_response st js), [Get (office_url cnpj)].
      unfold count_gets.
      repeat split; try (simpl; lia).
      left. now exists (issued w), (office_url cnpj), st, js.
Qed.

Lemma fetch_cnpj_data_total (cnpj : value) (max_retries : nat) (w : world) :
  exists r es,
    fetch_cnpj_data cnpj (S max_retries) w = (Return r, run_events es w)
    /\ (1 <= count_gets es <= S max_retries)%nat
    /\ answers (server w) r.
Proof.
  destruct (fetch_attempts_total cnpj (seq 0 (S max_retries)) VNone w)
    as (r & es & Hrun & Hle & Hge & Henv).
  exists r, es. rewrite length_seq in Hle.
  repeat split; auto. apply Hge. discriminate.
Qed.

(** An envelope with status 429 is the failure envelope of a response. *)
Lemma status_429_envelope (srv : nat -> string -> reply) (r : dict) :
  answers srv r -> status_429 r ->
  exists js,
    r = [("success", VBool false);
         ("error", VStr "http_error_429");
         ("http_status", VInt 429);
         ("data", json_data_of js)].
Proof.
  unfold status_429.
  intros [(n & url & st & js & _ & ->) | (v & ->)] H; [|discriminate].
  exists js. unfold envelope_of_response in *.
  destruct ((st =? 200) && negb (is_none (json_data_of js))).
  - discriminate.
  - cbn in H. apply Z.eqb_eq in H. subst st. reflexivity.
Qed.

Lemma query_loop_total (cnpj : value) (fuel : nat) :
  forall (attempts_429 : Z) (w : world),
    0 <= attempts_429 ->
    3 - attempts_429 <= Z.of_nat fuel ->
    (1 <= fuel)%nat ->
    exists r es,
      query_loop fuel cnpj attempts_429 w = (Return r, run_events es w)
      /\ (1 <= count_gets es <= 5 * fuel)%nat
      /\ answers (server w) r.
Proof.
  induction fuel as [|fuel IH]; intros attempts_429 w H0 Hfuel H1; [lia|].
  cbn [query_loop].
  destruct (fetch_cnpj_data_total cnpj 4 w) as (r & es & Hrun & Hn & Henv).
  rewrite (bind_return _ _ _ _ _ Hrun).
  destruct (is_int 429 (Dict.get "http_status" r)).
  - destruct (attempts_429 + 1 >=? 3) eqn:Hcap.
    + exists r, es. repeat split; auto; lia.
    + rewrite Z.geb_leb in Hcap. apply Z.leb_gt in Hcap.
      unfold bind at 1. unfold time_sleep at 1.
      destruct (IH (attempts_429 + 1)
                  (apply_event (Sleep (seconds 60)) (run_events es w)))
        as (r' & es' & Hrun' & Hn' & Henv'); try lia.
      cbn [apply_event server] in Henv'. rewrite server_run_events in Henv'.
      exists r', (es ++ Sleep (seconds 60) :: es').
      rewrite run_events_app, run_events_cons.
      repeat split; auto; rewrite count_gets_app;
        change (count_gets (Sleep (seconds 60) :: es'))
          with (count_gets es'); lia.
  - exists r, es. repeat split; auto; lia.
Qed.

Lemma query_with_429_retry_total (cnpj : value) (w : world) :
  exists r es,
    query_with_429_retry cnpj w = (Return r, run_events es w)
    /\ (1 <= count_gets es <= 15)%nat
    /\ answers (server w) r.
Proof.
  destruct (query_loop_total cnpj 3 0 w) as (r & es & H & Hn & Henv);
    try lia.
  exists r, es. repeat split; auto; lia.
Qed.

(** ** Rate limiter *)

(** C6: below the cap the limiter returns at once, counter and window
    start as they were.  At the cap it sleeps what is left of the 60
    seconds since the window start (nothing when they are over), and
    returns counter 0 with the window start at the time it then reads;
    after a sleep that time is the end of the old window. *)
Theorem sleep_if_necessary_contract
    (request_count start_window : Z) (w : world) :
  let elapsed := clock w - start_window in
  let rested :=
    if elapsed <? seconds 60
    then apply_event (Sleep (seconds 60 - elapsed)) w
    else w in
  sleep_if_necessary request_count start_window w
  = (if request_count <? MAX_REQUESTS_PER_MINUTE
     then (Return (request_count, start_window), w)
     else (Return (0, clock rested), rested))
  /\ clock (apply_event (Sleep (seconds 60 - elapsed)) w)
     = start_window + seconds 60.
Proof.
  intros elapsed rested. split.
  - unfold sleep_if_necessary, bind, time_time, time_sleep, ret.
    rewrite Z.geb_leb.
    destruct (Z.ltb_spec request_count MAX_REQUESTS_PER_MINUTE) as [Hlt|Hge].
    + replace (MAX_REQUESTS_PER_MINUTE <=? request_count) with false
        by (symmetry; apply Z.leb_gt; exact Hlt).
      reflexivity.
    + replace (MAX_REQUESTS_PER_MINUTE <=? request_count) with true
        by (symmetry; apply Z.leb_le; exact Hge).
      subst rested elapsed.
      destruct (clock w - start_window <? seconds 60); reflexivity.
  - subst elapsed. cbn [apply_event clock]. lia.
Qed.

(** The limiter always returns, and sends nothing. *)
Lemma sleep_if_necessary_returns (request_count start_window : Z)
    (w : world) :
  exists cw es,
    sleep_if_necessary request_count start_window w
    = (Return cw, run_events es w)
    /\ count_gets es = O
    /\ fst cw = (if request_count >=? MAX_REQUESTS_PER_MINUTE
                 then 0 else request_count).
Proof.
  unfold sleep_if_necessary, bind, time_time, time_sleep, ret.
  destruct (request_count >=? MAX_REQUESTS_PER_MINUTE).
  - destruct (clock w - start_window <? seconds 60).
    + eexists; exists [Sleep (seconds 60 - (clock w - start_window))].
      repeat split.
    + eexists; exists []. repeat split.
  - eexists; exists []. repeat split.
Qed.

(** ** The 429 policy *)


(** ** The 429 policy *)

Lemma payload_columns_NoDup :
  NoDup ("api_success" :: "api_http_status" :: "api_error"
         :: payload_columns).
Proof.
  unfold payload_columns.
  repeat (constructor; [simpl; intuition discriminate|]).
  constructor.
Qed.

Lemma extract_fields_keys (api_result fields : dict) :
  extract_fields api_result = Return fields ->
  Dict.keys fields
  = "api_success" :: "api_http_status" :: "api_error" :: payload_columns.
Proof.
  intros H. apply extract_fields_shape in H.
  destruct H as (rest & -> & Hrest). simpl. now rewrite Hrest.
Qed.

(** A row whose fields were just written holds them. *)
Lemma cell_set_fields_get (idx : nat) (c : string) (fields : dict) :
  forall df : DataFrame,
    well_formed df -> (idx < List.length (rows df))%nat ->
    NoDup (Dict.keys fields) -> In c (Dict.keys fields) ->
    cell (set_fields idx fields df) idx c = Dict.get c fields.
Proof.
  induction fields as [|[c' v] fields IH]; intros df Hwf Hidx Hnd Hin.
  - destruct Hin.
  - simpl in Hnd. inversion Hnd as [|? ? Hnotin Hnd']; subst.
    change (set_fields idx ((c', v) :: fields) df)
      with (set_fields idx fields (at_set idx c' v df)).
    unfold Dict.get. simpl.
    destruct (String.eqb c c') eqn:E.
    + apply String.eqb_eq in E. subst c'.
      rewrite cell_set_fields_skip; auto using well_formed_at_set.
      now apply cell_at_set_same.
    + apply String.eqb_neq in E. simpl in Hin.
      destruct Hin as [->|Hin]; [congruence|].
      apply IH; auto using well_formed_at_set.
      now rewrite length_rows_at_set.
Qed.

Lemma fetch_cnpj_data_envelope (cnpj : value) (w w' : world) (r : dict) :
  fetch_cnpj_data cnpj default_max_retries w = (Return r, w') ->
  answers (server w) r.
Proof.
  intros H.
  destruct (fetch_cnpj_data_total cnpj 4 w) as (r' & es & H' & _ & Henv).
  unfold default_max_retries in H. congruence.
Qed.

(** Three lookups in a row that come back with status 429: the call site
    has made exactly these three, with a sleep of 60 seconds before the
    second and before the third, and goes on with the third lookup's
    failing envelope.  When the flattener accepts that envelope, the full
    run appends the record flattened from it, and the retry-only run
    writes it into the row of a table that has the columns of the flat
    record. *)
Theorem three_429_then_give_up
    (cnpj : value) (w w1 w2 w3 : world) (r1 r2 r3 : dict) :
  fetch_cnpj_data cnpj default_max_retries w = (Return r1, w1) ->
  status_429 r1 ->
  fetch_cnpj_data cnpj default_max_retries
    (apply_event (Sleep (seconds 60)) w1) = (Return r2, w2) ->
  status_429 r2 ->
  fetch_cnpj_data cnpj default_max_retries
    (apply_event (Sleep (seconds 60)) w2) = (Return r3, w3) ->
  status_429 r3 ->
  query_with_429_retry cnpj w = (Return r3, w3)
  /\ Dict.get "success" r3 = VBool false
  /\ (forall (cols : list string) (idx : nat) (row : list value)
             (p : pacing) (resultados : list dict) (w0 : world)
             (cw : Z * Z) (cnpj_raw : value) (fields : dict),
        series_item cols row CNPJ_COLUMN_NAME = Return cnpj_raw ->
        series_item cols row "cnpj_normalizado" = Return cnpj ->
        truthy cnpj = true ->
        sleep_if_necessary (request_count p) (window_start p) w0
        = (Return cw, w) ->
        extract_fields r3 = Return fields ->
        main_row cols idx row p resultados w0
        = (Return (mkPacing (fst cw + 1) (snd cw),
                   resultados
                   ++ [looked_up_record idx cnpj_raw cnpj fields]),
           apply_event (Sleep 500) w3)
        /\ Dict.get "api_http_status"
             (looked_up_record idx cnpj_raw cnpj fields) = VInt 429
        /\ Dict.get "api_success"
             (looked_up_record idx cnpj_raw cnpj fields) = VBool false
        /\ Dict.get "api_error"
             (looked_up_record idx cnpj_raw cnpj fields)
           = VStr "http_error_429")
  /\ (forall (idx : nat) (p : pacing) (df_final : DataFrame) (w0 : world)
             (cw : Z * Z) (fields : dict),
        well_formed df_final ->
        (idx < List.length (rows df_final))%nat ->
        (forall c,
            In c ("cnpj_original" :: "api_success" :: "api_http_status"
                  :: "api_error" :: payload_columns) ->
            In c (columns df_final)) ->
        cell df_final idx "cnpj_normalizado" = cnpj ->
        truthy cnpj = true ->
        sleep_if_necessary (request_count p) (window_start p) w0
        = (Return cw, w) ->
        extract_fields r3 = Return fields ->
        let updated :=
          looked_up_frame idx (cell df_final idx CNPJ_COLUMN_NAME) cnpj
                          fields df_final in
        reprocess_row idx p df_final w0
        = (Return (mkPacing (fst cw + 1) (snd cw), updated), w3)
        /\ cell updated idx "api_http_status" = VInt 429
        /\ cell updated idx "api_success" = VBool false
        /\ cell updated idx "api_error" = VStr "http_error_429").
Proof.
  intros H1 S1 H2 S2 H3 S3.
  assert (Hquery : query_with_429_retry cnpj w = (Return r3, w3)).
  { unfold query_with_429_retry. cbn [query_loop].
    unfold status_429 in S1, S2, S3.
    change (0 + 1 >=? 3) with false. change (0 + 1 + 1 >=? 3) with false.
    change (0 + 1 + 1 + 1 >=? 3) with true. cbv iota.
    rewrite (bind_return _ _ _ _ _ H1), S1.
    unfold bind at 1. unfold time_sleep at 1.
    rewrite (bind_return _ _ _ _ _ H2), S2.
    unfold bind at 1. unfold time_sleep at 1.
    rewrite (bind_return _ _ _ _ _ H3), S3. reflexivity. }
  destruct (status_429_envelope _ r3 (fetch_cnpj_data_envelope _ _ _ _ H3) S3)
    as [js Hr3].
  split; [exact Hquery|].
  split; [now rewrite Hr3|].
  split.
  - intros cols idx row p resultados w0 cw cnpj_raw fields
      Hraw Hcnpj Htruthy Hsleep Hfields.
    split.
    + unfold main_row. rewrite bind_lift, Hraw, bind_lift, Hcnpj, Htruthy.
      cbn [negb]. rewrite (bind_return _ _ _ _ _ Hsleep).
      rewrite (bind_return _ _ _ _ _ Hquery).
      rewrite bind_lift, Hfields. reflexivity.
    + apply extract_fields_shape in Hfields.
      destruct Hfields as (rest & -> & _). unfold looked_up_record.
      rewrite !get_set_other by discriminate.
      rewrite Hr3. repeat split.
  - intros idx p df_final w0 cw fields Hwf Hidx _ Hcnpj Htruthy Hsleep
      Hfields updated.
    split.
    + unfold reprocess_row. fold (cell df_final idx "cnpj_normalizado").
      fold (cell df_final idx CNPJ_COLUMN_NAME).
      rewrite Hcnpj, Htruthy. cbn [negb].
      rewrite (bind_return _ _ _ _ _ Hsleep).
      rewrite (bind_return _ _ _ _ _ Hquery).
      rewrite bind_lift, Hfields. reflexivity.
    + pose proof (extract_fields_keys _ _ Hfields) as Hkeys.
      assert (Hget : forall c,
                 In c ["api_success"; "api_http_status"; "api_error"] ->
                 cell updated idx c = Dict.get c fields).
      { intros c Hc. unfold updated, looked_up_frame.
        rewrite !cell_at_set_other_column;
          auto using well_formed_at_set, well_formed_set_fields.
        - apply cell_set_fields_get; auto.
          + rewrite Hkeys. apply payload_columns_NoDup.
          + rewrite Hkeys. simpl in Hc. simpl. tauto.
        - simpl in Hc. intuition (subst; discriminate).
        - simpl in Hc. intuition (subst; discriminate). }
      rewrite !Hget by (simpl; tauto).
      apply extract_fields_shape in Hfields.
      destruct Hfields as (rest & -> & _). rewrite Hr3. repeat split.
Qed.

Lemma three_429_then_give_up_witness :
  query_with_429_retry sample_cnpj (fresh_world throttling_server [])
  = (Return [("success", VBool false);
             ("error", VStr "http_error_429");
             ("http_status", VInt 429);
             ("data", VDict [("code", VInt 429)])],
     run_events
       [Get "https://api.cnpja.com/office/12345678000195";
        Sleep 60000;
        Get "https://api.cnpja.com/office/12345678000195";
        Sleep 60000;
        Get "https://api.cnpja.com/office/12345678000195"]
       (fresh_world throttling_server [])).
Proof.
  pose (g := Get "https://api.cnpja.com/office/12345678000195").
  pose (w0 := fresh_world throttling_server []).
  pose (r := [("success", VBool false);
              ("error", VStr "http_error_429");
              ("http_status", VInt 429);
              ("data", VDict [("code", VInt 429)])]).
  apply (three_429_then_give_up sample_cnpj w0
           (run_events [g] w0)
           (run_events [g; Sleep 60000; g] w0)
           (run_events [g; Sleep 60000; g; Sleep 60000; g] w0)
           r r r);
    reflexivity.
Defined.

(** C5: a proxy that answers 429 three times with a JSON text as its body.
    The call site makes the three lookups, with a sleep of 60 seconds
    before the second and before the third, and keeps the third failing
    envelope; flattening it raises [AttributeError], for the payload is a
    text and has no [get].  So neither driver records the third result:
    the row of the full run gets no record and the run ends there without
    writing its table, and the retry-only run ends before it writes any
    cell, leaving its table as it was. *)
Theorem three_429_with_text_body_abort :
  let third :=
    [("success", VBool false);
     ("error", VStr "http_error_429");
     ("http_status", VInt 429);
     ("data", VStr "Too Many Requests")] in
  let lookups (url : string) :=
    [Get url; Sleep 60000; Get url; Sleep 60000; Get url] in
  query_with_429_retry sample_cnpj (fresh_world text_429_server [])
  = (Return third,
     run_events (lookups "https://api.cnpja.com/office/12345678000195")
                (fresh_world text_429_server []))
  /\ extract_fields third = Raise AttributeError
  /\ main_row sample_columns 0 sample_row sample_pacing []
       (fresh_world text_429_server [])
     = (Raise AttributeError,
        run_events (lookups "https://api.cnpja.com/office/12345678000195")
                   (fresh_world text_429_server []))
  /\ reprocess_row 1 sample_pacing (frame_of_csv enriched_table)
       (fresh_world text_429_server [])
     = (Raise AttributeError,
        run_events (lookups "https://api.cnpja.com/office/98765432000110")
                   (fresh_world text_429_server []))
  /\ main text_429_world
     = (Raise AttributeError,
        run_events (lookups "https://api.cnpja.com/office/12345678000195")
                   text_429_world)
  /\ find_file OUTPUT_CSV (files (snd (main text_429_world))) = None
  /\ reprocess_failed
       (fresh_world text_429_server [(OUTPUT_CSV, enriched_table)])
     = (Raise AttributeError,
        run_events (lookups "https://api.cnpja.com/office/98765432000110")
                   (fresh_world text_429_server
                      [(OUTPUT_CSV, enriched_table)])).
Proof.
  cbv zeta.
  split; [vm_compute; reflexivity|].
  split; [vm_compute; reflexivity|].
  split; [vm_compute; reflexivity|].
  split; [vm_compute; reflexivity|].
  split; [vm_compute; reflexivity|].
  split; [vm_compute; reflexivity|].
  vm_compute; reflexivity.
Qed.

(** ** The request counter *)

(** The counter does not grow by the requests sent: no such equation holds
    of every row of the full run. *)
Lemma counter_differs_from_requests_sent :
  ~ (forall (cols : list string) (idx : nat) (row : list value)
            (p p' : pacing) (resultados resultados' : list dict)
            (w w' : world),
        main_row cols idx row p resultados w
        = (Return (p', resultados'), w') ->
        request_count p'
        = request_count p + Z.of_nat (issued w' - issued w)).
Proof.
  intros H.
  pose (w := fresh_world throttle_once_server []).
  pose (out := main_row sample_columns 0 sample_row sample_pacing [] w).
  specialize (H sample_columns O sample_row sample_pacing
                (fst (match fst out with
                      | Return st => st
                      | Raise _ => (sample_pacing, [])
                      end))
                []
                (snd (match fst out with
                      | Return st => st
                      | Raise _ => (sample_pacing, [])
                      end))
                w (snd out) eq_refl).
  vm_compute in H. discriminate H.
Qed.

(** What the counter does count, row by row of either driver: a row whose
    stored identifier is false leaves the pacing state and the world as
    they were, and a row whose stored identifier is true leaves the counter
    at the limiter's value plus one, whatever the number of requests sent
    for the row, which is between 1 and 15. *)
Lemma counter_counts_looked_up_rows :
  (forall (cols : list string) (idx : nat) (row : list value)
          (p p' : pacing) (resultados resultados' : list dict)
          (w w' : world) (cnpj : value),
      series_item cols row "cnpj_normalizado" = Return cnpj ->
      main_row cols idx row p resultados w
      = (Return (p', resultados'), w') ->
      if truthy cnpj then
        exists es,
          w' = run_events es w
          /\ request_count p'
             = (if request_count p >=? MAX_REQUESTS_PER_MINUTE
                then 0 else request_count p) + 1
          /\ (1 <= count_gets es <= 15)%nat
      else p' = p /\ w' = w)
  /\ (forall (idx : nat) (p p' : pacing) (df_final df_final' : DataFrame)
             (w w' : world),
        reprocess_row idx p df_final w = (Return (p', df_final'), w') ->
        if truthy (cell df_final idx "cnpj_normalizado") then
          exists es,
            w' = run_events es w
            /\ request_count p'
               = (if request_count p >=? MAX_REQUESTS_PER_MINUTE
                  then 0 else request_count p) + 1
            /\ (1 <= count_gets es <= 15)%nat
        else p' = p /\ w' = w).
Proof.
  split.
  - intros cols idx row p p' resultados resultados' w w' cnpj Hcnpj.
    unfold main_row. rewrite bind_lift.
    destruct (series_item cols row CNPJ_COLUMN_NAME) as [cnpj_raw|];
      [|discriminate].
    rewrite bind_lift, Hcnpj.
    destruct (truthy cnpj); cbn [negb].
    + destruct (sleep_if_necessary_returns
                  (request_count p) (window_start p) w)
        as (cw & es1 & Hs & Hg1 & Hcw).
      rewrite (bind_return _ _ _ _ _ Hs).
      destruct (query_with_429_retry_total cnpj (run_events es1 w))
        as (r & es2 & Hq & Hg2 & _).
      rewrite (bind_return _ _ _ _ _ Hq). rewrite bind_lift.
      destruct (extract_fields r) as [fields|]; [|discriminate].
      intros H. injection H as <- _ <-.
      exists (es1 ++ es2 ++ [Sleep 500]). split.
      * now rewrite !run_events_app.
      * cbn [request_count]. split; [now rewrite Hcw|].
        rewrite !count_gets_app. change (count_gets [Sleep 500]) with O.
        lia.
    + intros H. injection H as <- _ <-. split; reflexivity.
  - intros idx p p' df_final df_final' w w'. unfold reprocess_row.
    fold (cell df_final idx "cnpj_normalizado").
    destruct (truthy (cell df_final idx "cnpj_normalizado"));
      cbn [negb].
    + destruct (sleep_if_necessary_returns
                  (request_count p) (window_start p) w)
        as (cw & es1 & Hs & Hg1 & Hcw).
      rewrite (bind_return _ _ _ _ _ Hs).
      destruct (query_with_429_retry_total
                  (cell df_final idx "cnpj_normalizado")
                  (run_events es1 w))
        as (r & es2 & Hq & Hg2 & _).
      rewrite (bind_return _ _ _ _ _ Hq). rewrite bind_lift.
      destruct (extract_fields r) as [fields|]; [|discriminate].
      intros H. injection H as <- _ <-.
      exists (es1 ++ es2). split.
      * now rewrite !run_events_app.
      * cbn [request_count]. split; [now rewrite Hcw|].
        rewrite !count_gets_app. lia.
    + intros H. injection H as <- _ <-. split; reflexivity.
Qed.

Lemma counter_counts_looked_up_rows_witness :
  exists es,
    run_events
      [Get "https://api.cnpja.com/office/12345678000195"; Sleep 60000;
       Get "https://api.cnpja.com/office/12345678000195"; Sleep 500]
      (fresh_world throttle_once_server [])
    = run_events es (fresh_world throttle_once_server [])
    /\ 1 = 0 + 1
    /\ (1 <= count_gets es <= 15)%nat.
Proof.
  pose (w := fresh_world throttle_once_server []).
  pose (g := Get "https://api.cnpja.com/office/12345678000195").
  pose (fields :=
          match extract_fields
                  [("success", VBool true); ("error", VNone);
                   ("http_status", VInt 200); ("data", sample_payload)]
          with Return d => d | Raise _ => [] end).
  exact (proj1 counter_counts_looked_up_rows
           sample_columns O sample_row sample_pacing (mkPacing 1 0) []
           [looked_up_record O (VStr "12.345.678/0001-95")
              (VStr "12345678000195") fields]
           w (run_events [g; Sleep 60000; g; Sleep 500] w)
           (VStr "12345678000195") eq_refl eq_refl).
Defined.

(** C10: the counter that the limiter compares with the cap is not the
    number of requests sent.  For a row whose first answer is a 429 and
    whose second is the payload, either driver sends two requests, with a
    sleep of 60 seconds between them, and leaves the counter at 1; for a
    row whose first two requests time out, the full run sends three and
    leaves the counter at 1. *)
Theorem request_counter_undercounts :
  let g := Get "https://api.cnpja.com/office/12345678000195" in
  let g' := Get "https://api.cnpja.com/office/98765432000110" in
  request_count sample_pacing = 0
  /\ (exists resultados,
        main_row sample_columns 0 sample_row sample_pacing []
          (fresh_world throttle_once_server [])
        = (Return (mkPacing 1 0, resultados),
           run_events [g; Sleep 60000; g; Sleep 500]
                      (fresh_world throttle_once_server [])))
  /\ issued (run_events [g; Sleep 60000; g; Sleep 500]
                        (fresh_world throttle_once_server []))
     = 2%nat
  /\ (exists resultados,
        main_row sample_columns 0 sample_row sample_pacing []
          (fresh_world flaky_server [])
        = (Return (mkPacing 1 0, resultados),
           run_events [g; Sleep 1000; g; Sleep 2000; g; Sleep 500]
                      (fresh_world flaky_server [])))
  /\ issued (run_events [g; Sleep 1000; g; Sleep 2000; g; Sleep 500]
                        (fresh_world flaky_server []))
     = 3%nat
  /\ (exists updated,
        reprocess_row 1 sample_pacing (frame_of_csv enriched_table)
          (fresh_world throttle_once_plain_server [])
        = (Return (mkPacing 1 0, updated),
           run_events [g'; Sleep 60000; g']
                      (fresh_world throttle_once_plain_server [])))
  /\ issued (run_events [g'; Sleep 60000; g']
                        (fresh_world throttle_once_plain_server []))
     = 2%nat.
Proof.
  cbv zeta.
  split; [reflexivity|].
  split; [eexists; vm_compute; reflexivity|].
  split; [reflexivity|].
  split; [eexists; vm_compute; reflexivity|].
  split; [reflexivity|].
  split; [eexists; vm_compute; reflexivity|].
  reflexivity.
Qed.

(** ** Configuration errors *)

(** C8, as stated, fails for the retry-only run: a table that lacks the
    configured identifier column is processed all the same. *)
Lemma reprocess_failed_without_identifier_column :
  ~ (forall (w : world) (f : csv_file),
        find_file OUTPUT_CSV (files w) = Some f ->
        mem CNPJ_COLUMN_NAME (columns (frame_of_csv f)) = false ->
        exists e, reprocess_failed w = (Raise e, w)).
Proof.
  intros H.
  destruct (H (fresh_world gateway_server
                 [(OUTPUT_CSV, table_without_identifier)])
              table_without_identifier eq_refl eq_refl) as [e He].
  vm_compute in He. discriminate He.
Qed.

(** C8, amended: the full run raises, with the world as it was, when the
    source file is missing or the configured identifier column is not
    among the columns read; the retry-only run raises, with the world as
    it was, when the target file is missing or the column [api_success]
    is not among the columns read. *)
Theorem drivers_fail_fast (w : world) :
  (find_file INPUT_CSV (files w) = None ->
   main w = (Raise FileNotFoundError, w))
  /\ (forall f : csv_file,
        find_file INPUT_CSV (files w) = Some f ->
        mem CNPJ_COLUMN_NAME (columns (frame_of_csv f)) = false ->
        main w = (Raise ValueError, w))
  /\ (find_file OUTPUT_CSV (files w) = None ->
      reprocess_failed w = (Raise FileNotFoundError, w))
  /\ (forall f : csv_file,
        find_file OUTPUT_CSV (files w) = Some f ->
        mem "api_success" (columns (frame_of_csv f)) = false ->
        reprocess_failed w = (Raise ValueError, w)).
Proof.
  repeat split.
  - intros H. unfold main, bind, path_exists. now rewrite H.
  - intros f H Hmem. unfold main.
    rewrite (bind_return _ _ w w true)
      by (unfold path_exists; now rewrite H).
    cbn [negb].
    rewrite (bind_return _ _ w w (frame_of_csv f))
      by (unfold read_csv; now rewrite H).
    now rewrite Hmem.
  - intros H. unfold reprocess_failed, bind, path_exists. now rewrite H.
  - intros f H Hmem. unfold reprocess_failed.
    rewrite (bind_return _ _ w w true)
      by (unfold path_exists; now rewrite H).
    cbn [negb].
    rewrite (bind_return _ _ w w (frame_of_csv f))
      by (unfold read_csv; now rewrite H).
    now rewrite Hmem.
Qed.

Lemma drivers_fail_fast_witness :
  main (fresh_world dead_server []) 
  = (Raise FileNotFoundError, fresh_world dead_server [])
  /\ main (fresh_world dead_server [(INPUT_CSV, crm_without_identifier)])
     = (Raise ValueError,
        fresh_world dead_server [(INPUT_CSV, crm_without_identifier)])
  /\ reprocess_failed (fresh_world dead_server [])
     = (Raise FileNotFoundError, fresh_world dead_server [])
  /\ reprocess_failed
       (fresh_world dead_server [(OUTPUT_CSV, crm_without_identifier)])
     = (Raise ValueError,
        fresh_world dead_server [(OUTPUT_CSV, crm_without_identifier)]).
Proof.
  split; [|split; [|split]].
  - apply (proj1 (drivers_fail_fast (fresh_world dead_server []))).
    reflexivity.
  - apply (proj1 (proj2 (drivers_fail_fast
                           (fresh_world dead_server
                              [(INPUT_CSV, crm_without_identifier)])))
             crm_without_identifier); reflexivity.
  - apply (proj1 (proj2 (proj2 (drivers_fail_fast
                                  (fresh_world dead_server []))))).
    reflexivity.
  - apply (proj2 (proj2 (proj2 (drivers_fail_fast
                                  (fresh_world dead_server
                                     [(OUTPUT_CSV,
                                       crm_without_identifier)]))))
             crm_without_identifier); reflexivity.
Defined.

(** ** Rows without a valid identifier *)

(** X15: in the full run, a row whose identifier normalises to absent is
    recorded at once with the marker [cnpj_invalido], a false success flag
    and no HTTP status; the pacing state and the world are left as they
    were: nothing is sent and nothing is slept. *)
Lemma main_row_absent_identifier
    (cols : list string) (idx : nat) (row : list value) (p : pacing)
    (resultados : list dict) (w : world) (cnpj_raw : value) :
  series_item cols row CNPJ_COLUMN_NAME = Return cnpj_raw ->
  series_item cols row "cnpj_normalizado"
  = Return (normalize_cnpj cnpj_raw) ->
  normalize_cnpj cnpj_raw = VNone ->
  main_row cols idx row p resultados w
  = (Return (p,
             resultados
             ++ [[("index_origem", VInt (Z.of_nat idx));
                  ("cnpj_original", cnpj_raw);
                  ("cnpj_normalizado", VNone);
                  ("api_success", VBool false);
                  ("api_http_status", VNone);
                  ("api_error", VStr "cnpj_invalido")]]),
     w).
Proof.
  intros Hraw Hcnpj Hnone. unfold main_row.
  rewrite bind_lift, Hraw, bind_lift, Hcnpj, Hnone. reflexivity.
Qed.

Lemma main_row_absent_identifier_witness :
  main_row sample_columns 4 [VStr "123"; VNone] sample_pacing []
           (fresh_world dead_server [])
  = (Return (sample_pacing,
             [[("index_origem", VInt 4);
               ("cnpj_original", VStr "123");
               ("cnpj_normalizado", VNone);
               ("api_success", VBool false);
               ("api_http_status", VNone);
               ("api_error", VStr "cnpj_invalido")]]),
     fresh_world dead_server []).
Proof.
  apply (main_row_absent_identifier sample_columns 4
           [VStr "123"; VNone] sample_pacing []
           (fresh_world dead_server []) (VStr "123"));
    reflexivity.
Defined.

(** In the retry-only run, a row whose stored identifier is false ([None]
    or the empty text) is marked, and nothing is sent. *)
Lemma reprocess_row_false_identifier
    (idx : nat) (p : pacing) (df_final : DataFrame) (w : world) :
  truthy (cell df_final idx "cnpj_normalizado") = false ->
  reprocess_row idx p df_final w
  = (Return (p,
             at_set idx "api_error" (VStr "cnpj_invalido_retry")
               (at_set idx "api_success" (VBool false) df_final)),
     w).
Proof.
  intros H. unfold reprocess_row. fold (cell df_final idx "cnpj_normalizado").
  now rewrite H.
Qed.

(** A missing cell comes back from the file as [nan], which is true. *)
Lemma read_cell_blank_truthy : truthy (read_cell "") = true.
Proof. reflexivity. Qed.

(** C7, at a failing input: the full run records the row of identifier
    ["123"] with the marker and sends nothing; the retry-only run over the
    table so produced then reads the stored identifier back as [nan],
    takes it for a valid one and sends a request for it. *)
Theorem reprocess_failed_queries_absent_identifier :
  let w1 := snd (main short_identifier_world) in
  let w2 := snd (reprocess_failed w1) in
  normalize_cnpj (VStr "123") = VNone
  /\ fst (main short_identifier_world) = Return tt
  /\ trace w1 = []
  /\ find_file OUTPUT_CSV (files w1)
     = Some (mkCsv ["cliente"; "cnpj_normalizadoapi"; "cnpj_normalizado";
                    "cnpj_original"; "cnpj_normalizadoapi"; "api_success";
                    "api_http_status"; "api_error"]
                   [["Loja A"; "123"; ""; "123"; ""; "False"; "";
                     "cnpj_invalido"]])
  /\ fst (reprocess_failed w1) = Return tt
  /\ trace w2 = [Get "https://api.cnpja.com/office/nan"]
  /\ option_map (map (firstn 8)) (option_map lines
                                    (find_file OUTPUT_CSV (files w2)))
     = Some [["Loja A"; "123"; ""; "123"; ""; "False"; "502";
              "http_error_502"]].
Proof. vm_compute. repeat split. Qed.

(** ** Rows that are not retried *)

(** C9, at a failing input: the full run writes a first row that
    succeeded, with trade name NA, and a second that failed; the
    retry-only run sends one request, for the second row, and rewrites the
    first row with an empty trade name. *)
Theorem reprocess_failed_blanks_missing_tokens :
  let w1 := snd (main two_row_world) in
  let w2 := snd (reprocess_failed w1) in
  fst (main two_row_world) = Return tt
  /\ fst (reprocess_failed w1) = Return tt
  /\ trace w2
     = trace w1 ++ [Get "https://api.cnpja.com/office/98765432000110"]
  /\ option_map (firstn 8) (line_of OUTPUT_CSV 0 w1)
     = Some ["Loja A"; "12.345.678/0001-95"; "12345678000195"; "True";
             "200"; ""; "ACME LTDA"; "NA"]
  /\ option_map (firstn 8) (line_of OUTPUT_CSV 0 w2)
     = Some ["Loja A"; "12.345.678/0001-95"; "12345678000195"; "True";
             "200"; ""; "ACME LTDA"; ""]
  /\ line_of OUTPUT_CSV 0 w1 <> line_of OUTPUT_CSV 0 w2.
Proof.
  vm_compute. repeat split. discriminate.
Qed.

(** ** A table without rows *)

(** C1, at a failing input: on a source table that has the identifier
    column and no row, the full run raises [KeyError] when it indexes the
    empty result table, and writes no output. *)
Theorem main_empty_table_raises (w : world) (f : csv_file) :
  find_file INPUT_CSV (files w) = Some f ->
  mem CNPJ_COLUMN_NAME (columns (frame_of_csv f)) = true ->
  lines f = [] ->
  main w = (Raise KeyError, w).
Proof.
  intros Hfile Hmem Hlines. unfold main.
  rewrite (bind_return _ _ w w true)
    by (unfold path_exists; now rewrite Hfile).
  cbn [negb].
  rewrite (bind_return _ _ w w (frame_of_csv f))
    by (unfold read_csv; now rewrite Hfile).
  rewrite Hmem. cbn [negb]. rewrite bind_lift.
  destruct (index_of_mem _ _ Hmem) as [j Hj].
  unfold column. rewrite Hj.
  unfold frame_of_csv in *. rewrite Hlines. cbn [rows columns map].
  unfold bind at 1. unfold time_time at 1.
  unfold set_column, iterrows.
  destruct (index_of "cnpj_normalizado" _); reflexivity.
Qed.

Lemma main_empty_table_raises_witness :
  main empty_world = (Raise KeyError, empty_world).
Proof.
  apply (main_empty_table_raises empty_world empty_crm); reflexivity.
Defined.

(** A payload that is not an object stops the full run as well: the
    flattener raises [AttributeError] on the first row, after one request,
    and no output is written. *)
Example main_aborts_on_text_payload :
  fst (main text_error_world) = Raise AttributeError
  /\ trace (snd (main text_error_world))
     = [Get "https://api.cnpja.com/office/12345678000195"]
  /\ find_file OUTPUT_CSV (files (snd (main text_error_world))) = None.
Proof. vm_compute. repeat split. Qed.

(** ** Row preservation in the full run *)

Lemma find_store_same (path : string) (f : csv_file)
    (fs : list (string * csv_file)) :
  find_file path (store_file path f fs) = Some f.
Proof.
  induction fs as [|[p g] fs IH]; simpl.
  - now rewrite String.eqb_refl.
  - destruct (String.eqb path p) eqn:E; simpl; now rewrite E.
Qed.

(** Each pass of the loop appends one record, filed under the row's
    label. *)
Lemma main_row_appends
    (cols : list string) (idx : nat) (row : list value) (p p' : pacing)
    (resultados resultados' : list dict) (w w' : world) :
  main_row cols idx row p resultados w = (Return (p', resultados'), w') ->
  exists record,
    resultados' = resultados ++ [record]
    /\ label_of record = VInt (Z.of_nat idx).
Proof.
  unfold main_row. rewrite bind_lift.
  destruct (series_item cols row CNPJ_COLUMN_NAME) as [cnpj_raw|];
    [|discriminate].
  rewrite bind_lift.
  destruct (series_item cols row "cnpj_normalizado") as [cnpj|];
    [|discriminate].
  destruct (truthy cnpj); cbn [negb].
  - destruct (sleep_if_necessary_returns
                (request_count p) (window_start p) w)
      as (cw & es1 & Hs & _).
    rewrite (bind_return _ _ _ _ _ Hs).
    destruct (query_with_429_retry_total cnpj (run_events es1 w))
      as (r & es2 & Hq & _).
    rewrite (bind_return _ _ _ _ _ Hq). rewrite bind_lift.
    destruct (extract_fields r) as [fields|]; [|discriminate].
    intros H. injection H as _ <- _.
    eexists. split; [reflexivity|]. unfold label_of.
    rewrite !lookup_set_other by discriminate.
    now rewrite lookup_set_same.
  - intros H. injection H as _ <- _.
    eexists. split; reflexivity.
Qed.

Lemma main_loop_appends (cols : list string)
    (items : list (nat * list value)) :
  forall (p p' : pacing) (resultados resultados' : list dict)
         (w w' : world),
    main_loop cols items p resultados w = (Return (p', resultados'), w') ->
    exists records,
      resultados' = resultados ++ records
      /\ map label_of records
         = map (fun it => VInt (Z.of_nat (fst it))) items.
Proof.
  induction items as [|[idx row] items IH];
    intros p p' resultados resultados' w w' H.
  - injection H as _ <- _. exists []. now rewrite app_nil_r.
  - cbn [main_loop] in H. unfold bind at 1 in H.
    destruct (main_row cols idx row p resultados w)
      as [[[p1 res1]|e] w1] eqn:Hrow; [|discriminate].
    apply main_row_appends in Hrow. destruct Hrow as (record & -> & Hl).
    apply IH in H. destruct H as (records & -> & Hls).
    exists (record :: records). split.
    + cbn [snd]. now rewrite <- app_assoc.
    + simpl. now rewrite Hl, Hls.
Qed.

Lemma set_index_labels (records : list dict) (right : IndexedFrame) :
  set_index "index_origem" (frame_of_records records) = Return right ->
  ix_labels right = map label_of records.
Proof.
  unfold set_index, frame_of_records. cbn [columns rows].
  destruct (index_of "index_origem" (all_keys records)) as [j|] eqn:E;
    [|discriminate].
  intros H. injection H as <-. cbn [ix_labels].
  rewrite map_map. apply map_ext. intros d.
  apply index_of_Some in E. destruct E as [Hj Hc].
  set (g := fun c : string =>
              match Dict.lookup c d with Some v => v | None => VNaN end).
  rewrite (nth_indep _ VNaN (g "")) by (now rewrite length_map).
  rewrite (map_nth g). rewrite Hc. reflexivity.
Qed.

Lemma matches_absent (i : nat) (idxs : list nat) :
  forall rrows : list (list value),
    ~ In i idxs ->
    filter (fun lr : value * list value => is_int (Z.of_nat i) (fst lr))
           (combine (map (fun k => VInt (Z.of_nat k)) idxs) rrows)
    = [].
Proof.
  induction idxs as [|k idxs IH]; intros rrows Hnot; [reflexivity|].
  destruct rrows as [|r rrows]; [reflexivity|].
  simpl. destruct (Z.eqb_spec (Z.of_nat k) (Z.of_nat i)) as [E|E].
  - apply Nat2Z.inj in E. subst. simpl in Hnot. tauto.
  - apply IH. simpl in Hnot. tauto.
Qed.

(** Distinct labels on the right: at most one row under each label. *)
Lemma matches_at_most_one (right : IndexedFrame) (idxs : list nat)
    (i : nat) :
  ix_labels right = map (fun k => VInt (Z.of_nat k)) idxs ->
  NoDup idxs ->
  (List.length (matches i right) <= 1)%nat.
Proof.
  unfold matches. intros -> Hnd. rewrite length_map.
  generalize (ix_rows right) as rrows.
  induction Hnd as [|k idxs Hnotin Hnd IH]; intros rrows;
    [simpl; lia|].
  destruct rrows as [|r rrows]; [simpl; lia|].
  simpl. destruct (Z.eqb_spec (Z.of_nat k) (Z.of_nat i)) as [E|E].
  - apply Nat2Z.inj in E. subst.
    rewrite (matches_absent i idxs rrows Hnotin). simpl. lia.
  - apply IH.
Qed.

Lemma flat_map_single {A B} (h : A -> B) (l : list A) :
  flat_map (fun x => [h x]) l = map h l.
Proof. induction l as [|x l IH]; simpl; now rewrite ?IH. Qed.

Lemma join_left_rows (left : DataFrame) (right : IndexedFrame)
    (rsuffix : string) :
  (forall i, (List.length (matches i right) <= 1)%nat) ->
  rows (join_left left right rsuffix)
  = imap (fun i row => row ++ joined_cells right i) (rows left).
Proof.
  intros Hone. unfold join_left, imap, iterrows. cbn [rows].
  rewrite <- (flat_map_single
                (fun ir : nat * list value =>
                   snd ir ++ joined_cells right (fst ir))).
  apply flat_map_ext. intros [i row].
  cbn [fst snd]. unfold joined_cells. specialize (Hone i).
  destruct (matches i right) as [|r [|r' ms]]; simpl in *; try lia;
    reflexivity.
Qed.

Lemma map_fst_iterrows (df : DataFrame) :
  map fst (iterrows df) = seq 0 (List.length (rows df)).
Proof.
  unfold iterrows.
  generalize 0%nat as a.
  induction (rows df) as [|r l IH]; intros a; [reflexivity|].
  simpl. now rewrite IH.
Qed.

Lemma NoDup_skipn {A} (k : nat) (l : list A) : NoDup l -> NoDup (skipn k l).
Proof.
  revert l. induction k as [|k IH]; intros l H; [exact H|].
  destruct l as [|x l]; [constructor|]. simpl. apply IH.
  now inversion H.
Qed.

Lemma map_skipn {A B} (f : A -> B) (k : nat) (l : list A) :
  map f (skipn k l) = skipn k (map f l).
Proof.
  revert l. induction k as [|k IH]; intros [|x l]; simpl; auto.
Qed.

Lemma length_rows_set_column (c : string) (vals : list value)
    (df : DataFrame) :
  List.length vals = List.length (rows df) ->
  List.length (rows (set_column c vals df)) = List.length (rows df).
Proof.
  intros H. unfold set_column.
  destruct (index_of c (columns df)); cbn [rows];
    rewrite length_map, length_combine; lia.
Qed.

(** X16: whenever the full run completes, the table it writes has, line for
    line and in the source order, the cells of the source row followed by
    the cells joined to it; so it has as many lines as the source. *)
Theorem main_preserves_rows (w w' : world) (f : csv_file) :
  find_file INPUT_CSV (files w) = Some f ->
  main w = (Return tt, w') ->
  exists (out : csv_file) (joined : nat -> list value),
    find_file OUTPUT_CSV (files w') = Some out
    /\ lines out
       = imap (fun i row => map csv_text (row ++ joined i))
              (rows (normalized_frame (frame_of_csv f)))
    /\ List.length (lines out) = List.length (lines f).
Proof.
  intros Hfile. unfold main.
  rewrite (bind_return _ _ w w true)
    by (unfold path_exists; now rewrite Hfile).
  cbn [negb].
  rewrite (bind_return _ _ w w (frame_of_csv f))
    by (unfold read_csv; now rewrite Hfile).
  destruct (mem CNPJ_COLUMN_NAME (columns (frame_of_csv f))) eqn:Hmem;
    cbn [negb]; [|discriminate].
  rewrite bind_lift. unfold normalized_frame.
  destruct (column (frame_of_csv f) CNPJ_COLUMN_NAME) as [raw|] eqn:Hraw;
    [|discriminate].
  set (df := set_column "cnpj_normalizado" (map normalize_cnpj raw)
                        (frame_of_csv f)).
  unfold bind at 1. unfold time_time at 1. unfold bind at 1.
  destruct (main_loop (columns df) (skipn START_INDEX (iterrows df))
                      (mkPacing 0 (clock w)) [] w)
    as [[[p1 records]|e] w1] eqn:Hloop; [|discriminate].
  rewrite bind_lift. cbn [snd].
  destruct (set_index "index_origem" (frame_of_records records))
    as [right|] eqn:Hright; [|discriminate].
  unfold to_csv. intros H. injection H as <-.
  apply main_loop_appends in Hloop.
  destruct Hloop as (recs & Hrecs & Hlabels). simpl in Hrecs. subst recs.
  apply set_index_labels in Hright.
  assert (Hone : forall i, (List.length (matches i right) <= 1)%nat).
  { intros i.
    apply (matches_at_most_one right
             (map fst (skipn START_INDEX (iterrows df)))).
    - rewrite Hright, Hlabels. now rewrite map_map.
    - rewrite map_skipn, map_fst_iterrows. apply NoDup_skipn, seq_NoDup. }
  exists (csv_of_frame (join_left df right "api")), (joined_cells right).
  cbn [files]. split; [apply find_store_same|].
  assert (Hlines : lines (csv_of_frame (join_left df right "api"))
                   = imap (fun i row =>
                             map csv_text (row ++ joined_cells right i))
                          (rows df)).
  { unfold csv_of_frame. cbn [lines].
    rewrite (join_left_rows df right "api" Hone).
    unfold imap. rewrite map_map. reflexivity. }
  split; [exact Hlines|].
  rewrite Hlines, length_imap. unfold df.
  rewrite length_rows_set_column.
  - unfold frame_of_csv. cbn [rows]. apply length_map.
  - unfold column in Hraw.
    destruct (index_of CNPJ_COLUMN_NAME (columns (frame_of_csv f)));
      [|discriminate].
    injection Hraw as <-. rewrite length_map. apply length_map.
Qed.

(** ** The full run completes *)

Lemma flattenable_None : flattenable VNone.
Proof. intros s e st. eexists. reflexivity. Qed.

Lemma flattenable_sample_payload : flattenable sample_payload.
Proof. intros s e st. eexists. reflexivity. Qed.

Lemma extract_fields_answers (srv : nat -> string -> reply) (r : dict) :
  well_shaped srv -> answers srv r ->
  exists fields, extract_fields r = Return fields.
Proof.
  intros Hsrv [(n & url & st & js & Hreply & ->) | (v & ->)].
  - unfold envelope_of_response.
    destruct ((st =? 200) && negb (is_none (json_data_of js)));
      apply (Hsrv n url st js Hreply).
  - apply flattenable_None.
Qed.

Lemma main_row_total
    (cols : list string) (idx : nat) (row : list value) (p : pacing)
    (resultados : list dict) (w : world) :
  mem CNPJ_COLUMN_NAME cols = true ->
  mem "cnpj_normalizado" cols = true ->
  well_shaped (server w) ->
  exists st es,
    main_row cols idx row p resultados w = (Return st, run_events es w).
Proof.
  intros Hraw Hcnpj Hsrv. unfold main_row, series_item.
  destruct (index_of_mem _ _ Hraw) as [j ->].
  destruct (index_of_mem _ _ Hcnpj) as [j' ->].
  rewrite !bind_lift.
  destruct (truthy (nth j' row VNaN)); cbn [negb].
  - destruct (sleep_if_necessary_returns
                (request_count p) (window_start p) w)
      as (cw & es1 & Hs & _).
    rewrite (bind_return _ _ _ _ _ Hs).
    destruct (query_with_429_retry_total (nth j' row VNaN)
                                         (run_events es1 w))
      as (r & es2 & Hq & _ & Hans).
    rewrite (bind_return _ _ _ _ _ Hq). rewrite bind_lift.
    rewrite server_run_events in Hans.
    destruct (extract_fields_answers _ r Hsrv Hans) as [fields ->].
    eexists. exists (es1 ++ es2 ++ [Sleep 500]).
    rewrite !run_events_app. reflexivity.
  - eexists. exists []. reflexivity.
Qed.

Lemma main_loop_total (cols : list string)
    (items : list (nat * list value)) :
  forall (p : pacing) (resultados : list dict) (w : world),
    mem CNPJ_COLUMN_NAME cols = true ->
    mem "cnpj_normalizado" cols = true ->
    well_shaped (server w) ->
    exists st es,
      main_loop cols items p resultados w = (Return st, run_events es w).
Proof.
  induction items as [|[idx row] items IH];
    intros p resultados w Hraw Hcnpj Hsrv.
  - eexists. exists []. reflexivity.
  - cbn [main_loop].
    destruct (main_row_total cols idx row p resultados w Hraw Hcnpj Hsrv)
      as (st1 & es1 & Hrow).
    rewrite (bind_return _ _ _ _ _ Hrow).
    destruct (IH (fst st1) (snd st1) (run_events es1 w) Hraw Hcnpj)
      as (st2 & es2 & Hloop).
    + now rewrite server_run_events.
    + exists st2, (es1 ++ es2). now rewrite run_events_app.
Qed.

Lemma mem_columns_set_column (c c' : string) (vals : list value)
    (df : DataFrame) :
  mem c' (columns df) = true \/ c' = c ->
  mem c' (columns (set_column c vals df)) = true.
Proof.
  unfold set_column. intros H.
  destruct (index_of c (columns df)) as [j|] eqn:E; cbn [columns].
  - destruct H as [H| ->]; auto.
    destruct (mem c (columns df)) eqn:Hm; auto.
    apply index_of_None in Hm. congruence.
  - apply mem_true_iff. apply in_or_app.
    destruct H as [H| ->]; [left; now apply mem_true_iff|right; now left].
Qed.

Lemma add_keys_keeps (ks acc : list string) (k : string) :
  In k acc -> In k (add_keys acc ks).
Proof.
  revert acc. induction ks as [|k' ks IH]; intros acc H; simpl; auto.
  apply IH. destruct (mem k' acc); auto. apply in_or_app. now left.
Qed.

Lemma add_keys_adds (ks acc : list string) (k : string) :
  In k ks -> In k (add_keys acc ks).
Proof.
  revert acc. induction ks as [|k' ks IH]; intros acc H; simpl;
    [destruct H|].
  destruct H as [->|H]; [|now apply IH].
  apply add_keys_keeps.
  destruct (mem k acc) eqn:E; [now apply mem_true_iff|].
  apply in_or_app. right. now left.
Qed.

Lemma all_keys_contains (records : list dict) (d : dict) (k : string) :
  In d records -> In k (Dict.keys d) -> In k (all_keys records).
Proof.
  unfold all_keys. generalize (@nil string) as acc.
  induction records as [|d' records IH]; intros acc Hd Hk; [destruct Hd|].
  simpl. destruct Hd as [->|Hd].
  - assert (Hin : In k (add_keys acc (Dict.keys d)))
      by now apply add_keys_adds.
    revert Hin. generalize (add_keys acc (Dict.keys d)) as acc'.
    clear. induction records as [|d' records IH]; intros acc' Hin; auto.
    simpl. apply IH. now apply add_keys_keeps.
  - now apply IH.
Qed.

Lemma lookup_Some_key (k : string) (d : dict) (v : value) :
  Dict.lookup k d = Some v -> In k (Dict.keys d).
Proof.
  induction d as [|[k' v'] d IH]; simpl; [discriminate|].
  destruct (String.eqb k k') eqn:E.
  - apply String.eqb_eq in E. now left.
  - intros H. right. now apply IH.
Qed.

(** X17: on a source table with the identifier column and at least one row,
    against a server whose payloads the flattener accepts, the full run
    returns. *)
Theorem main_total (w : world) (f : csv_file) :
  find_file INPUT_CSV (files w) = Some f ->
  mem CNPJ_COLUMN_NAME (columns (frame_of_csv f)) = true ->
  lines f <> [] ->
  well_shaped (server w) ->
  exists w', main w = (Return tt, w').
Proof.
  intros Hfile Hmem Hlines Hsrv. unfold main.
  rewrite (bind_return _ _ w w true)
    by (unfold path_exists; now rewrite Hfile).
  cbn [negb].
  rewrite (bind_return _ _ w w (frame_of_csv f))
    by (unfold read_csv; now rewrite Hfile).
  rewrite Hmem. cbn [negb]. rewrite bind_lift.
  destruct (index_of_mem _ _ Hmem) as [j Hj].
  unfold column. rewrite Hj.
  set (raw := map _ (rows (frame_of_csv f))).
  set (df := set_column "cnpj_normalizado" (map normalize_cnpj raw)
                        (frame_of_csv f)).
  unfold bind at 1. unfold time_time at 1.
  destruct (main_loop_total (columns df) (skipn START_INDEX (iterrows df))
              (mkPacing 0 (clock w)) [] w)
    as ([p1 records] & es & Hloop); auto.
  { apply mem_columns_set_column. now left. }
  { apply mem_columns_set_column. now right. }
  rewrite (bind_return _ _ _ _ _ Hloop). rewrite bind_lift. cbn [snd].
  pose proof Hloop as Hrecs. apply main_loop_appends in Hrecs.
  destruct Hrecs as (recs & Hrecs & Hlabels). simpl in Hrecs. subst recs.
  assert (Hrows : (List.length (rows df) = List.length (lines f))%nat).
  { unfold df. rewrite length_rows_set_column.
    - unfold frame_of_csv. cbn [rows]. apply length_map.
    - unfold raw. rewrite !length_map. reflexivity. }
  assert (Hfirst : exists record rest idx,
             records = record :: rest
             /\ label_of record = VInt (Z.of_nat idx)).
  { unfold START_INDEX, iterrows in Hlabels. cbn [skipn] in Hlabels.
    destruct (rows df) as [|row rows'] eqn:Erows.
    - destruct (lines f); [congruence|discriminate].
    - destruct records as [|record rest]; [discriminate|].
      simpl in Hlabels. injection Hlabels as Hl _.
      now exists record, rest, O. }
  destruct Hfirst as (record & rest & idx & -> & Hl).
  assert (Hkey : mem "index_origem"
                     (all_keys (record :: rest)) = true).
  { apply mem_true_iff. apply (all_keys_contains _ record); [now left|].
    unfold label_of in Hl.
    destruct (Dict.lookup "index_origem" record) as [v|] eqn:E;
      [|discriminate].
    now apply lookup_Some_key in E. }
  destruct (index_of_mem _ _ Hkey) as [k Hk].
  unfold set_index, frame_of_records. cbn [columns]. rewrite Hk.
  unfold to_csv. eexists. reflexivity.
Qed.

Lemma well_shaped_first_only_server : well_shaped first_only_server.
Proof.
  intros n url st js H. destruct n as [|n]; injection H as <- <-.
  - apply flattenable_sample_payload.
  - apply flattenable_None.
Qed.

Lemma main_total_witness : exists w', main two_row_world = (Return tt, w').
Proof.
  apply (main_total two_row_world two_row_crm).
  - reflexivity.
  - reflexivity.
  - discriminate.
  - apply well_shaped_first_only_server.
Defined.

Lemma main_preserves_rows_witness :
  exists out,
    find_file OUTPUT_CSV (files (snd (main two_row_world))) = Some out
    /\ List.length (lines out) = 2%nat.
Proof.
  destruct (main_preserves_rows two_row_world (snd (main two_row_world))
              two_row_crm eq_refl eq_refl)
    as (out & joined & Hout & _ & Hlen).
  exists out. split; [exact Hout|exact Hlen].
Defined.

(** ** The rows that the retry-only run leaves alone *)

Lemma untouched_refl (i : nat) (df : DataFrame) : untouched i df df.
Proof.
  unfold untouched. rewrite Nat.sub_diag. simpl. rewrite app_nil_r. auto.
Qed.

Lemma untouched_trans (i : nat) (df df' df'' : DataFrame) :
  untouched i df df' -> untouched i df' df'' -> untouched i df df''.
Proof.
  unfold untouched. intros (Hr & Hc & Hn) (Hr' & Hc' & Hn').
  repeat split; try lia.
  rewrite Hn', Hn, <- app_assoc, <- repeat_app. do 2 f_equal. lia.
Qed.

Lemma untouched_at_set (i idx : nat) (c : string) (v : value)
    (df : DataFrame) :
  i <> idx -> (i < List.length (rows df))%nat ->
  untouched i df (at_set idx c v df).
Proof.
  intros Hne Hi. apply Nat.eqb_neq in Hne. unfold untouched, at_set.
  destruct (index_of c (columns df)); cbn [rows columns].
  - rewrite length_imap, (nth_imap _ _ _ []) by auto.
    rewrite Hne, Nat.sub_diag. simpl. rewrite app_nil_r. auto.
  - rewrite length_imap, (nth_imap _ _ _ []) by auto.
    rewrite Hne, length_app. simpl.
    replace (List.length (columns df) + 1 - List.length (columns df))%nat
      with 1%nat by lia.
    repeat split; auto. lia.
Qed.

Lemma untouched_set_fields (i idx : nat) (fields : dict) :
  forall df : DataFrame,
    i <> idx -> (i < List.length (rows df))%nat ->
    untouched i df (set_fields idx fields df).
Proof.
  unfold set_fields.
  induction fields as [|[c v] fields IH]; intros df Hne Hi.
  - apply untouched_refl.
  - simpl. eapply untouched_trans.
    + now apply (untouched_at_set i idx c v df).
    + apply IH; auto. now rewrite length_rows_at_set.
Qed.

Lemma reprocess_row_untouched (i idx : nat) (p p' : pacing)
    (df df' : DataFrame) (w w' : world) :
  i <> idx -> (i < List.length (rows df))%nat ->
  reprocess_row idx p df w = (Return (p', df'), w') ->
  untouched i df df'.
Proof.
  intros Hne Hi. unfold reprocess_row.
  destruct (truthy _); cbn [negb].
  - destruct (sleep_if_necessary_returns
                (request_count p) (window_start p) w)
      as (cw & es1 & Hs & _).
    rewrite (bind_return _ _ _ _ _ Hs).
    destruct (query_with_429_retry_total
                (series_get (columns df) (nth idx (rows df) [])
                            "cnpj_normalizado")
                (run_events es1 w))
      as (r & es2 & Hq & _).
    rewrite (bind_return _ _ _ _ _ Hq). rewrite bind_lift.
    destruct (extract_fields r) as [fields|]; [|discriminate].
    intros H. injection H as _ <- _.
    apply (untouched_trans i df (set_fields idx fields df));
      [now apply untouched_set_fields|].
    match goal with
    | |- untouched i _ (at_set idx _ _ ?mid) =>
        apply (untouched_trans i _ mid)
    end; apply untouched_at_set; auto;
      rewrite ?length_rows_at_set, length_rows_set_fields; auto.
  - intros H. injection H as _ <- _.
    match goal with
    | |- untouched i _ (at_set idx _ _ ?mid) =>
        apply (untouched_trans i _ mid)
    end; apply untouched_at_set; auto.
    now rewrite length_rows_at_set.
Qed.

Lemma reprocess_loop_untouched (i : nat) (retry : list nat) :
  forall (p p' : pacing) (df df' : DataFrame) (w w' : world),
    ~ In i retry -> (i < List.length (rows df))%nat ->
    reprocess_loop retry p df w = (Return (p', df'), w') ->
    untouched i df df'.
Proof.
  induction retry as [|idx retry IH]; intros p p' df df' w w' Hnot Hi H.
  - injection H as _ <- _. apply untouched_refl.
  - cbn [reprocess_loop] in H. unfold bind at 1 in H.
    destruct (reprocess_row idx p df w) as [[[p1 df1]|e] w1] eqn:Hrow;
      [|discriminate].
    simpl in Hnot.
    assert (H1 : untouched i df df1).
    { apply (reprocess_row_untouched i idx p p1 df df1 w w1);
        [|exact Hi|exact Hrow].
      intros ->. apply Hnot. now left. }
    apply (untouched_trans i df df1); [exact H1|].
    apply (IH p1 p' df1 df' w1 w'); auto.
    destruct H1 as (Hlen & _). lia.
Qed.

Lemma csv_text_read_cell (s : string) :
  csv_text (read_cell s) = if mem s na_values then "" else s.
Proof. unfold read_cell. destruct (mem s na_values); reflexivity. Qed.

(** X18: whenever the retry-only run completes, either no row was selected and
    the file is as it was, or every row that was not selected is written
    back with the cells it was read with, printed again, and an empty
    cell for each added column.  A cell prints as its text, except that
    a text among the reader's missing-value tokens prints empty. *)
Theorem reprocess_failed_frame (w w' : world) (f : csv_file) :
  find_file OUTPUT_CSV (files w) = Some f ->
  reprocess_failed w = (Return tt, w') ->
  (retry_index (frame_of_csv f) = [] /\ w' = w)
  \/ exists k : nat,
       forall i : nat,
         (i < List.length (lines f))%nat ->
         ~ In i (retry_index (frame_of_csv f)) ->
         line_of OUTPUT_CSV i w'
         = Some (map csv_text (nth i (rows (frame_of_csv f)) [])
                 ++ repeat "" k).
Proof.
  intros Hfile. unfold reprocess_failed.
  rewrite (bind_return _ _ w w true)
    by (unfold path_exists; now rewrite Hfile).
  cbn [negb].
  rewrite (bind_return _ _ w w (frame_of_csv f))
    by (unfold read_csv; now rewrite Hfile).
  destruct (mem "api_success" (columns (frame_of_csv f))); cbn [negb];
    [|discriminate].
  rewrite bind_lift. unfold retry_index.
  destruct (column (frame_of_csv f) "api_success") as [flags|];
    [|discriminate].
  destruct (masked_index (map not_true flags)) as [|idx retry] eqn:Hretry.
  - intros H. injection H as <-. now left.
  - unfold bind at 1. unfold time_time at 1. unfold bind at 1.
    destruct (reprocess_loop (idx :: retry) (mkPacing 0 (clock w))
                (frame_of_csv f) w)
      as [[[p1 df1]|e] w1] eqn:Hloop; [|discriminate].
    unfold to_csv. intros H. injection H as <-. right.
    exists (List.length (columns df1)
            - List.length (columns (frame_of_csv f)))%nat.
    intros i Hi Hnot.
    assert (Hi' : (i < List.length (rows (frame_of_csv f)))%nat).
    { unfold frame_of_csv. cbn [rows]. now rewrite length_map. }
    destruct (reprocess_loop_untouched i _ _ _ _ _ _ _ Hnot Hi' Hloop)
      as (Hlen & _ & Hrow).
    unfold line_of. cbn [files snd]. rewrite find_store_same.
    unfold csv_of_frame. cbn [lines].
    rewrite nth_error_map.
    rewrite (nth_error_nth' (rows df1) []) by lia.
    cbn [option_map]. rewrite Hrow, map_app, map_repeat. reflexivity.
Qed.

Example reprocess_failed_frame_two_rows :
  line_of OUTPUT_CSV 0 (snd (reprocess_failed (snd (main two_row_world))))
  = option_map (map (fun s => if mem s na_values then "" else s))
               (line_of OUTPUT_CSV 0 (snd (main two_row_world))).
Proof. vm_compute. reflexivity. Qed.

Lemma reprocess_failed_frame_witness :
  exists k : nat,
    line_of OUTPUT_CSV 0 (snd (reprocess_failed enriched_world))
    = Some (["Loja A"; "12.345.678/0001-95"; "12345678000195"; "True";
             "200"; ""; "ACME LTDA"; ""; ""; ""; "1.0"; "ME"; ""; ""; "";
             ""; ""; ""; ""; "Recife"; "PE"; "";
             "{'id': 2, 'text': 'Ativa'}"; ""; ""; "12.345.678/0001-95";
             "12345678000195"]
            ++ repeat "" k).
Proof.
  destruct (reprocess_failed_frame enriched_world
              (snd (reprocess_failed enriched_world)) enriched_table)
    as [[Hnone _]|[k Hk]].
  - reflexivity.
  - vm_compute. reflexivity.
  - vm_compute in Hnone. discriminate Hnone.
  - exists k. rewrite (Hk 0%nat).
    + do 2 f_equal.
    + vm_compute. lia.
    + vm_compute. intros [H|[]]. discriminate H.
Defined.

(** * Further properties *)

(** ** Identifier normaliser *)

Lemma filter_filter {A} (f : A -> bool) (l : list A) :
  filter f (filter f l) = filter f l.
Proof.
  induction l as [|x l IH]; simpl; auto.
  destruct (f x) eqn:E; simpl; rewrite ?E, IH; reflexivity.
Qed.

Lemma keep_digits_keep_digits (s : string) :
  keep_digits (keep_digits s) = keep_digits s.
Proof.
  unfold keep_digits at 1. rewrite keep_digits_chars, filter_filter.
  reflexivity.
Qed.

(** X1: normalising twice is normalising once, for an absent value and
    for every text; and what [normalize_cnpj] returns is true, as the
    drivers test it with [if not cnpj], exactly when it is not [None]. *)
Theorem normalize_cnpj_idempotent :
  normalize_cnpj (normalize_cnpj VNone) = normalize_cnpj VNone
  /\ normalize_cnpj (normalize_cnpj VNaN) = normalize_cnpj VNaN
  /\ forall s : string,
       normalize_cnpj (normalize_cnpj (VStr s)) = normalize_cnpj (VStr s)
       /\ truthy (normalize_cnpj (VStr s))
          = negb (is_none (normalize_cnpj (VStr s))).
Proof.
  split; [reflexivity|]. split; [reflexivity|].
  intros s. unfold normalize_cnpj. cbn [pd_isna py_str].
  destruct (String.length (keep_digits s) =? 14)%nat eqn:E.
  - cbn [pd_isna py_str]. rewrite keep_digits_keep_digits, E.
    split; [reflexivity|].
    cbn [truthy is_none negb]. destruct (keep_digits s); [discriminate|].
    reflexivity.
  - split; reflexivity.
Qed.

(** ** Lookup client *)

Lemma fetch_attempts_events (cnpj : value) (attempts : list nat) :
  forall (last : value) (w : world),
  exists r es,
    fetch_attempts cnpj attempts last w = (Return r, run_events es w)
    /\ (count_gets es <= List.length attempts)%nat
    /\ (attempts <> [] -> (1 <= count_gets es)%nat)
    /\ Forall (client_event (office_url cnpj)) es
    /\ answers (server w) r.
Proof.
  induction attempts as [|attempt rest IH]; intros last w.
  - exists (envelope_exhausted last), []. repeat split.
    + unfold count_gets. simpl. lia.
    + congruence.
    + constructor.
    + right. now exists last.
  - cbn [fetch_attempts]. unfold bind at 1. unfold requests_get at 1.
    destruct (server w (issued w) (office_url cnpj)) as [e|st js] eqn:Hr.
    + unfold bind at 1. unfold time_sleep at 1.
      destruct (IH (VStr e)
                  (apply_event (Sleep (seconds (2 ^ Z.of_nat attempt)))
                     (apply_event (Get (office_url cnpj)) w)))
        as (r & es & Hrun & Hle & _ & Hev & Henv).
      exists r, (Get (office_url cnpj)
                 :: Sleep (seconds (2 ^ Z.of_nat attempt)) :: es).
      unfold count_gets in *. repeat split; auto.
      * simpl. lia.
      * intros _. simpl. lia.
      * constructor; [reflexivity|]. constructor; [|exact Hev].
        simpl. unfold seconds.
        assert (0 < 2 ^ Z.of_nat attempt) by (apply Z.pow_pos_nonneg; lia).
        lia.
    + exists (envelope_of_response st js), [Get (office_url cnpj)].
      unfold count_gets. repeat split.
      * simpl. lia.
      * intros _. simpl. lia.
      * constructor; [reflexivity|constructor].
      * left. now exists (issued w), (office_url cnpj), st, js.
Qed.

(** X2: whatever the network does and whatever the attempt count, the
    client returns (it raises nothing) an envelope with the four keys
    [success], [error], [http_status], [data] in this order, which is
    either a success (no error, status 200, a payload) or a failure with
    an error text; it has sent at most [max_retries] requests, all to the
    identifier's address, and slept only positive times. *)
Theorem fetch_cnpj_data_envelope_shape
    (cnpj : value) (max_retries : nat) (w : world) :
  exists r es,
    fetch_cnpj_data cnpj max_retries w = (Return r, run_events es w)
    /\ (count_gets es <= max_retries)%nat
    /\ Forall (client_event (office_url cnpj)) es
    /\ Dict.keys r = ["success"; "error"; "http_status"; "data"]
    /\ ((Dict.get "success" r = VBool true
         /\ Dict.get "error" r = VNone
         /\ Dict.get "http_status" r = VInt 200
         /\ Dict.get "data" r <> VNone)
        \/ (Dict.get "success" r = VBool false
            /\ exists msg, Dict.get "error" r = VStr msg)).
Proof.
  destruct (fetch_attempts_events cnpj (seq 0 max_retries) VNone w)
    as (r & es & Hrun & Hle & _ & Hev & Hans).
  rewrite length_seq in Hle.
  exists r, es. repeat split; auto.
  - destruct Hans as [(n & url & st & js & _ & ->) | (v & ->)];
      [|reflexivity].
    unfold envelope_of_response.
    destruct ((st =? 200) && negb (is_none (json_data_of js)));
      reflexivity.
  - destruct Hans as [(n & url & st & js & _ & ->) | (v & ->)].
    + unfold envelope_of_response.
      destruct ((st =? 200) && negb (is_none (json_data_of js))) eqn:E.
      * left. repeat split. apply andb_prop in E. destruct E as [_ E].
        cbn. destruct (json_data_of js); try discriminate.
      * right. split; [reflexivity|]. eexists. reflexivity.
    + right. split; [reflexivity|]. eexists. reflexivity.
Qed.

(** X3: an attempt that receives status 200 returns at once, with one
    request and no sleep: when the body parsed to a value other than
    [None], the success envelope with no error, status 200 and that value
    as [data]; when the body did not parse, or parsed to the JSON value
    null, the failure envelope with error [http_error_200] and no
    payload. *)
Theorem fetch_status_200
    (cnpj : value) (attempt : nat) (rest : list nat)
    (last_exception_str : value) (w : world) (json : option value) :
  server w (issued w) (office_url cnpj) = Response 200 json ->
  fetch_attempts cnpj (attempt :: rest) last_exception_str w
  = (Return match json with
            | None | Some VNone =>
                [("success", VBool false);
                 ("error", VStr "http_error_200");
                 ("http_status", VInt 200);
                 ("data", VNone)]
            | Some parsed =>
                [("success", VBool true);
                 ("error", VNone);
                 ("http_status", VInt 200);
                 ("data", parsed)]
            end,
     apply_event (Get (office_url cnpj)) w).
Proof.
  intros Hreply. cbn [fetch_attempts]. unfold bind, requests_get.
  rewrite Hreply. unfold ret, envelope_of_response.
  destruct json as [[]|]; reflexivity.
Qed.

Lemma fetch_status_200_witness :
  fetch_cnpj_data sample_cnpj 5 (fresh_world first_only_server [])
  = (Return [("success", VBool true);
             ("error", VNone);
             ("http_status", VInt 200);
             ("data", sample_payload)],
     apply_event (Get "https://api.cnpja.com/office/12345678000195")
       (fresh_world first_only_server []))
  /\ fetch_cnpj_data sample_cnpj 5 (fresh_world null_200_server [])
     = (Return [("success", VBool false);
                ("error", VStr "http_error_200");
                ("http_status", VInt 200);
                ("data", VNone)],
        apply_event (Get "https://api.cnpja.com/office/12345678000195")
          (fresh_world null_200_server [])).
Proof.
  split.
  - apply (fetch_status_200 sample_cnpj 0 [1; 2; 3; 4]%nat VNone
             (fresh_world first_only_server []) (Some sample_payload)).
    reflexivity.
  - apply (fetch_status_200 sample_cnpj 0 [1; 2; 3; 4]%nat VNone
             (fresh_world null_200_server []) (Some VNone)).
    reflexivity.
Defined.

(** ** The 429 policy *)

Lemma lookup_nth_returns (cnpj : value) (n : nat) (w : world) :
  exists r w', lookup_nth cnpj n w = (Return r, w').
Proof.
  destruct n as [|n]; cbn [lookup_nth].
  - destruct (fetch_cnpj_data_total cnpj 4 w) as (r & es & H & _).
    now exists r, (run_events es w).
  - destruct (fetch_cnpj_data_total cnpj 4
                (apply_event (Sleep (seconds 60))
                             (snd (lookup_nth cnpj n w))))
      as (r & es & H & _).
    eexists; eexists; exact H.
Qed.

(** X4: the call site returns the result of the first lookup whose
    status is not 429, and the result of the third lookup when the first
    two have status 429; the world is the one that this lookup leaves, so
    that nothing is sent or slept after it. *)
Theorem query_returns_first_other_status
    (cnpj : value) (w : world) (n : nat) :
  (n <= 2)%nat ->
  (forall i, (i < n)%nat ->
             is_int 429 (status_of (fst (lookup_nth cnpj i w))) = true) ->
  ((n < 2)%nat ->
   is_int 429 (status_of (fst (lookup_nth cnpj n w))) = false) ->
  query_with_429_retry cnpj w = lookup_nth cnpj n w.
Proof.
  intros Hn Hbefore Hlast.
  destruct (lookup_nth_returns cnpj 0 w) as (r0 & w0 & H0).
  destruct (lookup_nth_returns cnpj 1 w) as (r1 & w1 & H1).
  destruct (lookup_nth_returns cnpj 2 w) as (r2 & w2 & H2).
  pose proof H0 as F0. cbn [lookup_nth] in F0.
  pose proof H1 as F1. cbn [lookup_nth] in F1. rewrite F0 in F1.
  cbn [snd] in F1.
  pose proof H2 as F2. rewrite (eq_refl : lookup_nth cnpj 2 w
    = fetch_cnpj_data cnpj default_max_retries
        (apply_event (Sleep (seconds 60)) (snd (lookup_nth cnpj 1 w))))
    in F2.
  rewrite H1 in F2. cbn [snd] in F2.
  unfold query_with_429_retry. cbn [query_loop].
  change (0 + 1 >=? 3) with false. change (0 + 1 + 1 >=? 3) with false.
  change (0 + 1 + 1 + 1 >=? 3) with true. cbv iota.
  rewrite (bind_return _ _ _ _ _ F0).
  destruct n as [|[|[|n]]]; try lia.
  - specialize (Hlast ltac:(lia)). rewrite H0 in Hlast.
    cbn [fst status_of] in Hlast. rewrite Hlast. now rewrite H0.
  - pose proof (Hbefore 0%nat ltac:(lia)) as B0. rewrite H0 in B0.
    cbn [fst status_of] in B0. rewrite B0.
    unfold bind at 1. unfold time_sleep at 1.
    rewrite (bind_return _ _ _ _ _ F1).
    specialize (Hlast ltac:(lia)). rewrite H1 in Hlast.
    cbn [fst status_of] in Hlast. rewrite Hlast. now rewrite H1.
  - pose proof (Hbefore 0%nat ltac:(lia)) as B0. rewrite H0 in B0.
    cbn [fst status_of] in B0. rewrite B0.
    unfold bind at 1. unfold time_sleep at 1.
    rewrite (bind_return _ _ _ _ _ F1).
    pose proof (Hbefore 1%nat ltac:(lia)) as B1. rewrite H1 in B1.
    cbn [fst status_of] in B1. rewrite B1.
    unfold bind at 1. unfold time_sleep at 1.
    rewrite (bind_return _ _ _ _ _ F2). rewrite H2.
    destruct (is_int 429 (Dict.get "http_status" r2)); reflexivity.
Qed.

Lemma query_returns_first_other_status_witness :
  query_with_429_retry sample_cnpj (fresh_world throttle_once_server [])
  = (Return [("success", VBool true);
             ("error", VNone);
             ("http_status", VInt 200);
             ("data", sample_payload)],
     run_events
       [Get "https://api.cnpja.com/office/12345678000195";
        Sleep 60000;
        Get "https://api.cnpja.com/office/12345678000195"]
       (fresh_world throttle_once_server [])).
Proof.
  apply (query_returns_first_other_status sample_cnpj
           (fresh_world throttle_once_server []) 1).
  - lia.
  - intros i Hi. destruct i as [|i]; [reflexivity|lia].
  - intros _. reflexivity.
Defined.

Lemma query_loop_more_fuel (cnpj : value) (fuel : nat) :
  forall (attempts_429 : Z) (w : world),
    0 <= attempts_429 ->
    3 - attempts_429 <= Z.of_nat fuel ->
    (1 <= fuel)%nat ->
    query_loop (S fuel) cnpj attempts_429 w
    = query_loop fuel cnpj attempts_429 w.
Proof.
  induction fuel as [|fuel IH]; intros a w H0 Hfuel H1; [lia|].
  change (query_loop (S (S fuel)) cnpj a w)
    with ((api_result <- fetch_cnpj_data cnpj default_max_retries ;;
           if is_int 429 (Dict.get "http_status" api_result)
           then if a + 1 >=? 3 then ret api_result
                else time_sleep (seconds 60) ;;;
                     query_loop (S fuel) cnpj (a + 1)
           else ret api_result) w).
  change (query_loop (S fuel) cnpj a w)
    with ((api_result <- fetch_cnpj_data cnpj default_max_retries ;;
           if is_int 429 (Dict.get "http_status" api_result)
           then if a + 1 >=? 3 then ret api_result
                else time_sleep (seconds 60) ;;;
                     query_loop fuel cnpj (a + 1)
           else ret api_result) w).
  destruct (fetch_cnpj_data_total cnpj 4 w) as (r & es & Hrun & _).
  rewrite !(bind_return _ _ _ _ _ Hrun).
  destruct (is_int 429 (Dict.get "http_status" r)); [|reflexivity].
  destruct (a + 1 >=? 3) eqn:Hcap; [reflexivity|].
  rewrite Z.geb_leb in Hcap. apply Z.leb_gt in Hcap.
  unfold bind, time_sleep. apply IH; lia.
Qed.

(** X5: the [while True] loop of the call site always ends.  Three passes
    are enough: with any larger allowance the loop gives the same result
    and the same world, it never runs out, and it has sent between 1 and
    15 requests. *)
Theorem query_loop_terminates (cnpj : value) (w : world) (fuel : nat) :
  (3 <= fuel)%nat ->
  query_loop fuel cnpj 0 w = query_with_429_retry cnpj w
  /\ exists r es,
       query_with_429_retry cnpj w = (Return r, run_events es w)
       /\ (1 <= count_gets es <= 15)%nat.
Proof.
  intros Hfuel. split.
  - unfold query_with_429_retry.
    induction fuel as [|fuel IH]; [lia|].
    destruct (Nat.eq_dec fuel 2) as [->|Hne]; [reflexivity|].
    rewrite query_loop_more_fuel by lia. apply IH. lia.
  - destruct (query_with_429_retry_total cnpj w) as (r & es & H & Hn & _).
    now exists r, es.
Qed.

Lemma query_loop_terminates_witness :
  query_loop 7 sample_cnpj 0 (fresh_world throttling_server [])
  = query_with_429_retry sample_cnpj (fresh_world throttling_server []).
Proof.
  apply (proj1 (query_loop_terminates sample_cnpj
                  (fresh_world throttling_server []) 7 ltac:(lia))).
Defined.

(** ** Pacing *)

Lemma client_event_positive (url : string) (es : list event) :
  Forall (client_event url) es -> Forall positive_sleep es.
Proof.
  apply Forall_impl. intros [u|ms]; simpl; auto.
Qed.

Lemma clock_run_events (es : list event) (w : world) :
  Forall positive_sleep es -> clock w <= clock (run_events es w).
Proof.
  intros H. revert w. induction H as [|e es He _ IH]; intros w.
  - simpl. lia.
  - rewrite run_events_cons. specialize (IH (apply_event e w)).
    destruct e; simpl in *; lia.
Qed.

Lemma sleep_if_necessary_paced (request_count start_window : Z)
    (w : world) :
  start_window <= clock w ->
  exists c s es,
    sleep_if_necessary request_count start_window w
    = (Return (c, s), run_events es w)
    /\ count_gets es = O
    /\ Forall positive_sleep es
    /\ c = (if request_count >=? MAX_REQUESTS_PER_MINUTE
            then 0 else request_count)
    /\ start_window <= s <= clock (run_events es w)
    /\ clock (run_events es w) <= clock w + seconds 60
    /\ (MAX_REQUESTS_PER_MINUTE <= request_count ->
        start_window + seconds 60 <= s).
Proof.
  intros Hpast.
  unfold sleep_if_necessary, bind, time_time, time_sleep, ret.
  rewrite Z.geb_leb. unfold seconds.
  destruct (Z.leb_spec MAX_REQUESTS_PER_MINUTE request_count) as [Hcap|Hlow].
  - destruct (Z.ltb_spec (clock w - start_window) (1000 * 60))
      as [Hin|Hout].
    + exists 0, (clock w + (1000 * 60 - (clock w - start_window))),
        [Sleep (1000 * 60 - (clock w - start_window))].
      split; [reflexivity|]. split; [reflexivity|].
      split; [constructor; [cbn [positive_sleep]; lia|constructor]|].
      cbn [run_events fold_left apply_event clock]. repeat split; lia.
    + exists 0, (clock w), [].
      split; [reflexivity|]. split; [reflexivity|].
      split; [constructor|].
      cbn [run_events fold_left]. repeat split; lia.
  - exists request_count, start_window, [].
    split; [reflexivity|]. split; [reflexivity|].
    split; [constructor|].
    cbn [run_events fold_left]. repeat split; lia.
Qed.

Lemma sleep_if_necessary_events (request_count start_window : Z)
    (w : world) :
  exists c s es,
    sleep_if_necessary request_count start_window w
    = (Return (c, s), run_events es w)
    /\ count_gets es = O
    /\ Forall positive_sleep es
    /\ c = (if request_count >=? MAX_REQUESTS_PER_MINUTE
            then 0 else request_count)
    /\ (start_window <= clock w -> s <= clock (run_events es w)).
Proof.
  unfold sleep_if_necessary, bind, time_time, time_sleep, ret.
  unfold seconds.
  destruct (request_count >=? MAX_REQUESTS_PER_MINUTE).
  - destruct (Z.ltb_spec (clock w - start_window) (1000 * 60))
      as [Hin|Hout].
    + exists 0, (clock w + (1000 * 60 - (clock w - start_window))),
        [Sleep (1000 * 60 - (clock w - start_window))].
      split; [reflexivity|]. split; [reflexivity|].
      split; [constructor; [cbn [positive_sleep]; lia|constructor]|].
      cbn [run_events fold_left apply_event clock]. split; [reflexivity|].
      lia.
    + exists 0, (clock w), [].
      split; [reflexivity|]. split; [reflexivity|].
      split; [constructor|].
      cbn [run_events fold_left]. split; [reflexivity|]. lia.
  - exists request_count, start_window, [].
    split; [reflexivity|]. split; [reflexivity|].
    split; [constructor|].
    cbn [run_events fold_left]. split; [reflexivity|]. lia.
Qed.

(** X6: called with a window that started in the past, the limiter
    returns a counter below the cap and a window start that is not
    earlier than the old one and not later than the clock; it sends
    nothing and sleeps at most 60 seconds; and when the counter was at the
    cap, the new window starts at least 60 seconds after the old one. *)
Theorem sleep_if_necessary_window
    (request_count start_window : Z) (w : world) :
  start_window <= clock w ->
  exists c s w',
    sleep_if_necessary request_count start_window w = (Return (c, s), w')
    /\ c < MAX_REQUESTS_PER_MINUTE
    /\ (0 <= request_count -> 0 <= c <= request_count)
    /\ start_window <= s <= clock w'
    /\ clock w <= clock w' <= clock w + seconds 60
    /\ issued w' = issued w
    /\ (MAX_REQUESTS_PER_MINUTE <= request_count ->
        c = 0 /\ start_window + seconds 60 <= s).
Proof.
  intros Hpast.
  destruct (sleep_if_necessary_paced request_count start_window w Hpast)
    as (c & s & es & Hrun & Hg & Hpos & Hc & Hs & Hclock & Hcap).
  exists c, s, (run_events es w).
  pose proof (clock_run_events es w Hpos).
  rewrite issued_run_events, Hg.
  repeat split; try lia; try tauto.
  - subst c. destruct (Z.geb_spec request_count MAX_REQUESTS_PER_MINUTE);
      unfold MAX_REQUESTS_PER_MINUTE in *; lia.
  - subst c. destruct (Z.geb_spec request_count MAX_REQUESTS_PER_MINUTE);
      lia.
  - subst c. destruct (Z.geb_spec request_count MAX_REQUESTS_PER_MINUTE);
      unfold MAX_REQUESTS_PER_MINUTE in *; lia.
  - subst c. destruct (Z.geb_spec request_count MAX_REQUESTS_PER_MINUTE);
      lia.
Qed.

Lemma sleep_if_necessary_window_witness :
  exists c s w',
    sleep_if_necessary 60 1000 (mkWorld 31000 dead_server O [] [])
    = (Return (c, s), w')
    /\ c = 0 /\ s = 61000 /\ clock w' = 61000.
Proof.
  destruct (sleep_if_necessary_window 60 1000
              (mkWorld 31000 dead_server O [] []) ltac:(simpl; lia))
    as (c & s & w' & Hrun & _).
  exists c, s, w'. split; [exact Hrun|].
  vm_compute in Hrun. injection Hrun as <- <- <-. repeat split.
Defined.

(** ** What a run does to the world *)

Lemma query_loop_events (cnpj : value) (fuel : nat) :
  forall (attempts_429 : Z) (w : world),
    0 <= attempts_429 ->
    3 - attempts_429 <= Z.of_nat fuel ->
    (1 <= fuel)%nat ->
    exists r es,
      query_loop fuel cnpj attempts_429 w = (Return r, run_events es w)
      /\ (1 <= count_gets es <= 5 * fuel)%nat
      /\ Forall (client_event (office_url cnpj)) es
      /\ answers (server w) r.
Proof.
  induction fuel as [|fuel IH]; intros a w H0 Hfuel H1; [lia|].
  cbn [query_loop].
  destruct (fetch_attempts_events cnpj (seq 0 default_max_retries) VNone w)
    as (r & es & Hrun & Hle & Hge & Hev & Hans).
  fold (fetch_cnpj_data cnpj default_max_retries) in Hrun.
  rewrite length_seq in Hle. specialize (Hge ltac:(discriminate)).
  unfold default_max_retries in Hle.
  rewrite (bind_return _ _ _ _ _ Hrun).
  destruct (is_int 429 (Dict.get "http_status" r)).
  - destruct (a + 1 >=? 3) eqn:Hcap.
    + exists r, es. repeat split; auto; lia.
    + rewrite Z.geb_leb in Hcap. apply Z.leb_gt in Hcap.
      unfold bind at 1. unfold time_sleep at 1.
      destruct (IH (a + 1)
                  (apply_event (Sleep (seconds 60)) (run_events es w)))
        as (r' & es' & Hrun' & Hn' & Hev' & Hans'); try lia.
      cbn [apply_event server] in Hans'. rewrite server_run_events in Hans'.
      exists r', (es ++ Sleep (seconds 60) :: es').
      rewrite run_events_app, run_events_cons.
      repeat split; auto;
        try (rewrite count_gets_app;
             change (count_gets (Sleep (seconds 60) :: es'))
               with (count_gets es'); lia).
      apply Forall_app. split; [exact Hev|].
      constructor; [reflexivity|exact Hev'].
  - exists r, es. repeat split; auto; lia.
Qed.

Lemma query_with_429_retry_events (cnpj : value) (w : world) :
  exists r es,
    query_with_429_retry cnpj w = (Return r, run_events es w)
    /\ (1 <= count_gets es <= 15)%nat
    /\ Forall positive_sleep es.
Proof.
  destruct (query_loop_events cnpj 3 0 w) as (r & es & H & Hn & Hev & _);
    try lia.
  exists r, es. repeat split; auto; try lia.
  now apply client_event_positive in Hev.
Qed.

Lemma paced_step (p : pacing) (w : world) (c s : Z) (es : list event) :
  paced p w ->
  c = (if request_count p >=? MAX_REQUESTS_PER_MINUTE
       then 0 else request_count p) ->
  s <= clock (run_events es w) ->
  paced (mkPacing (c + 1) s) (run_events es w).
Proof.
  unfold paced. intros ((H0 & Hcap) & _) -> Hs. cbn [request_count
    window_start].
  destruct (Z.geb_spec (request_count p) MAX_REQUESTS_PER_MINUTE);
    unfold MAX_REQUESTS_PER_MINUTE in *; repeat split; lia.
Qed.

Ltac no_events :=
  exists []; split; [reflexivity|]; split; [constructor|];
  split; [unfold count_gets; simpl; lia|].

Lemma main_row_run
    (cols : list string) (idx : nat) (row : list value) (p : pacing)
    (resultados : list dict) (w : world) :
  exists es,
    snd (main_row cols idx row p resultados w) = run_events es w
    /\ Forall positive_sleep es
    /\ (count_gets es <= 15)%nat
    /\ forall p' resultados',
         fst (main_row cols idx row p resultados w)
         = Return (p', resultados') ->
         paced p w -> paced p' (run_events es w).
Proof.
  unfold main_row. rewrite bind_lift.
  destruct (series_item cols row CNPJ_COLUMN_NAME) as [cnpj_raw|].
  2:{ no_events. discriminate. }
  rewrite bind_lift.
  destruct (series_item cols row "cnpj_normalizado") as [cnpj|].
  2:{ no_events. discriminate. }
  destruct (truthy cnpj); cbn [negb].
  - destruct (sleep_if_necessary_events (request_count p)
                (window_start p) w)
      as (c & s & es1 & Hs & Hg1 & Hp1 & Hc & Hsw).
    rewrite (bind_return _ _ _ _ _ Hs).
    destruct (query_with_429_retry_events cnpj (run_events es1 w))
      as (r & es2 & Hq & Hg2 & Hp2).
    rewrite (bind_return _ _ _ _ _ Hq). rewrite bind_lift.
    destruct (extract_fields r) as [fields|].
    + exists (es1 ++ es2 ++ [Sleep 500]).
      unfold bind, time_sleep, ret. cbn [fst snd].
      rewrite !run_events_app. split; [reflexivity|].
      assert (Hp3 : Forall positive_sleep (es2 ++ [Sleep 500])).
      { apply Forall_app. split; auto.
        constructor; [simpl; lia|constructor]. }
      split; [apply Forall_app; split; auto|].
      split.
      { rewrite !count_gets_app. change (count_gets [Sleep 500]) with O.
        lia. }
      intros p' res' H Hpaced. injection H as <- _.
      rewrite <- !run_events_app. apply (paced_step p); auto.
      rewrite !run_events_app.
      pose proof (clock_run_events (es2 ++ [Sleep 500])
                    (run_events es1 w) Hp3) as Hmono.
      rewrite run_events_app in Hmono.
      destruct Hpaced as [_ Hpast]. specialize (Hsw Hpast). lia.
    + exists (es1 ++ es2). cbn [fst snd].
      rewrite !run_events_app. split; [reflexivity|].
      split; [apply Forall_app; split; auto|].
      split; [rewrite !count_gets_app; lia|]. discriminate.
  - no_events.
    intros p' res' H Hpaced. cbn [fst ret] in H. injection H as <- _.
    exact Hpaced.
Qed.

Lemma reprocess_row_run
    (idx : nat) (p : pacing) (df_final : DataFrame) (w : world) :
  exists es,
    snd (reprocess_row idx p df_final w) = run_events es w
    /\ Forall positive_sleep es
    /\ (count_gets es <= 15)%nat
    /\ forall p' df',
         fst (reprocess_row idx p df_final w) = Return (p', df') ->
         paced p w -> paced p' (run_events es w).
Proof.
  unfold reprocess_row.
  set (cnpj := series_get (columns df_final) (nth idx (rows df_final) [])
                          "cnpj_normalizado").
  destruct (truthy cnpj); cbn [negb].
  - destruct (sleep_if_necessary_events (request_count p)
                (window_start p) w)
      as (c & s & es1 & Hs & Hg1 & Hp1 & Hc & Hsw).
    rewrite (bind_return _ _ _ _ _ Hs).
    destruct (query_with_429_retry_events cnpj (run_events es1 w))
      as (r & es2 & Hq & Hg2 & Hp2).
    rewrite (bind_return _ _ _ _ _ Hq). rewrite bind_lift.
    destruct (extract_fields r) as [fields|].
    + exists (es1 ++ es2). unfold ret. cbn [fst snd].
      rewrite !run_events_app. split; [reflexivity|].
      split; [apply Forall_app; split; auto|].
      split; [rewrite !count_gets_app; lia|].
      intros p' df' H Hpaced. injection H as <- _.
      rewrite <- !run_events_app. apply (paced_step p); auto.
      rewrite !run_events_app.
      pose proof (clock_run_events es2 (run_events es1 w) Hp2) as Hmono.
      destruct Hpaced as [_ Hpast]. specialize (Hsw Hpast). lia.
    + exists (es1 ++ es2). cbn [fst snd].
      rewrite !run_events_app. split; [reflexivity|].
      split; [apply Forall_app; split; auto|].
      split; [rewrite !count_gets_app; lia|]. discriminate.
  - no_events.
    intros p' df' H Hpaced. cbn [fst ret] in H. injection H as <- _.
    exact Hpaced.
Qed.

Lemma main_loop_run (cols : list string)
    (items : list (nat * list value)) :
  forall (p : pacing) (resultados : list dict) (w : world),
  exists es,
    snd (main_loop cols items p resultados w) = run_events es w
    /\ Forall positive_sleep es
    /\ (count_gets es <= 15 * List.length items)%nat
    /\ forall p' resultados',
         fst (main_loop cols items p resultados w)
         = Return (p', resultados') ->
         paced p w -> paced p' (run_events es w).
Proof.
  induction items as [|[idx row] items IH]; intros p resultados w.
  - no_events. intros p' res' H Hpaced. injection H as <- _. exact Hpaced.
  - cbn [main_loop].
    destruct (main_row_run cols idx row p resultados w)
      as (es1 & Hw & Hp1 & Hg1 & Hpaced1).
    destruct (main_row cols idx row p resultados w)
      as [[[p1 res1]|e] w1] eqn:Hrow.
    + rewrite (bind_return _ _ _ _ _ Hrow).
      cbn [snd] in Hw. subst w1. cbn [fst snd].
      destruct (IH p1 res1 (run_events es1 w))
        as (es2 & Hw2 & Hp2 & Hg2 & Hpaced2).
      exists (es1 ++ es2). rewrite run_events_app.
      split; [exact Hw2|].
      split; [apply Forall_app; split; auto|].
      split; [rewrite count_gets_app; simpl; lia|].
      intros p' res' H Hpaced. apply (Hpaced2 p' res' H).
      apply (Hpaced1 p1 res1); auto.
    + rewrite (bind_raise _ _ _ _ _ Hrow).
      cbn [snd] in Hw. subst w1. exists es1. cbn [fst snd].
      split; [reflexivity|]. split; [exact Hp1|].
      split; [simpl; lia|]. discriminate.
Qed.

Lemma reprocess_loop_run (retry : list nat) :
  forall (p : pacing) (df_final : DataFrame) (w : world),
  exists es,
    snd (reprocess_loop retry p df_final w) = run_events es w
    /\ Forall positive_sleep es
    /\ (count_gets es <= 15 * List.length retry)%nat
    /\ forall p' df',
         fst (reprocess_loop retry p df_final w) = Return (p', df') ->
         paced p w -> paced p' (run_events es w).
Proof.
  induction retry as [|idx retry IH]; intros p df_final w.
  - no_events. intros p' df' H Hpaced. injection H as <- _. exact Hpaced.
  - cbn [reprocess_loop].
    destruct (reprocess_row_run idx p df_final w)
      as (es1 & Hw & Hp1 & Hg1 & Hpaced1).
    destruct (reprocess_row idx p df_final w)
      as [[[p1 df1]|e] w1] eqn:Hrow.
    + rewrite (bind_return _ _ _ _ _ Hrow).
      cbn [snd] in Hw. subst w1. cbn [fst snd].
      destruct (IH p1 df1 (run_events es1 w))
        as (es2 & Hw2 & Hp2 & Hg2 & Hpaced2).
      exists (es1 ++ es2). rewrite run_events_app.
      split; [exact Hw2|].
      split; [apply Forall_app; split; auto|].
      split; [rewrite count_gets_app; simpl; lia|].
      intros p' df' H Hpaced. apply (Hpaced2 p' df' H).
      apply (Hpaced1 p1 df1); auto.
    + rewrite (bind_raise _ _ _ _ _ Hrow).
      cbn [snd] in Hw. subst w1. exists es1. cbn [fst snd].
      split; [reflexivity|]. split; [exact Hp1|].
      split; [simpl; lia|]. discriminate.
Qed.

(** X7: both loops keep the pacing state sound.  Started with a counter
    between 0 and the cap and a window that began in the past, a loop that
    completes ends with a counter between 0 and the cap and a window that
    began in the past, and the clock has not gone back. *)
Theorem loops_keep_pacing :
  (forall (cols : list string) (items : list (nat * list value))
          (p p' : pacing) (resultados resultados' : list dict)
          (w w' : world),
      paced p w ->
      main_loop cols items p resultados w
      = (Return (p', resultados'), w') ->
      paced p' w' /\ clock w <= clock w')
  /\ (forall (retry : list nat) (p p' : pacing)
             (df_final df_final' : DataFrame) (w w' : world),
        paced p w ->
        reprocess_loop retry p df_final w = (Return (p', df_final'), w') ->
        paced p' w' /\ clock w <= clock w').
Proof.
  split.
  - intros cols items p p' res res' w w' Hpaced H.
    destruct (main_loop_run cols items p res w)
      as (es & Hw & Hpos & _ & Hkeep).
    rewrite H in Hw, Hkeep. cbn [fst snd] in Hw, Hkeep. subst w'.
    split; [now apply (Hkeep p' res')|now apply clock_run_events].
  - intros retry p p' df df' w w' Hpaced H.
    destruct (reprocess_loop_run retry p df w)
      as (es & Hw & Hpos & _ & Hkeep).
    rewrite H in Hw, Hkeep. cbn [fst snd] in Hw, Hkeep. subst w'.
    split; [now apply (Hkeep p' df')|now apply clock_run_events].
Qed.

Lemma loops_keep_pacing_witness :
  paced (mkPacing 1 0)
        (run_events
           [Get "https://api.cnpja.com/office/12345678000195";
            Sleep 60000;
            Get "https://api.cnpja.com/office/12345678000195";
            Sleep 500]
           (fresh_world throttle_once_server []))
  /\ clock (fresh_world throttle_once_server [])
     <= clock (run_events
                 [Get "https://api.cnpja.com/office/12345678000195";
                  Sleep 60000;
                  Get "https://api.cnpja.com/office/12345678000195";
                  Sleep 500]
                 (fresh_world throttle_once_server [])).
Proof.
  pose (w := fresh_world throttle_once_server []).
  pose (fields :=
          match extract_fields
                  [("success", VBool true); ("error", VNone);
                   ("http_status", VInt 200); ("data", sample_payload)]
          with Return d => d | Raise _ => [] end).
  apply (proj1 loops_keep_pacing sample_columns [(O, sample_row)]
           sample_pacing (mkPacing 1 0) []
           [looked_up_record O (VStr "12.345.678/0001-95")
              (VStr "12345678000195") fields]
           w).
  - unfold paced, w, sample_pacing, fresh_world, MAX_REQUESTS_PER_MINUTE.
    cbn [request_count window_start clock]. lia.
  - reflexivity.
Defined.

(** ** The two runs as a whole *)

Lemma find_store_other (path p : string) (f : csv_file)
    (fs : list (string * csv_file)) :
  path <> p -> find_file path (store_file p f fs) = find_file path fs.
Proof.
  intros Hne. induction fs as [|[q g] fs IH]; simpl.
  - apply String.eqb_neq in Hne. now rewrite Hne.
  - destruct (String.eqb p q) eqn:E; simpl.
    + apply String.eqb_eq in E. subst q.
      apply String.eqb_neq in Hne. now rewrite Hne.
    + now rewrite IH.
Qed.

Lemma same_network_refl (w : world) : same_network w w.
Proof. repeat split. Qed.

Lemma length_iterrows (df : DataFrame) :
  List.length (iterrows df) = List.length (rows df).
Proof.
  unfold iterrows. rewrite length_combine, length_seq. lia.
Qed.

Lemma length_skipn_le {A} (k : nat) (l : list A) :
  (List.length (skipn k l) <= List.length l)%nat.
Proof. rewrite length_skipn. lia. Qed.

Lemma length_masked_index (mask : list bool) :
  (List.length (masked_index mask) <= List.length mask)%nat.
Proof.
  unfold masked_index. rewrite length_map.
  etransitivity; [apply filter_length_le|].
  rewrite length_combine, length_seq. lia.
Qed.

Lemma main_run (w : world) :
  exists es,
    same_network (snd (main w)) (run_events es w)
    /\ Forall positive_sleep es
    /\ (count_gets es <= 15 * line_count INPUT_CSV w)%nat
    /\ (files (snd (main w)) = files w
        \/ (fst (main w) = Return tt
            /\ exists out,
                 files (snd (main w))
                 = store_file OUTPUT_CSV out (files w))).
Proof.
  unfold main, line_count.
  destruct (find_file INPUT_CSV (files w)) as [f|] eqn:Hfile.
  2:{ exists []. unfold bind, path_exists. rewrite Hfile. cbn.
      split; [apply same_network_refl|]. split; [constructor|].
      split; [unfold count_gets; simpl; lia|now left]. }
  rewrite (bind_return _ _ w w true)
    by (unfold path_exists; now rewrite Hfile).
  cbn [negb].
  rewrite (bind_return _ _ w w (frame_of_csv f))
    by (unfold read_csv; now rewrite Hfile).
  destruct (mem CNPJ_COLUMN_NAME (columns (frame_of_csv f))) eqn:Hmem;
    cbn [negb].
  2:{ exists []. cbn.
      split; [apply same_network_refl|]. split; [constructor|].
      split; [unfold count_gets; simpl; lia|now left]. }
  rewrite bind_lift. destruct (index_of_mem _ _ Hmem) as [j Hj].
  unfold column. rewrite Hj.
  set (raw := map _ (rows (frame_of_csv f))).
  set (df := set_column "cnpj_normalizado" (map normalize_cnpj raw)
                        (frame_of_csv f)).
  rewrite (bind_return _ _ w w (clock w)) by reflexivity. cbv beta.
  assert (Hrows : (List.length (rows df) = List.length (lines f))%nat).
  { unfold df. rewrite length_rows_set_column.
    - unfold frame_of_csv. cbn [rows]. apply length_map.
    - unfold raw. rewrite !length_map. reflexivity. }
  destruct (main_loop_run (columns df) (skipn START_INDEX (iterrows df))
              (mkPacing 0 (clock w)) [] w)
    as (es & Hw & Hpos & Hcount & _).
  assert (Hbound : (count_gets es <= 15 * List.length (lines f))%nat).
  { pose proof (length_skipn_le START_INDEX (iterrows df)) as Hle.
    rewrite length_iterrows, Hrows in Hle. nia. }
  exists es. split; [|split; [exact Hpos|split; [exact Hbound|]]].
  - destruct (main_loop (columns df) (skipn START_INDEX (iterrows df))
                (mkPacing 0 (clock w)) [] w) as [[st|e] w1] eqn:Hloop.
    + rewrite (bind_return _ _ _ _ _ Hloop). cbn [snd] in Hw. subst w1.
      rewrite bind_lift.
      destruct (set_index "index_origem" (frame_of_records (snd st)));
        cbn [snd]; [unfold to_csv; cbn [snd]|]; repeat split.
    + rewrite (bind_raise _ _ _ _ _ Hloop). cbn [snd] in Hw. subst w1.
      repeat split.
  - destruct (main_loop (columns df) (skipn START_INDEX (iterrows df))
                (mkPacing 0 (clock w)) [] w) as [[st|e] w1] eqn:Hloop.
    + rewrite (bind_return _ _ _ _ _ Hloop). cbn [snd] in Hw. subst w1.
      rewrite bind_lift.
      destruct (set_index "index_origem" (frame_of_records (snd st)));
        cbn [fst snd].
      * right. unfold to_csv. cbn [fst snd files].
        split; [reflexivity|]. eexists. rewrite files_run_events.
        reflexivity.
      * left. apply files_run_events.
    + rewrite (bind_raise _ _ _ _ _ Hloop). cbn [snd] in Hw. subst w1.
      left. apply files_run_events.
Qed.

Lemma reprocess_failed_run (w : world) :
  exists es,
    same_network (snd (reprocess_failed w)) (run_events es w)
    /\ Forall positive_sleep es
    /\ (count_gets es <= 15 * line_count OUTPUT_CSV w)%nat
    /\ (files (snd (reprocess_failed w)) = files w
        \/ (fst (reprocess_failed w) = Return tt
            /\ exists out,
                 files (snd (reprocess_failed w))
                 = store_file OUTPUT_CSV out (files w))).
Proof.
  unfold reprocess_failed, line_count.
  destruct (find_file OUTPUT_CSV (files w)) as [f|] eqn:Hfile.
  2:{ exists []. unfold bind, path_exists. rewrite Hfile. cbn.
      split; [apply same_network_refl|]. split; [constructor|].
      split; [unfold count_gets; simpl; lia|now left]. }
  rewrite (bind_return _ _ w w true)
    by (unfold path_exists; now rewrite Hfile).
  cbn [negb].
  rewrite (bind_return _ _ w w (frame_of_csv f))
    by (unfold read_csv; now rewrite Hfile).
  destruct (mem "api_success" (columns (frame_of_csv f))) eqn:Hmem;
    cbn [negb].
  2:{ exists []. cbn.
      split; [apply same_network_refl|]. split; [constructor|].
      split; [unfold count_gets; simpl; lia|now left]. }
  rewrite bind_lift. destruct (index_of_mem _ _ Hmem) as [j Hj].
  unfold column. rewrite Hj.
  set (flags := map _ (rows (frame_of_csv f))).
  assert (Hretry : (List.length (masked_index (map not_true flags))
                    <= List.length (lines f))%nat).
  { etransitivity; [apply length_masked_index|].
    unfold flags, frame_of_csv. cbn [rows]. rewrite !length_map. lia. }
  destruct (masked_index (map not_true flags)) as [|idx retry].
  { exists []. cbn.
    split; [apply same_network_refl|]. split; [constructor|].
    split; [unfold count_gets; simpl; lia|now left]. }
  rewrite (bind_return _ _ w w (clock w)) by reflexivity. cbv beta.
  destruct (reprocess_loop_run (idx :: retry) (mkPacing 0 (clock w))
              (frame_of_csv f) w)
    as (es & Hw & Hpos & Hcount & _).
  exists es. split; [|split; [exact Hpos|split; [nia|]]].
  - destruct (reprocess_loop (idx :: retry) (mkPacing 0 (clock w))
                (frame_of_csv f) w) as [[st|e] w1] eqn:Hloop.
    + rewrite (bind_return _ _ _ _ _ Hloop). cbn [snd] in Hw. subst w1.
      unfold to_csv. cbn [snd]. repeat split.
    + rewrite (bind_raise _ _ _ _ _ Hloop). cbn [snd] in Hw. subst w1.
      repeat split.
  - destruct (reprocess_loop (idx :: retry) (mkPacing 0 (clock w))
                (frame_of_csv f) w) as [[st|e] w1] eqn:Hloop.
    + rewrite (bind_return _ _ _ _ _ Hloop). cbn [snd] in Hw. subst w1.
      right. unfold to_csv. cbn [fst snd files].
      split; [reflexivity|]. eexists. rewrite files_run_events.
      reflexivity.
    + rewrite (bind_raise _ _ _ _ _ Hloop). cbn [snd] in Hw. subst w1.
      left. apply files_run_events.
Qed.

(** X8: a run sends at most 15 requests for each row of the table it
    reads, and none when the table's file is missing: what it adds to the
    trace holds at most that many requests, the count of sent requests
    grows by their number, and the clock does not go back.  This holds
    whether the run completes or raises. *)
Theorem runs_send_at_most_15_per_row (w : world) :
  (exists es,
      trace (snd (main w)) = trace w ++ es
      /\ issued (snd (main w)) = (issued w + count_gets es)%nat
      /\ (count_gets es <= 15 * line_count INPUT_CSV w)%nat
      /\ clock w <= clock (snd (main w)))
  /\ (exists es,
        trace (snd (reprocess_failed w)) = trace w ++ es
        /\ issued (snd (reprocess_failed w))
           = (issued w + count_gets es)%nat
        /\ (count_gets es <= 15 * line_count OUTPUT_CSV w)%nat
        /\ clock w <= clock (snd (reprocess_failed w))).
Proof.
  split.
  - destruct (main_run w) as (es & (Hc & _ & Hi & Ht) & Hpos & Hn & _).
    exists es. rewrite Ht, Hi, Hc, trace_run_events, issued_run_events.
    repeat split; auto. now apply clock_run_events.
  - destruct (reprocess_failed_run w)
      as (es & (Hc & _ & Hi & Ht) & Hpos & Hn & _).
    exists es. rewrite Ht, Hi, Hc, trace_run_events, issued_run_events.
    repeat split; auto. now apply clock_run_events.
Qed.

(** X9: a run writes no file but the output table, and writes that one
    only when it completes: every other path holds what it held, and a
    run that raises leaves all files as they were. *)
Theorem runs_write_only_output (w : world) :
  (forall path : string,
      path <> OUTPUT_CSV ->
      find_file path (files (snd (main w))) = find_file path (files w))
  /\ (forall e : exn,
        fst (main w) = Raise e -> files (snd (main w)) = files w)
  /\ (forall path : string,
        path <> OUTPUT_CSV ->
        find_file path (files (snd (reprocess_failed w)))
        = find_file path (files w))
  /\ (forall e : exn,
        fst (reprocess_failed w) = Raise e ->
        files (snd (reprocess_failed w)) = files w).
Proof.
  destruct (main_run w) as (_ & _ & _ & _ & Hm).
  destruct (reprocess_failed_run w) as (_ & _ & _ & _ & Hr).
  split; [|split; [|split]].
  - intros path Hne. destruct Hm as [->|(_ & out & ->)]; auto.
    now apply find_store_other.
  - intros e He. destruct Hm as [H|(H & _)]; auto. congruence.
  - intros path Hne. destruct Hr as [->|(_ & out & ->)]; auto.
    now apply find_store_other.
  - intros e He. destruct Hr as [H|(H & _)]; auto. congruence.
Qed.

Lemma runs_write_only_output_witness :
  find_file INPUT_CSV (files (snd (main two_row_world)))
  = find_file INPUT_CSV (files two_row_world)
  /\ files (snd (main text_error_world)) = files text_error_world.
Proof.
  split.
  - apply (proj1 (runs_write_only_output two_row_world) INPUT_CSV).
    discriminate.
  - apply (proj1 (proj2 (runs_write_only_output text_error_world))
             AttributeError).
    reflexivity.
Defined.

(** ** Response flattener *)

Lemma py_or_dict (v : value) :
  dict_or_false v = true ->
  exists d,
    py_or v (VDict []) = VDict d
    /\ forall k, Dict.get k d = member k v.
Proof.
  intros H. destruct v as [| |b|z|s|l|d]; try discriminate;
    try (exists []; split; [reflexivity|]; intros k; reflexivity).
  - destruct b; [discriminate|]. exists []. split; reflexivity.
  - unfold py_or. simpl in *. destruct (z =? 0); [|discriminate].
    exists []. split; reflexivity.
  - unfold py_or. simpl in *. destruct (String.eqb s ""); [|discriminate].
    exists []. split; reflexivity.
  - destruct l; [|discriminate]. exists []. split; reflexivity.
  - destruct d as [|kv d].
    + exists []. split; reflexivity.
    + exists (kv :: d). split; reflexivity.
Qed.

Lemma py_or_not_dict (v : value) :
  dict_or_false v = false ->
  forall k, py_get k (py_or v (VDict [])) = Raise AttributeError.
Proof.
  intros H k. destruct v as [| |b|z|s|l|d]; try discriminate;
    unfold py_or; simpl in *.
  - reflexivity.
  - destruct b; [reflexivity|discriminate].
  - destruct (z =? 0); [discriminate|reflexivity].
  - destruct (String.eqb s ""); [discriminate|reflexivity].
  - destruct l; [discriminate|reflexivity].
Qed.

Lemma entries_not_dict (v : value) (c k : string)
    (cols : list (string * string)) :
  dict_or_false v = false ->
  entries (py_or v (VDict [])) ((c, k) :: cols) = Raise AttributeError.
Proof.
  intros H. cbn [entries]. now rewrite (py_or_not_dict v H).
Qed.

Lemma extract_fields_flattened (api_result : dict) :
  extract_fields api_result
  = if payload_ok (Dict.get "data" api_result)
    then Return (flattened api_result)
    else Raise AttributeError.
Proof.
  unfold extract_fields, payload_ok, flattened.
  set (data := Dict.get "data" api_result).
  destruct (dict_or_false data) eqn:Hdata.
  2:{ now rewrite (py_or_not_dict data Hdata). }
  destruct (py_or_dict data Hdata) as (d0 & -> & Hd0).
  cbn [py_get obind]. rewrite !Hd0. cbn [andb].
  set (company := member "company" data).
  set (address := member "address" data).
  set (activity := member "mainActivity" data).
  destruct (dict_or_false company) eqn:Hcompany.
  2:{ now rewrite (py_or_not_dict company Hcompany). }
  destruct (py_or_dict company Hcompany) as (dc & Ec & Hdc).
  rewrite Ec. cbn [py_get obind andb]. rewrite Hdc.
  set (size := member "size" company).
  rewrite !entries_dict. cbn [obind map fst snd].
  destruct (dict_or_false address) eqn:Haddress; cbn [andb].
  - destruct (py_or_dict address Haddress) as (da & Ea & Hda).
    destruct (dict_or_false activity) eqn:Hactivity; cbn [andb].
    + destruct (py_or_dict activity Hactivity) as (dm & Em & Hdm).
      destruct (dict_or_false size) eqn:Hsize.
      * destruct (py_or_dict size Hsize) as (dz & Ez & Hdz).
        rewrite Ea, Em, Ez, !entries_dict. cbn [obind map fst snd app].
        rewrite !Hdc, !Hda, !Hdm, !Hdz, !Hd0. reflexivity.
      * now rewrite (entries_not_dict size _ _ _ Hsize).
    + destruct (dict_or_false size) eqn:Hsize.
      * destruct (py_or_dict size Hsize) as (dz & Ez & Hdz).
        rewrite Ez, !entries_dict. cbn [obind].
        now rewrite (entries_not_dict activity _ _ _ Hactivity).
      * now rewrite (entries_not_dict size _ _ _ Hsize).
  - destruct (dict_or_false activity) eqn:Hactivity; cbn [andb].
    + destruct (py_or_dict activity Hactivity) as (dm & Em & Hdm).
      destruct (dict_or_false size) eqn:Hsize.
      * destruct (py_or_dict size Hsize) as (dz & Ez & Hdz).
        rewrite Em, Ez, !entries_dict. cbn [obind].
        now rewrite (entries_not_dict address _ _ _ Haddress).
      * now rewrite (entries_not_dict size _ _ _ Hsize).
    + destruct (dict_or_false size) eqn:Hsize.
      * destruct (py_or_dict size Hsize) as (dz & Ez & Hdz).
        rewrite Ez, !entries_dict. cbn [obind].
        now rewrite (entries_not_dict activity _ _ _ Hactivity).
      * now rewrite (entries_not_dict size _ _ _ Hsize).
Qed.

(** X10: the flattener returns exactly when the payload and its sections
    [company], [address], [mainActivity] and [company.size] are each a
    dict or false; it then gives the 22 columns in a fixed order, each
    read from its section and [None] where the section or the key is
    missing; otherwise it raises [AttributeError], and nothing else. *)
Theorem extract_fields_spec (api_result : dict) :
  extract_fields api_result
  = if payload_ok (Dict.get "data" api_result)
    then Return (flattened api_result)
    else Raise AttributeError.
Proof. exact (extract_fields_flattened api_result). Qed.

(** X11: when the payload is a dict without an [address] entry (or with
    one that is [None]) and the flattener returns, every address column
    of the result is [None]. *)
Theorem extract_fields_missing_address (api_result fields : dict) :
  member "address" (Dict.get "data" api_result) = VNone ->
  extract_fields api_result = Return fields ->
  Forall (fun c => Dict.lookup c fields = Some VNone) address_columns.
Proof.
  intros Haddr H. rewrite extract_fields_flattened in H.
  destruct (payload_ok (Dict.get "data" api_result)); [|discriminate].
  injection H as <-. unfold flattened. rewrite Haddr.
  repeat constructor.
Qed.

Lemma extract_fields_missing_address_witness :
  Forall (fun c =>
            Dict.lookup c
              (flattened [("success", VBool true); ("error", VNone);
                          ("http_status", VInt 200);
                          ("data", VDict [("company",
                                           VDict [("name", VStr "ACME")])])])
            = Some VNone)
         address_columns.
Proof.
  apply (extract_fields_missing_address
           [("success", VBool true); ("error", VNone);
            ("http_status", VInt 200);
            ("data", VDict [("company", VDict [("name", VStr "ACME")])])]);
    reflexivity.
Defined.

(** X12: on an envelope whose payload is false ([None] above all, as in
    every failure without a body), the flattener returns the three
    envelope fields and [None] in each of the 19 payload columns. *)
Theorem extract_fields_without_payload (api_result : dict) :
  truthy (Dict.get "data" api_result) = false ->
  extract_fields api_result
  = Return (("api_success", Dict.get "success" api_result)
            :: ("api_http_status", Dict.get "http_status" api_result)
            :: ("api_error", Dict.get "error" api_result)
            :: map (fun c => (c, VNone)) payload_columns).
Proof.
  intros H. rewrite extract_fields_flattened.
  unfold payload_ok, flattened.
  destruct (Dict.get "data" api_result) as [| |b|z|s|l|d];
    try discriminate; try reflexivity.
  - destruct b; [discriminate|reflexivity].
  - simpl in H. destruct (z =? 0) eqn:E; [|discriminate].
    unfold dict_or_false. simpl. rewrite E. reflexivity.
  - simpl in H. destruct (String.eqb s "") eqn:E; [|discriminate].
    unfold dict_or_false. simpl. rewrite E. reflexivity.
  - destruct l; [reflexivity|discriminate].
  - destruct d; [reflexivity|discriminate].
Qed.

Lemma extract_fields_without_payload_witness :
  extract_fields (envelope_exhausted (VStr "timed out"))
  = Return (("api_success", VBool false)
            :: ("api_http_status", VNone)
            :: ("api_error", VStr "request_exception: timed out")
            :: map (fun c => (c, VNone)) payload_columns).
Proof.
  apply (extract_fields_without_payload
           (envelope_exhausted (VStr "timed out"))).
  reflexivity.
Defined.

(** ** Selection of the rows to retry *)

Lemma In_masked_from (mask : list bool) (a i : nat) :
  In i (map fst (filter snd (combine (seq a (List.length mask)) mask)))
  <-> (a <= i)%nat /\ nth_error mask (i - a) = Some true.
Proof.
  revert a. induction mask as [|b mask IH]; intros a.
  - simpl. split; [tauto|]. intros [_ H]. destruct (i - a)%nat; discriminate.
  - cbn [List.length seq combine filter snd].
    destruct b; cbn [map fst In]; rewrite IH.
    + split.
      * intros [<-|[Hle H]].
        -- split; [lia|]. now rewrite Nat.sub_diag.
        -- split; [lia|]. replace (i - a)%nat with (S (i - S a)) by lia.
           exact H.
      * intros [Hle H]. destruct (Nat.eq_dec a i) as [->|Hne]; [now left|].
        right. split; [lia|].
        replace (i - a)%nat with (S (i - S a)) in H by lia. exact H.
    + split.
      * intros [Hle H]. split; [lia|].
        replace (i - a)%nat with (S (i - S a)) by lia. exact H.
      * intros [Hle H]. destruct (Nat.eq_dec a i) as [->|Hne].
        -- rewrite Nat.sub_diag in H. discriminate.
        -- split; [lia|].
           replace (i - a)%nat with (S (i - S a)) in H by lia. exact H.
Qed.

Lemma In_masked_index (mask : list bool) (i : nat) :
  In i (masked_index mask) <-> nth_error mask i = Some true.
Proof.
  unfold masked_index. rewrite In_masked_from, Nat.sub_0_r.
  split; [tauto|]. intros H. split; [lia|exact H].
Qed.


Lemma In_retry_index (df : DataFrame) (i : nat) :
  mem "api_success" (columns df) = true ->
  In i (retry_index df)
  <-> (i < List.length (rows df))%nat
      /\ not_true (cell df i "api_success") = true.
Proof.
  intros Hmem. destruct (index_of_mem _ _ Hmem) as [j Hj].
  unfold retry_index, column, cell, series_get. rewrite Hj.
  rewrite In_masked_index, map_map.
  rewrite nth_error_map.
  destruct (nth_error (rows df) i) as [row|] eqn:E; cbn [option_map].
  - assert (Hlt : (i < List.length (rows df))%nat)
      by (apply nth_error_Some; congruence).
    rewrite (nth_error_nth _ _ [] E).
    split.
    + intros H. injection H as H. now split.
    + intros [_ H]. now rewrite H.
  - apply nth_error_None in E. split; [discriminate|]. lia.
Qed.



(** X14: when the target table has the column [api_success] and every
    row's flag reads [true] in lower case, the retry-only run returns
    with the world as it was: nothing is sent and nothing is written. *)
Theorem reprocess_failed_nothing_to_retry (w : world) (f : csv_file) :
  find_file OUTPUT_CSV (files w) = Some f ->
  mem "api_success" (columns (frame_of_csv f)) = true ->
  (forall i : nat,
      (i < List.length (lines f))%nat ->
      lower (py_str (cell (frame_of_csv f) i "api_success")) = "true") ->
  reprocess_failed w = (Return tt, w).
Proof.
  intros Hfile Hmem Hall. unfold reprocess_failed.
  rewrite (bind_return _ _ w w true)
    by (unfold path_exists; now rewrite Hfile).
  cbn [negb].
  rewrite (bind_return _ _ w w (frame_of_csv f))
    by (unfold read_csv; now rewrite Hfile).
  rewrite Hmem. cbn [negb]. rewrite bind_lift.
  assert (Hnone : retry_index (frame_of_csv f) = []).
  { destruct (retry_index (frame_of_csv f)) as [|i l] eqn:E; auto.
    assert (Hin : In i (retry_index (frame_of_csv f)))
      by (rewrite E; now left).
    apply (In_retry_index _ _ Hmem) in Hin. destruct Hin as [Hi Hnot].
    unfold frame_of_csv in Hi. cbn [rows] in Hi. rewrite length_map in Hi.
    unfold not_true in Hnot. rewrite (Hall i Hi) in Hnot. discriminate. }
  destruct (index_of_mem _ _ Hmem) as [j Hj].
  unfold retry_index, column in *. rewrite Hj in *.
  now rewrite Hnone.
Qed.

Lemma reprocess_failed_nothing_to_retry_witness :
  reprocess_failed
    (fresh_world dead_server
       [(OUTPUT_CSV, mkCsv ["cliente"; "api_success"]
                           [["Loja A"; "True"]; ["Loja B"; "TRUE"]])])
  = (Return tt,
     fresh_world dead_server
       [(OUTPUT_CSV, mkCsv ["cliente"; "api_success"]
                           [["Loja A"; "True"]; ["Loja B"; "TRUE"]])]).
Proof.
  apply (reprocess_failed_nothing_to_retry _
           (mkCsv ["cliente"; "api_success"]
                  [["Loja A"; "True"]; ["Loja B"; "TRUE"]])).
  - reflexivity.
  - reflexivity.
  - intros i Hi. destruct i as [|[|i]]; [reflexivity|reflexivity|].
    simpl in Hi. lia.
Defined.

(** ** One row of the retry-only run *)

(** X19: in the retry-only run, a row whose stored identifier is false
    (no such column, [None], or the empty text) gets a false success flag
    and the marker [cnpj_invalido_retry]; every other column of the table
    keeps its cells, the pacing state and the world are as they were. *)
Theorem reprocess_row_marks_false_identifier
    (idx : nat) (p : pacing) (df_final : DataFrame) (w : world) :
  well_formed df_final ->
  (idx < List.length (rows df_final))%nat ->
  truthy (cell df_final idx "cnpj_normalizado") = false ->
  exists updated,
    reprocess_row idx p df_final w = (Return (p, updated), w)
    /\ cell updated idx "api_success" = VBool false
    /\ cell updated idx "api_error" = VStr "cnpj_invalido_retry"
    /\ List.length (rows updated) = List.length (rows df_final)
    /\ forall (i : nat) (c : string),
         c <> "api_success" -> c <> "api_error" ->
         cell updated i c = cell df_final i c.
Proof.
  intros Hwf Hidx Hfalse.
  rewrite (reprocess_row_false_identifier idx p df_final w Hfalse).
  eexists. split; [reflexivity|].
  assert (Hwf1 : well_formed (at_set idx "api_success" (VBool false)
                                     df_final))
    by now apply well_formed_at_set.
  split; [|split; [|split]].
  - rewrite cell_at_set_other_column by (auto; discriminate).
    now apply cell_at_set_same.
  - apply cell_at_set_same; auto. now rewrite length_rows_at_set.
  - now rewrite !length_rows_at_set.
  - intros i c H1 H2. rewrite !cell_at_set_other_column; auto.
Qed.

Lemma reprocess_row_marks_false_identifier_witness :
  exists updated,
    reprocess_row 0 sample_pacing
      (frame_of_csv (mkCsv ["cliente"; "api_success"]
                           [["Loja A"; "False"]]))
      (fresh_world dead_server [])
    = (Return (sample_pacing, updated), fresh_world dead_server [])
    /\ cell updated 0 "api_error" = VStr "cnpj_invalido_retry".
Proof.
  destruct (reprocess_row_marks_false_identifier 0 sample_pacing
              (frame_of_csv (mkCsv ["cliente"; "api_success"]
                                   [["Loja A"; "False"]]))
              (fresh_world dead_server []))
    as (updated & Hrun & _ & Herr & _).
  - repeat constructor.
  - simpl. lia.
  - reflexivity.
  - exists updated. split; [exact Hrun|exact Herr].
Defined.

(** X20: in the retry-only run, over a table whose header has each name
    once and has the columns of the flat record and [cnpj_original], a row
    whose stored identifier is true is looked up once through the limiter
    and the 429 policy, and when the flattener accepts the result, the row
    holds afterwards every field of the flat record under its column, the
    raw identifier under [cnpj_original] and the stored identifier under
    [cnpj_normalizado]; the table keeps its rows and its header, the other
    rows keep their cells, and the counter is the limiter's plus one. *)
Theorem reprocess_row_overwrites_fields
    (idx : nat) (p : pacing) (df_final : DataFrame) (w w1 w2 : world)
    (cw : Z * Z) (r fields : dict) :
  well_formed df_final ->
  NoDup (columns df_final) ->
  (forall c,
      In c ("cnpj_original" :: "api_success" :: "api_http_status"
            :: "api_error" :: payload_columns) ->
      In c (columns df_final)) ->
  (idx < List.length (rows df_final))%nat ->
  truthy (cell df_final idx "cnpj_normalizado") = true ->
  sleep_if_necessary (request_count p) (window_start p) w
  = (Return cw, w1) ->
  query_with_429_retry (cell df_final idx "cnpj_normalizado") w1
  = (Return r, w2) ->
  extract_fields r = Return fields ->
  exists updated,
    reprocess_row idx p df_final w
    = (Return (mkPacing (fst cw + 1) (snd cw), updated), w2)
    /\ (forall c, In c (Dict.keys fields) ->
                  cell updated idx c = Dict.get c fields)
    /\ cell updated idx "cnpj_original"
       = cell df_final idx CNPJ_COLUMN_NAME
    /\ cell updated idx "cnpj_normalizado"
       = cell df_final idx "cnpj_normalizado"
    /\ List.length (rows updated) = List.length (rows df_final)
    /\ columns updated = columns df_final
    /\ forall (i : nat) (c : string),
         i <> idx -> cell updated i c = cell df_final i c.
Proof.
  intros Hwf _ Hcols Hidx Htruthy Hsleep Hquery Hfields.
  exists (looked_up_frame idx (cell df_final idx CNPJ_COLUMN_NAME)
            (cell df_final idx "cnpj_normalizado") fields df_final).
  assert (Hwf1 : well_formed (set_fields idx fields df_final))
    by now apply well_formed_set_fields.
  assert (Hlen1 : List.length (rows (set_fields idx fields df_final))
                  = List.length (rows df_final))
    by apply length_rows_set_fields.
  pose proof (extract_fields_keys _ _ Hfields) as Hkeys.
  assert (Hnorm : In "cnpj_normalizado" (columns df_final)).
  { apply mem_true_iff.
    destruct (mem "cnpj_normalizado" (columns df_final)) eqn:E; auto.
    apply index_of_None in E. unfold cell, series_get in Htruthy.
    rewrite E in Htruthy. discriminate Htruthy. }
  assert (Hc1 : columns (set_fields idx fields df_final)
                = columns df_final).
  { apply columns_set_fields_present. intros c Hc. apply Hcols.
    rewrite Hkeys in Hc. now right. }
  assert (Hc2 : columns (at_set idx "cnpj_original"
                           (cell df_final idx CNPJ_COLUMN_NAME)
                           (set_fields idx fields df_final))
                = columns df_final).
  { rewrite columns_at_set_present; [exact Hc1|].
    rewrite Hc1. apply Hcols. now left. }
  assert (Hc3 : columns (at_set idx "cnpj_normalizado"
                           (cell df_final idx "cnpj_normalizado")
                           (at_set idx "cnpj_original"
                              (cell df_final idx CNPJ_COLUMN_NAME)
                              (set_fields idx fields df_final)))
                = columns df_final).
  { rewrite columns_at_set_present; [exact Hc2|]. now rewrite Hc2. }
  unfold looked_up_frame.
  split; [|split; [|split; [|split; [|split; [|split]]]]].
  - unfold reprocess_row. fold (cell df_final idx "cnpj_normalizado").
    fold (cell df_final idx CNPJ_COLUMN_NAME).
    rewrite Htruthy. cbn [negb].
    rewrite (bind_return _ _ _ _ _ Hsleep).
    rewrite (bind_return _ _ _ _ _ Hquery).
    rewrite bind_lift, Hfields. reflexivity.
  - intros c Hc.
    assert (Hne : c <> "cnpj_normalizado" /\ c <> "cnpj_original").
    { rewrite Hkeys in Hc. unfold payload_columns in Hc. simpl in Hc.
      split; intros ->; intuition discriminate. }
    rewrite !cell_at_set_other_column;
      auto using well_formed_at_set; try tauto.
    apply cell_set_fields_get; auto.
    rewrite Hkeys. apply payload_columns_NoDup.
  - rewrite cell_at_set_other_column
      by (auto using well_formed_at_set; discriminate).
    apply cell_at_set_same; auto. lia.
  - apply cell_at_set_same; auto using well_formed_at_set.
    rewrite length_rows_at_set. lia.
  - rewrite !length_rows_at_set. exact Hlen1.
  - exact Hc3.
  - intros i c Hne.
    destruct (mem c (columns df_final)) eqn:Hmem.
    + rewrite cell_at_set_other_row;
        auto using well_formed_at_set; [|now rewrite Hc2].
      rewrite cell_at_set_other_row; auto; [|now rewrite Hc1].
      now apply cell_set_fields_other_row.
    + apply index_of_None in Hmem.
      assert (Hmissing : forall df : DataFrame,
                 columns df = columns df_final -> cell df i c = VNone).
      { intros df Hdf. unfold cell, series_get. now rewrite Hdf, Hmem. }
      rewrite (Hmissing _ Hc3). symmetry. now apply Hmissing.
Qed.

Lemma reprocess_row_overwrites_fields_witness :
  exists updated,
    reprocess_row 1 sample_pacing (frame_of_csv enriched_table)
      (fresh_world plain_server [])
    = (Return (mkPacing 1 0, updated),
       run_events [Get "https://api.cnpja.com/office/98765432000110"]
                  (fresh_world plain_server []))
    /\ cell updated 1 "api_success" = VBool true
    /\ cell updated 1 "api_http_status" = VInt 200
    /\ cell updated 1 "api_error" = VNone
    /\ cell updated 1 "razao_social" = VStr "BETA SA"
    /\ cell updated 1 "endereco_cidade" = VStr "Olinda"
    /\ cell updated 1 "cnpj_original" = VStr "98.765.432/0001-10"
    /\ cell updated 0 "razao_social" = VStr "ACME LTDA"
    /\ columns updated = columns (frame_of_csv enriched_table).
Proof.
  pose (r := [("success", VBool true); ("error", VNone);
              ("http_status", VInt 200); ("data", plain_payload)]).
  destruct (reprocess_row_overwrites_fields 1 sample_pacing
              (frame_of_csv enriched_table)
              (fresh_world plain_server [])
              (fresh_world plain_server [])
              (run_events
                 [Get "https://api.cnpja.com/office/98765432000110"]
                 (fresh_world plain_server []))
              (0, 0) r (flattened r))
    as (updated & Hrun & Hget & Horig & _ & _ & Hcols & Hrows).
  - repeat constructor.
  - apply NoDup_of_nodup. vm_compute. reflexivity.
  - intros c Hc. apply mem_true_iff.
    unfold payload_columns in Hc. simpl in Hc.
    repeat (destruct Hc as [<-|Hc]; [reflexivity|]). destruct Hc.
  - simpl. lia.
  - reflexivity.
  - reflexivity.
  - reflexivity.
  - reflexivity.
  - exists updated. split; [exact Hrun|].
    split; [rewrite (Hget "api_success"); [reflexivity|simpl; tauto]|].
    split; [rewrite (Hget "api_http_status"); [reflexivity|simpl; tauto]|].
    split; [rewrite (Hget "api_error"); [reflexivity|simpl; tauto]|].
    split; [rewrite (Hget "razao_social"); [reflexivity|simpl; tauto]|].
    split; [rewrite (Hget "endereco_cidade"); [reflexivity|simpl; tauto]|].
    split; [rewrite Horig; reflexivity|].
    split; [rewrite (Hrows 0%nat "razao_social") by lia; reflexivity|].
    exact Hcols.
Defined.

(** ** The table that the retry-only run writes back *)

Lemma same_shape_refl (df : DataFrame) : same_shape df df.
Proof.
  repeat split; auto. exists []. now rewrite app_nil_r.
Qed.

Lemma same_shape_trans (df df' df'' : DataFrame) :
  same_shape df df' -> same_shape df' df'' -> same_shape df df''.
Proof.
  intros (Hr & (x & Hc) & Hw) (Hr' & (x' & Hc') & Hw').
  repeat split; try lia; auto.
  exists (x ++ x'). now rewrite Hc', Hc, app_assoc.
Qed.

Lemma same_shape_at_set (idx : nat) (c : string) (v : value)
    (df : DataFrame) :
  same_shape df (at_set idx c v df).
Proof.
  split; [apply length_rows_at_set|]. split; [|apply well_formed_at_set].
  unfold at_set. destruct (index_of c (columns df)); cbn [columns].
  - exists []. now rewrite app_nil_r.
  - now exists [c].
Qed.

Lemma same_shape_set_fields (idx : nat) (fields : dict) :
  forall df : DataFrame, same_shape df (set_fields idx fields df).
Proof.
  unfold set_fields.
  induction fields as [|[c v] fields IH]; intros df.
  - apply same_shape_refl.
  - simpl. eapply same_shape_trans; [apply same_shape_at_set|apply IH].
Qed.

Lemma reprocess_row_same_shape (idx : nat) (p p' : pacing)
    (df df' : DataFrame) (w w' : world) :
  reprocess_row idx p df w = (Return (p', df'), w') -> same_shape df df'.
Proof.
  unfold reprocess_row.
  destruct (truthy _); cbn [negb].
  - destruct (sleep_if_necessary_returns
                (request_count p) (window_start p) w)
      as (cw & es1 & Hs & _).
    rewrite (bind_return _ _ _ _ _ Hs).
    destruct (query_with_429_retry_total
                (series_get (columns df) (nth idx (rows df) [])
                            "cnpj_normalizado")
                (run_events es1 w))
      as (r & es2 & Hq & _).
    rewrite (bind_return _ _ _ _ _ Hq). rewrite bind_lift.
    destruct (extract_fields r) as [fields|]; [|discriminate].
    intros H. injection H as _ <- _.
    apply (same_shape_trans df (set_fields idx fields df));
      [apply same_shape_set_fields|].
    match goal with
    | |- same_shape _ (at_set idx _ _ ?mid) =>
        apply (same_shape_trans _ mid)
    end; apply same_shape_at_set.
  - intros H. injection H as _ <- _.
    match goal with
    | |- same_shape _ (at_set idx _ _ ?mid) =>
        apply (same_shape_trans _ mid)
    end; apply same_shape_at_set.
Qed.

Lemma reprocess_loop_same_shape (retry : list nat) :
  forall (p p' : pacing) (df df' : DataFrame) (w w' : world),
    reprocess_loop retry p df w = (Return (p', df'), w') ->
    same_shape df df'.
Proof.
  induction retry as [|idx retry IH]; intros p p' df df' w w' H.
  - injection H as _ <- _. apply same_shape_refl.
  - cbn [reprocess_loop] in H. unfold bind at 1 in H.
    destruct (reprocess_row idx p df w) as [[[p1 df1]|e] w1] eqn:Hrow;
      [|discriminate].
    apply (same_shape_trans df df1).
    + eapply reprocess_row_same_shape; eauto.
    + eapply IH; eauto.
Qed.

Lemma length_dedup_names (names seen : list string) :
  List.length (dedup_names seen names) = List.length names.
Proof.
  revert seen. induction names as [|n names IH]; intros seen; simpl; auto.
Qed.

Lemma well_formed_frame_of_csv (f : csv_file) :
  well_formed (frame_of_csv f).
Proof.
  unfold well_formed, frame_of_csv. cbn [rows columns].
  apply Forall_forall. intros row Hin. apply in_map_iff in Hin.
  destruct Hin as (line & <- & _).
  now rewrite length_map, length_seq, length_dedup_names.
Qed.

(** X21: whenever the retry-only run completes, the target file has as
    many lines as before; and either it is the file that was there (no
    row was selected), or its header starts with the columns that were
    read, in their order, and every line has one cell per header. *)
Theorem reprocess_failed_keeps_shape (w w' : world) (f : csv_file) :
  find_file OUTPUT_CSV (files w) = Some f ->
  reprocess_failed w = (Return tt, w') ->
  exists out,
    find_file OUTPUT_CSV (files w') = Some out
    /\ List.length (lines out) = List.length (lines f)
    /\ (out = f
        \/ ((exists extra,
                header out = columns (frame_of_csv f) ++ extra)
            /\ Forall (fun line =>
                         List.length line = List.length (header out))
                      (lines out))).
Proof.
  intros Hfile. unfold reprocess_failed.
  rewrite (bind_return _ _ w w true)
    by (unfold path_exists; now rewrite Hfile).
  cbn [negb].
  rewrite (bind_return _ _ w w (frame_of_csv f))
    by (unfold read_csv; now rewrite Hfile).
  destruct (mem "api_success" (columns (frame_of_csv f))); cbn [negb];
    [|discriminate].
  rewrite bind_lift.
  destruct (column (frame_of_csv f) "api_success") as [flags|];
    [|discriminate].
  destruct (masked_index (map not_true flags)) as [|idx retry].
  - intros H. injection H as <-. exists f. repeat split; auto.
  - rewrite (bind_return _ _ w w (clock w)) by reflexivity. cbv beta.
    destruct (reprocess_loop (idx :: retry) (mkPacing 0 (clock w))
                (frame_of_csv f) w)
      as [[[p1 df1]|e] w1] eqn:Hloop.
    2:{ rewrite (bind_raise _ _ _ _ _ Hloop). discriminate. }
    rewrite (bind_return _ _ _ _ _ Hloop).
    unfold to_csv. intros H. injection H as <-.
    apply reprocess_loop_same_shape in Hloop.
    destruct Hloop as (Hlen & Hcols & Hwf).
    specialize (Hwf (well_formed_frame_of_csv f)).
    exists (csv_of_frame df1). cbn [files snd].
    split; [apply find_store_same|].
    unfold csv_of_frame. cbn [lines header]. split.
    + rewrite length_map, Hlen. unfold frame_of_csv. cbn [rows].
      apply length_map.
    + right. split; [exact Hcols|].
      apply Forall_forall. intros line Hin. apply in_map_iff in Hin.
      destruct Hin as (row & <- & Hrow). rewrite length_map.
      unfold well_formed in Hwf. rewrite Forall_forall in Hwf.
      now apply Hwf.
Qed.

Lemma reprocess_failed_keeps_shape_witness :
  exists out,
    find_file OUTPUT_CSV
      (files (snd (reprocess_failed (snd (main two_row_world)))))
    = Some out
    /\ List.length (lines out) = 2%nat.
Proof.
  pose (w1 := snd (main two_row_world)).
  pose (f := match find_file OUTPUT_CSV (files w1) with
             | Some f => f
             | None => mkCsv [] []
             end).
  destruct (reprocess_failed_keeps_shape w1 (snd (reprocess_failed w1)) f)
    as (out & Hout & Hlen & _).
  - vm_compute. reflexivity.
  - vm_compute. reflexivity.
  - exists out. split; [exact Hout|]. rewrite Hlen. vm_compute.
    reflexivity.
Defined.

(** ** Duration of an exhausted lookup *)

Lemma clock_backoff_events (url : string) (k : nat) :
  forall (a : nat) (w : world),
    clock (run_events (backoff_events url a k) w)
    = clock w + seconds (2 ^ Z.of_nat (a + k) - 2 ^ Z.of_nat a).
Proof.
  induction k as [|k IH]; intros a w.
  - rewrite Nat.add_0_r, Z.sub_diag. unfold seconds. simpl. lia.
  - rewrite backoff_events_S, !run_events_cons, IH.
    cbn [apply_event clock]. unfold seconds.
    replace (S a + k)%nat with (a + S k)%nat by lia.
    rewrite (Nat2Z.inj_succ a), Z.pow_succ_r by lia. lia.
Qed.

Lemma count_gets_backoff_events (url : string) (k : nat) :
  forall a : nat, count_gets (backoff_events url a k) = k.
Proof.
  induction k as [|k IH]; intros a; [reflexivity|].
  rewrite backoff_events_S.
  change (count_gets (Get url :: Sleep (seconds (2 ^ Z.of_nat a))
                      :: backoff_events url (S a) k))
    with (S (count_gets (backoff_events url (S a) k))).
  now rewrite IH.
Qed.

(** X22: when every attempt raises a network error, the client returns
    after [max_retries] requests and [2 ^ max_retries - 1] seconds of
    sleep in all: 31 seconds with the default of 5 attempts. *)
Theorem fetch_cnpj_data_exhausted_duration
    (cnpj : value) (max_retries : nat) (w : world) (e : nat -> string) :
  (forall i, (i < max_retries)%nat ->
             nth_reply w (office_url cnpj) i = RequestException (e i)) ->
  clock (snd (fetch_cnpj_data cnpj max_retries w))
  = clock w + seconds (2 ^ Z.of_nat max_retries - 1)
  /\ issued (snd (fetch_cnpj_data cnpj max_retries w))
     = (issued w + max_retries)%nat.
Proof.
  intros Hfail. unfold fetch_cnpj_data.
  rewrite (fetch_attempts_backoff max_retries cnpj 0 max_retries VNone w e
             0 None); auto; try lia.
  rewrite Nat.ltb_irrefl, app_nil_r. cbn [snd].
  rewrite clock_backoff_events, issued_run_events,
    count_gets_backoff_events.
  split; reflexivity.
Qed.

Lemma fetch_cnpj_data_exhausted_duration_witness :
  clock (snd (fetch_cnpj_data sample_cnpj 5 (fresh_world dead_server [])))
  = 31000
  /\ issued (snd (fetch_cnpj_data sample_cnpj 5
                    (fresh_world dead_server [])))
     = 5%nat.
Proof.
  apply (fetch_cnpj_data_exhausted_duration sample_cnpj 5
           (fresh_world dead_server [])
           (fun _ => "name resolution failed")).
  intros i Hi. reflexivity.
Defined.

(** ** The header that the full run writes *)

Lemma In_keys_set_same (k : string) (v : value) (d : dict) :
  In k (Dict.keys (Dict.set k v d)).
Proof.
  apply (lookup_Some_key k _ v). apply lookup_set_same.
Qed.

Lemma In_keys_set_other (k k' : string) (v : value) (d : dict) :
  In k (Dict.keys d) -> In k (Dict.keys (Dict.set k' v d)).
Proof.
  induction d as [|[k2 v2] d IH]; simpl; [tauto|].
  destruct (String.eqb k' k2); simpl; tauto.
Qed.

Lemma main_row_record_keys
    (cols : list string) (idx : nat) (row : list value) (p p' : pacing)
    (resultados resultados' : list dict) (w w' : world) :
  main_row cols idx row p resultados w = (Return (p', resultados'), w') ->
  exists record,
    resultados' = resultados ++ [record]
    /\ In "cnpj_normalizado" (Dict.keys record).
Proof.
  unfold main_row. rewrite bind_lift.
  destruct (series_item cols row CNPJ_COLUMN_NAME) as [cnpj_raw|];
    [|discriminate].
  rewrite bind_lift.
  destruct (series_item cols row "cnpj_normalizado") as [cnpj|];
    [|discriminate].
  destruct (truthy cnpj); cbn [negb].
  - destruct (sleep_if_necessary_returns
                (request_count p) (window_start p) w)
      as (cw & es1 & Hs & _).
    rewrite (bind_return _ _ _ _ _ Hs).
    destruct (query_with_429_retry_total cnpj (run_events es1 w))
      as (r & es2 & Hq & _).
    rewrite (bind_return _ _ _ _ _ Hq). rewrite bind_lift.
    destruct (extract_fields r) as [fields|]; [|discriminate].
    intros H. injection H as _ <- _.
    eexists. split; [reflexivity|]. apply In_keys_set_same.
  - intros H. injection H as _ <- _.
    eexists. split; [reflexivity|]. simpl. tauto.
Qed.

Lemma main_loop_record_keys (cols : list string)
    (items : list (nat * list value)) :
  forall (p p' : pacing) (resultados resultados' : list dict)
         (w w' : world),
    main_loop cols items p resultados w = (Return (p', resultados'), w') ->
    Forall (fun d => In "cnpj_normalizado" (Dict.keys d)) resultados ->
    Forall (fun d => In "cnpj_normalizado" (Dict.keys d)) resultados'.
Proof.
  induction items as [|[idx row] items IH];
    intros p p' res res' w w' H Hall.
  - injection H as _ <- _. exact Hall.
  - cbn [main_loop] in H. unfold bind at 1 in H.
    destruct (main_row cols idx row p res w)
      as [[[p1 res1]|e] w1] eqn:Hrow; [|discriminate].
    apply main_row_record_keys in Hrow. destruct Hrow as (record & -> & Hk).
    apply (IH _ _ _ _ _ _ H). apply Forall_app. split; auto.
Qed.

Lemma In_remove_nth {A} (x d : A) (j : nat) (l : list A) :
  In x l -> nth j l d <> x -> In x (remove_nth j l).
Proof.
  revert j. induction l as [|h t IH]; intros j Hin Hne; [destruct Hin|].
  destruct j as [|j]; simpl in *.
  - destruct Hin; [congruence|auto].
  - destruct Hin as [->|Hin]; [now left|]. right. now apply IH.
Qed.

(** X23: whenever the full run completes, the header it writes holds the
    name of the identifier column at least twice: once for the source
    column, and once more for the joined column [cnpj_normalizado], whose
    name clashes with the source table's and gets the suffix [api]. *)
Theorem main_writes_identifier_header_twice (w w' : world) :
  main w = (Return tt, w') ->
  exists out,
    find_file OUTPUT_CSV (files w') = Some out
    /\ (2 <= count_occ string_dec (header out) CNPJ_COLUMN_NAME)%nat.
Proof.
  unfold main.
  destruct (find_file INPUT_CSV (files w)) as [f|] eqn:Hfile.
  2:{ unfold bind at 1. unfold path_exists at 1. rewrite Hfile.
      discriminate. }
  rewrite (bind_return _ _ w w true)
    by (unfold path_exists; now rewrite Hfile).
  cbn [negb].
  rewrite (bind_return _ _ w w (frame_of_csv f))
    by (unfold read_csv; now rewrite Hfile).
  destruct (mem CNPJ_COLUMN_NAME (columns (frame_of_csv f))) eqn:Hmem;
    cbn [negb]; [|discriminate].
  rewrite bind_lift.
  destruct (column (frame_of_csv f) CNPJ_COLUMN_NAME) as [raw|];
    [|discriminate].
  set (df := set_column "cnpj_normalizado" (map normalize_cnpj raw)
                        (frame_of_csv f)).
  rewrite (bind_return _ _ w w (clock w)) by reflexivity. cbv beta.
  destruct (main_loop (columns df) (skipn START_INDEX (iterrows df))
                      (mkPacing 0 (clock w)) [] w)
    as [[[p1 records]|e] w1] eqn:Hloop.
  2:{ rewrite (bind_raise _ _ _ _ _ Hloop). discriminate. }
  rewrite (bind_return _ _ _ _ _ Hloop). rewrite bind_lift. cbn [snd].
  apply main_loop_record_keys in Hloop; [|constructor].
  unfold set_index, frame_of_records. cbn [columns rows].
  destruct (index_of "index_origem" (all_keys records)) as [j|] eqn:Hj;
    [|discriminate].
  unfold to_csv. intros H. injection H as <-.
  eexists. cbn [files]. split; [apply find_store_same|].
  unfold csv_of_frame, join_left. cbn [header columns ix_columns].
  rewrite count_occ_app.
  assert (Hleft : In CNPJ_COLUMN_NAME (columns df)).
  { apply mem_true_iff, mem_columns_set_column. now left. }
  assert (Hnorm : mem "cnpj_normalizado" (columns df) = true).
  { apply mem_columns_set_column. now right. }
  assert (Hright : In "cnpj_normalizado"
                      (remove_nth j (all_keys records))).
  { apply index_of_Some in Hj. destruct Hj as [_ Hnth].
    apply (In_remove_nth _ ""); [|rewrite Hnth; discriminate].
    destruct records as [|record rest].
    - unfold all_keys in Hnth. simpl in Hnth.
      destruct j; discriminate Hnth.
    - inversion Hloop as [|? ? Hk _]; subst.
      apply (all_keys_contains _ record); [now left|exact Hk]. }
  apply (count_occ_In string_dec) in Hleft.
  assert (Hin : In CNPJ_COLUMN_NAME
                   (map (fun c => if mem c (columns df) then c +++ "api"
                                  else c)
                        (remove_nth j (all_keys records)))).
  { apply in_map_iff. exists "cnpj_normalizado". split; [|exact Hright].
    rewrite Hnorm. reflexivity. }
  apply (count_occ_In string_dec) in Hin. lia.
Qed.

Lemma main_writes_identifier_header_twice_witness :
  exists out,
    find_file OUTPUT_CSV (files (snd (main short_identifier_world)))
    = Some out
    /\ (2 <= count_occ string_dec (header out) CNPJ_COLUMN_NAME)%nat.
Proof.
  apply (main_writes_identifier_header_twice short_identifier_world
           (snd (main short_identifier_world))).
  reflexivity.
Defined.
